(** * CCPM build tool: a shallow embedding of [build.py] and its properties.

    The script packages source trees into [.ccp] archives (JSON, zlib,
    base64) and maintains [pool/index.json].  Below, the script is embedded
    function by function over an explicit model of the file system and of
    standard output; Python exceptions are an explicit result type.

    Conventions of the embedding
    - a Python [str] is a Rocq [string] holding the UTF-8 encoding of the
      text (so [str.encode()] is the identity on the representation and
      [bytes.decode()] is a validity check); a Python [bytes] is a
      [list byte];
    - the interpreter runs on a POSIX system with a UTF-8 locale: text files
      are written without newline translation and read with universal
      newlines;
    - JSON numbers are integers (floating point is outside the embedding);
    - the [json], [zlib] and [hashlib] modules are parameters of the
      development (record [pylib]); [base64] is modelled concretely. *)

From Stdlib Require Import ZArith List String Ascii Bool Lia Permutation.
From Stdlib Require Import DecimalString.
From Stdlib.Strings Require Import Byte.
Import ListNotations.
Local Open Scope string_scope.
Local Open Scope Z_scope.

(** ** Python exceptions and results *)

Module Py.

(** Hashable dictionary keys (the scalars JSON can carry). *)
Inductive key : Type :=
| KStr (s : string)
| KInt (z : Z)
| KBool (b : bool)
| KNone.

(** The [Exception] subclasses the script can meet. *)
Inductive exn : Type :=
| KeyError (k : key)
| TypeError
| ValueError
| IndexError
| FileNotFoundError
| NotADirectoryError
| OSError
| UnicodeDecodeError
| JSONDecodeError
| ZlibError
| BinasciiError
| RecursionError.

Inductive outcome (A : Type) : Type :=
| Ok (a : A)
| Raise (e : exn).

Arguments Ok {A} a.
Arguments Raise {A} e.

Definition obind {A B} (m : outcome A) (f : A -> outcome B) : outcome B :=
  match m with
  | Ok a => f a
  | Raise e => Raise e
  end.

End Py.
Export Py.

Declare Scope py_scope.
Delimit Scope py_scope with py.
Notation "'let?' x ':=' m 'in' k" := (obind m (fun x => k))
  (at level 10, x pattern, m at level 100, k at level 200) : py_scope.
Local Open Scope py_scope.

(** ** Bytes and text *)

Definition bytes := list byte.

(** A byte as a number, and back (the low eight bits). *)
Definition bz (b : byte) : Z := Z.of_N (Byte.to_N b).

Definition byte_of_Z (z : Z) : byte :=
  match Byte.of_N (Z.to_N (z mod 256)) with
  | Some b => b
  | None => x00
  end.

(** [str.encode()] with the default UTF-8 codec. *)
Definition str_encode (s : string) : bytes := list_byte_of_string s.

(** Well-formed UTF-8 (Unicode table 3-7): [need] continuation bytes are
    still expected and the next one must lie in [lo .. hi]. *)
Fixpoint utf8_scan (need : nat) (lo hi : Z) (l : bytes) : bool :=
  match l with
  | [] => match need with O => true | S _ => false end
  | b :: r =>
    let x := bz b in
    match need with
    | O =>
      if x <? 128 then utf8_scan 0 128 191 r
      else if (194 <=? x) && (x <=? 223) then utf8_scan 1 128 191 r
      else if x =? 224 then utf8_scan 2 160 191 r
      else if x =? 237 then utf8_scan 2 128 159 r
      else if (225 <=? x) && (x <=? 239) then utf8_scan 2 128 191 r
      else if x =? 240 then utf8_scan 3 144 191 r
      else if (241 <=? x) && (x <=? 243) then utf8_scan 3 128 191 r
      else if x =? 244 then utf8_scan 3 128 143 r
      else false
    | S n =>
      if (lo <=? x) && (x <=? hi) then utf8_scan n 128 191 r else false
    end
  end.

Definition utf8_valid (l : bytes) : bool := utf8_scan 0 128 191 l.

(** [bytes.decode()] with the default UTF-8 codec. *)
Definition bytes_decode (b : bytes) : outcome string :=
  if utf8_valid b then Ok (string_of_list_byte b) else Raise UnicodeDecodeError.

(** Universal newlines on input: CR LF and a lone CR both read as LF. *)
Fixpoint universal_newlines (l : bytes) : bytes :=
  match l with
  | [] => []
  | b :: r =>
    if Byte.eqb b x0d then
      x0a :: match r with
             | c :: r' => if Byte.eqb c x0a then universal_newlines r'
                          else universal_newlines r
             | [] => []
             end
    else b :: universal_newlines r
  end.

(** What [file.read()] returns for a file opened in text mode. *)
Definition read_text (content : bytes) : outcome string :=
  if utf8_valid content
  then Ok (string_of_list_byte (universal_newlines content))
  else Raise UnicodeDecodeError.

(** What [file.write(s)] stores for a file opened in text mode. *)
Definition write_text (s : string) : bytes := str_encode s.

(** ** base64 *)

Module Base64.

Definition alphabet : bytes :=
  list_byte_of_string
    "ABCDEFGHIJKLMNOPQRSTUVWXYZabcdefghijklmnopqrstuvwxyz0123456789+/".

Definition pad : byte := "="%byte.

Definition table_b2a (n : Z) : byte := nth (Z.to_nat n) alphabet pad.

Fixpoint index_of (b : byte) (l : bytes) (i : Z) : option Z :=
  match l with
  | [] => None
  | c :: r => if Byte.eqb b c then Some i else index_of b r (i + 1)
  end.

Definition table_a2b (b : byte) : option Z := index_of b alphabet 0.

(** [binascii.b2a_base64(data, newline=False)]: three bytes give four
    characters, the tail is padded. *)
Fixpoint b2a (l : bytes) : bytes :=
  match l with
  | [] => []
  | a :: r1 =>
    let c1 := table_b2a (Z.shiftr (bz a) 2) in
    match r1 with
    | [] => [c1; table_b2a (Z.shiftl (Z.land (bz a) 3) 4); pad; pad]
    | b :: r2 =>
      let c2 := table_b2a (Z.lor (Z.shiftl (Z.land (bz a) 3) 4)
                                  (Z.shiftr (bz b) 4)) in
      match r2 with
      | [] => [c1; c2; table_b2a (Z.shiftl (Z.land (bz b) 15) 2); pad]
      | c :: r3 =>
        c1 :: c2
          :: table_b2a (Z.lor (Z.shiftl (Z.land (bz b) 15) 2)
                              (Z.shiftr (bz c) 6))
          :: table_b2a (Z.land (bz c) 63)
          :: b2a r3
      end
    end
  end.

(** [binascii.a2b_base64] in its default, non-strict mode: characters
    outside the alphabet are skipped; enough padding ends the input. *)
Fixpoint a2b (quad_pos : nat) (leftchar : Z) (pads : nat) (l : bytes)
  : outcome bytes :=
  match l with
  | [] =>
    match quad_pos with
    | O => Ok []
    | _ => Raise BinasciiError
    end
  | ch :: r =>
    if Byte.eqb ch pad then
      if Nat.leb 2 quad_pos then
        if Nat.leb 4 (quad_pos + S pads) then Ok []
        else a2b quad_pos leftchar (S pads) r
      else a2b quad_pos leftchar pads r
    else
      match table_a2b ch with
      | None => a2b quad_pos leftchar pads r
      | Some v =>
        match quad_pos with
        | 0%nat => a2b 1 v 0 r
        | 1%nat =>
          let? out := a2b 2 (Z.land v 15) 0 r in
          Ok (byte_of_Z (Z.lor (Z.shiftl leftchar 2) (Z.shiftr v 4)) :: out)
        | 2%nat =>
          let? out := a2b 3 (Z.land v 3) 0 r in
          Ok (byte_of_Z (Z.lor (Z.shiftl leftchar 4) (Z.shiftr v 2)) :: out)
        | _ =>
          let? out := a2b 0 0 0 r in
          Ok (byte_of_Z (Z.lor (Z.shiftl leftchar 6) v) :: out)
        end
      end
  end.

(** [base64.b64encode(data)]. *)
Definition b64encode (data : bytes) : bytes := b2a data.

Definition is_ascii (b : byte) : bool := bz b <? 128.

(** [base64.b64decode(s)] for a [str] argument: the text is first encoded
    as ASCII ([ValueError] when it is not), then decoded. *)
Definition b64decode (s : string) : outcome bytes :=
  let raw := str_encode s in
  if forallb is_ascii raw then a2b 0 0 0 raw else Raise ValueError.

End Base64.

(** ** Python values *)

(** The objects the script handles: what [json.loads] returns, plus
    dictionaries keyed by any hashable scalar. *)
#[warnings="-register-all"]
Inductive value : Type :=
| VNone
| VBool (b : bool)
| VInt (z : Z)
| VStr (s : string)
| VList (l : list value)
| VDict (d : list (key * value)).

(** A dictionary: its items in insertion order. *)
Definition dict := list (key * value).

(** Key equality as Python hashes and compares: [True == 1], [False == 0]. *)
Definition key_eqb (a b : key) : bool :=
  match a, b with
  | KStr s, KStr t => String.eqb s t
  | KNone, KNone => true
  | KInt x, KInt y => x =? y
  | KBool x, KBool y => Bool.eqb x y
  | KInt x, KBool y => x =? (if y then 1 else 0)
  | KBool x, KInt y => (if x then 1 else 0) =? y
  | _, _ => false
  end.

(** [d.get(k)]. *)
Fixpoint dict_get (k : key) (d : dict) : option value :=
  match d with
  | [] => None
  | (k', v) :: r => if key_eqb k k' then Some v else dict_get k r
  end.

(** [d[k] = v]: an existing key keeps its place, a new one goes last. *)
Fixpoint dict_set (k : key) (v : value) (d : dict) : dict :=
  match d with
  | [] => [(k, v)]
  | (k', v') :: r =>
    if key_eqb k k' then (k', v) :: r else (k', v') :: dict_set k v r
  end.

(** [k in d]. *)
Definition dict_mem (k : key) (d : dict) : bool :=
  match dict_get k d with Some _ => true | None => false end.

(** [hash(v)]: lists and dictionaries are unhashable. *)
Definition to_key (v : value) : outcome key :=
  match v with
  | VStr s => Ok (KStr s)
  | VInt z => Ok (KInt z)
  | VBool b => Ok (KBool b)
  | VNone => Ok KNone
  | VList _ | VDict _ => Raise TypeError
  end.

(** [sub in s] for two strings. *)
Fixpoint str_contains (sub s : string) : bool :=
  if prefix sub s then true
  else match s with
       | EmptyString => false
       | String _ r => str_contains sub r
       end.

(** [v == s] for a string [s]. *)
Definition is_str (s : string) (v : value) : bool :=
  match v with
  | VStr t => String.eqb s t
  | _ => false
  end.

(** [item in container] for a string [item]. *)
Definition py_contains (container : value) (item : string) : outcome bool :=
  match container with
  | VDict d => Ok (dict_mem (KStr item) d)
  | VList l => Ok (existsb (is_str item) l)
  | VStr s => Ok (str_contains item s)
  | VNone | VBool _ | VInt _ => Raise TypeError
  end.

(** [container[k]] for a string [k]. *)
Definition py_getitem (container : value) (k : string) : outcome value :=
  match container with
  | VDict d =>
    match dict_get (KStr k) d with
    | Some v => Ok v
    | None => Raise (KeyError (KStr k))
    end
  | _ => Raise TypeError
  end.

(** [container[k] = v] for a string [k]. *)
Definition py_setitem (container : value) (k : string) (v : value)
  : outcome value :=
  match container with
  | VDict d => Ok (VDict (dict_set (KStr k) v d))
  | _ => Raise TypeError
  end.

(** [l[i] = v] for an index in range. *)
Fixpoint list_assign (l : list value) (i : nat) (v : value) : list value :=
  match l, i with
  | [], _ => []
  | _ :: r, O => v :: r
  | x :: r, S j => x :: list_assign r j v
  end.

(** [container[k] = v] for an arbitrary object [k]. *)
Definition py_setitem_obj (container k v : value) : outcome value :=
  match container with
  | VDict d => let? hk := to_key k in Ok (VDict (dict_set hk v d))
  | VList l =>
    let assign (i : Z) :=
      let n := Z.of_nat (List.length l) in
      let j := if i <? 0 then i + n else i in
      if (0 <=? j) && (j <? n)
      then Ok (VList (list_assign l (Z.to_nat j) v))
      else Raise IndexError in
    match k with
    | VInt i => assign i
    | VBool b => assign (if b then 1 else 0)
    | _ => Raise TypeError
    end
  | _ => Raise TypeError
  end.

(** [container[k]... = ...]: fetch the object under [k], mutate it, and see
    the mutation through [container]. *)
Definition py_update (container : value) (k : string)
           (f : value -> outcome value) : outcome value :=
  let? item := py_getitem container k in
  let? item' := f item in
  py_setitem container k item'.

(** ** Strings of file names *)

(** A continuation byte of UTF-8. *)
Definition is_cont (b : byte) : bool := (128 <=? bz b) && (bz b <? 192).

(** Removes the last code point of a reversed UTF-8 string. *)
Fixpoint drop_char_rev (l : bytes) : bytes :=
  match l with
  | [] => []
  | b :: r => if is_cont b then drop_char_rev r else r
  end.

(** [s[:-n]] for [n > 0]. *)
Definition str_drop_last (n : nat) (s : string) : string :=
  string_of_list_byte
    (rev (Nat.iter n drop_char_rev (rev (list_byte_of_string s)))).

(** [s.split(".", maxsplit=1)] when it has two parts. *)
Fixpoint split_dot (s : string) : option (string * string) :=
  match s with
  | EmptyString => None
  | String c r =>
    if Ascii.eqb c "." then Some (EmptyString, r)
    else match split_dot r with
         | Some (a, b) => Some (String c a, b)
         | None => None
         end
  end.

(** [c in s] for a character. *)
Fixpoint has_char (c : ascii) (s : string) : bool :=
  match s with
  | EmptyString => false
  | String d r => Ascii.eqb c d || has_char c r
  end.

(** The last character of a string. *)
Fixpoint last_char (s : string) : option ascii :=
  match s with
  | EmptyString => None
  | String c r =>
    match last_char r with
    | Some x => Some x
    | None => Some c
    end
  end.

(** [s.endswith("/")]. *)
Definition ends_slash (s : string) : bool :=
  match last_char s with
  | Some c => Ascii.eqb c "/"
  | None => false
  end.

(** [s[n:]]. *)
Fixpoint str_drop (n : nat) (s : string) : string :=
  match n, s with
  | O, _ => s
  | S _, EmptyString => EmptyString
  | S m, String _ r => str_drop m r
  end.

(** [s.removeprefix(p)]. *)
Definition removeprefix (p s : string) : string :=
  if prefix p s then str_drop (String.length p) s else s.

(** [os.path.join(a, b)] on a POSIX system. *)
Definition path_join (a b : string) : string :=
  if prefix "/" b then b
  else if String.eqb a "" || ends_slash a then a ++ b
  else a ++ "/" ++ b.

(** ** The file system and standard output *)

(** A directory of regular files and sub-directories, each list in the
    order the directory is listed. *)
#[warnings="-register-all"]
Inductive tree : Type :=
| Dir (files : list (string * bytes)) (subdirs : list (string * tree)).

(** One directory [./packages/<name>]: its [manifest.json], when there is
    one, and its [source/] directory (an absent one reads as an empty
    one: [os.walk] lists nothing for either). *)
Record package_dir : Type := {
  manifest_file : option bytes;
  source : tree
}.

(** An entry of [./packages]: a regular file, or a directory that may
    hold the sources of a package. *)
Inductive dir_entry : Type :=
| RegularFile (content : bytes)
| Directory (d : package_dir).

(** [os.walk(top)]: top-down, each directory with the names of its
    files. *)
Fixpoint os_walk (top : string) (t : tree) : list (string * list string) :=
  match t with
  | Dir files subdirs =>
    (top, map fst files)
      :: flat_map (fun sd => os_walk (path_join top (fst sd)) (snd sd)) subdirs
  end.

(** The files at and below a directory, each under the path of the
    directory joined with its name. *)
Fixpoint tree_files (top : string) (t : tree) : list (string * bytes) :=
  match t with
  | Dir files subdirs =>
    app (map (fun f => (path_join top (fst f), snd f)) files)
        (flat_map (fun sd => tree_files (path_join top (fst sd)) (snd sd))
                  subdirs)
  end.

(** The state the script runs in.  [packages_dir] and [pool_dir] list the
    entries of [./packages] (files and directories) and [./pool] (regular
    files) in [os.scandir] order; entry names are file names (not empty,
    without [/]).  [stdout] holds the printed lines. *)
Record world : Type := {
  packages_dir : list (string * dir_entry);
  pool_dir : list (string * bytes);
  stdout : list string
}.

(** Directory listings: lookup of an entry, and creation or replacement
    of one (a new entry is listed last). *)
Fixpoint assoc {A} (k : string) (l : list (string * A)) : option A :=
  match l with
  | [] => None
  | (k', a) :: r => if String.eqb k k' then Some a else assoc k r
  end.

Fixpoint assoc_set {A} (k : string) (a : A) (l : list (string * A))
  : list (string * A) :=
  match l with
  | [] => [(k, a)]
  | (k', a') :: r =>
    if String.eqb k k' then (k', a) :: r else (k', a') :: assoc_set k a r
  end.

(** Computations with output, files and exceptions: what was printed or
    written before an exception stays. *)
Definition M (A : Type) : Type := world -> outcome A * world.

Definition ret {A} (a : A) : M A := fun w => (Ok a, w).

Definition raise {A} (e : exn) : M A := fun w => (Raise e, w).

Definition bind {A B} (m : M A) (f : A -> M B) : M B :=
  fun w =>
    match m w with
    | (Ok a, w') => f a w'
    | (Raise e, w') => (Raise e, w')
    end.

Definition lift {A} (o : outcome A) : M A := fun w => (o, w).

Notation "x <- m ;; k" := (bind m (fun x => k))
  (at level 61, m at next level, right associativity) : py_scope.
Notation "m ;; k" := (bind m (fun _ => k))
  (at level 61, right associativity) : py_scope.

(** [try: m except ...: h]; [h e = None] when no clause matches [e]. *)
Definition try_except {A} (m : M A) (h : exn -> option (M A)) : M A :=
  fun w =>
    match m w with
    | (Ok a, w') => (Ok a, w')
    | (Raise e, w') =>
      match h e with
      | Some k => k w'
      | None => (Raise e, w')
      end
    end.

(** A [for] loop threading the variables its body assigns. *)
Fixpoint for_each {X S} (xs : list X) (body : S -> X -> M S) (s : S) : M S :=
  match xs with
  | [] => ret s
  | x :: r => s' <- body s x ;; for_each r body s'
  end.

(** The world after one more line of output. *)
Definition say (line : string) (w : world) : world :=
  {| packages_dir := packages_dir w;
     pool_dir := pool_dir w;
     stdout := app (stdout w) [line] |}.

Definition print (line : string) : M unit := fun w => (Ok tt, say line w).

(** The character no path may contain. *)
Definition NUL : ascii := Ascii.zero.

(** [open(f"./pool/{fname}", mode="r")] followed by [file.read()]. *)
Definition pool_read (fname : string) : M string :=
  fun w =>
    match assoc fname (pool_dir w) with
    | Some content => (read_text content, w)
    | None => (Raise FileNotFoundError, w)
    end.

(** The world with [content] in the file [fname] of the pool.  A file
    that is created goes last in the listing here; where a file system
    puts it is not fixed, so a property of repair mode on a pool that a
    build has written is stated for every order of the listing. *)
Definition pool_store (fname : string) (content : bytes) (w : world) : world :=
  {| packages_dir := packages_dir w;
     pool_dir := assoc_set fname content (pool_dir w);
     stdout := stdout w |}.

(** [open(f"./pool/{fname}", mode="w")]: the file is created or emptied.
    The pool has no sub-directories, so a name with [/] cannot be opened
    ([OSError] stands for the [FileNotFoundError] or [NotADirectoryError]
    raised then; no handler on that path tells them apart). *)
Definition pool_open_w (fname : string) : M unit :=
  fun w =>
    if has_char NUL fname then (Raise ValueError, w)
    else if has_char "/" fname then (Raise OSError, w)
    else (Ok tt, pool_store fname [] w).

(** [file.write(text)] and the close at the end of the [with] block. *)
Definition pool_write (fname : string) (text : string) : M unit :=
  fun w => (Ok tt, pool_store fname (write_text text) w).

(** ** The standard-library modules the script calls *)

Record pylib : Type := {
  (** [hashlib.sha256(data).hexdigest()] *)
  sha256_hexdigest : bytes -> string;
  (** [zlib.compress(data, level=zlib.Z_BEST_COMPRESSION)] *)
  zlib_compress : bytes -> bytes;
  (** [zlib.decompress(data)]; [None] is [zlib.error] *)
  zlib_decompress : bytes -> option bytes;
  (** [json.dumps(obj)] *)
  json_dumps : value -> string;
  (** [json.loads(text)] for a [str]: the value, or the exception the
      parser raises ([json.JSONDecodeError] for a text that is not JSON,
      [ValueError] for an integer of too many digits, [RecursionError]
      for a text nested too deep) *)
  json_loads : string -> outcome value;
  (** [json.loads(data)] for a [bytes], which the module decodes first *)
  json_loads_bytes : bytes -> outcome value;
  (** [format(obj, "")] as an f-string applies it to an object that is not
      a [str] *)
  py_format : value -> string;
  (** [str(e)] for an exception *)
  exn_str : exn -> string
}.

(** ** The script *)

Definition PACKAGES_ROOT_SRC_DIR := "./packages".
Definition PACKAGES_SRC_DIR := "source".
Definition MANIFEST_FILE := "manifest.json".
Definition MANIFEST_FIELDS : list string :=
  [ "description"; "license"; "authors"; "maintainers"; "version";
    "dependencies" ].
Definition PACKAGES_POOL_DIR := "./pool".
Definition INDEX_FILE := "index.json".

(** What [build_and_write_package] and [read_package] return: the
    dictionary with the keys ["manifest"] and ["digest"]. *)
Record package : Type := {
  manifest : value;
  digest : string
}.

(** A replacement field [{v}] of an f-string. *)
Definition fmt (lib : pylib) (v : value) : string :=
  match v with
  | VStr s => s
  | _ => py_format lib v
  end.

(** The name of an archive in the pool, [f"{name}.{version}.ccp"]. *)
Definition archive_name (name version : string) : string :=
  name ++ "." ++ version ++ ".ccp".

(** The dictionary literal an index starts a package with. *)
Definition empty_entry : value :=
  VDict [ (KStr "description", VStr "");
          (KStr "versions", VDict []);
          (KStr "latest_version", VStr "") ].

(** The dictionary literal of one version in the index. *)
Definition version_entry (dg : string) (dependencies : value) : value :=
  VDict [ (KStr "digest", VStr dg); (KStr "dependencies", dependencies) ].

(** The dictionary literal of one file in a record. *)
Definition file_entry (content dg : string) : value :=
  VDict [ (KStr "content", VStr content); (KStr "digest", VStr dg) ].

Section Script.

Variable lib : pylib.

(** The names of the entries of [./packages]. *)
Definition get_source_packages : M (list string) :=
  fun w => (Ok (map fst (packages_dir w)), w).

(** The grouping step of [get_built_packages]. *)
Fixpoint group_add (name version : string) (rtn : list (string * list string))
  : list (string * list string) :=
  match rtn with
  | [] => [(name, [version])]
  | (n, vs) :: r =>
    if String.eqb name n then (n, app vs [version]) :: r
    else (n, vs) :: group_add name version r
  end.

(** The versions in the pool, by package name: a dictionary in insertion
    order. *)
Definition get_built_packages : M (list (string * list string)) :=
  fun w =>
    let entries :=
      filter (fun n => negb (String.eqb n INDEX_FILE)) (map fst (pool_dir w)) in
    for_each entries
      (fun rtn entry =>
         match split_dot (str_drop_last 4 entry) with
         | Some (name, version) => ret (group_add name version rtn)
         | None => raise ValueError
         end)
      [] w.

(** [f"{PACKAGES_ROOT_SRC_DIR}/{name}/{PACKAGES_SRC_DIR}/"]. *)
Definition source_path (name : string) : string :=
  PACKAGES_ROOT_SRC_DIR ++ "/" ++ name ++ "/" ++ PACKAGES_SRC_DIR ++ "/".

(** The prefix [get_package_files] gives the files of the directory
    [root]. *)
Definition root_path (path root : string) : string :=
  if String.eqb root path then "" else removeprefix path root ++ "/".

(** [os.walk] lists nothing for a path that is no directory: the error
    of its [scandir] is dropped. *)
Definition get_package_files (name : string) : M (list string) :=
  fun w =>
    let path := source_path name in
    match assoc name (packages_dir w) with
    | Some (Directory d) =>
      (Ok (flat_map
             (fun rf => map (fun file => root_path path (fst rf) ++ file)
                            (snd rf))
             (os_walk path (source d))),
       w)
    | Some (RegularFile _) | None => (Ok [], w)
    end.

(** [open(f"./packages/{name}/manifest.json")] and [file.read()]; a path
    through a regular file cannot be opened. *)
Definition read_manifest_file (name : string) : M string :=
  fun w =>
    match assoc name (packages_dir w) with
    | Some (Directory d) =>
      match manifest_file d with
      | Some content => (read_text content, w)
      | None => (Raise FileNotFoundError, w)
      end
    | Some (RegularFile _) => (Raise NotADirectoryError, w)
    | None => (Raise FileNotFoundError, w)
    end.

(** [open(f"./packages/{name}/source/{path}")] and [file.read()]: the
    file is found by its path among the files below [source/]. *)
Definition read_source_file (name path : string) : M string :=
  fun w =>
    match assoc name (packages_dir w) with
    | Some (Directory d) =>
      match assoc (source_path name ++ path)
                  (tree_files (source_path name) (source d)) with
      | Some content => (read_text content, w)
      | None => (Raise FileNotFoundError, w)
      end
    | Some (RegularFile _) => (Raise NotADirectoryError, w)
    | None => (Raise FileNotFoundError, w)
    end.

(** Falls off its end, returning [None], after either handler. *)
Definition get_manifest (name : string) : M (option value) :=
  print "[i] Reading manifest" ;;
  try_except
    (text <- read_manifest_file name ;;
     manifest <- lift (json_loads lib text) ;;
     for_each MANIFEST_FIELDS
       (fun _ key =>
          present <- lift (py_contains manifest key) ;;
          if present then ret tt
          else print ("[!] Package manifest is incomplete (missing '"
                        ++ key ++ "')"))
       tt ;;
     ret (Some manifest))
    (fun e =>
       match e with
       | FileNotFoundError =>
         Some (print "[!] Package is invalid (no manifest)" ;; ret None)
       | JSONDecodeError =>
         Some (print "[!] Package is invalid (unreadable manifest)" ;;
               ret None)
       | _ => None
       end).

(** The body of the loop of [build_package] over the files. *)
Definition build_package_file (name : string) (manifest : value)
           (path : string) : M value :=
  print ("[+] " ++ path) ;;
  content <- read_source_file name path ;;
  let entry :=
    file_entry content (sha256_hexdigest lib (str_encode content)) in
  lift (py_update manifest "files"
          (fun files => py_setitem files path entry)).

(** The manifest object itself is extended in place. *)
Definition build_package (name : string) : M (option value) :=
  manifest <- get_manifest name ;;
  match manifest with
  | None => ret None
  | Some manifest =>
    manifest <- lift (py_setitem manifest "files" (VDict [])) ;;
    paths <- get_package_files name ;;
    manifest <- for_each paths (build_package_file name) manifest ;;
    ret (Some manifest)
  end.

(** The encoded archive, a [bytes] of base64 characters. *)
Definition compress (package : value) : bytes :=
  Base64.b64encode
    (zlib_compress lib (str_encode (json_dumps lib package))).

(** [open] comes after the version is formatted into the file name and
    before [data.decode()]. *)
Definition build_and_write_package (name : string) : M (option package) :=
  print ("Packaging " ++ name) ;;
  package <- build_package name ;;
  match package with
  | None => ret None
  | Some package =>
    let data := compress package in
    version <- lift (py_getitem package "version") ;;
    let fname := archive_name name (fmt lib version) in
    pool_open_w fname ;;
    text <- lift (bytes_decode data) ;;
    pool_write fname text ;;
    ret (Some {| manifest := package;
                 digest := sha256_hexdigest lib data |})
  end.

(** [json.loads(zlib.decompress(base64.b64decode(data)))]. *)
Definition decode_archive (data : string) : outcome value :=
  let? raw := Base64.b64decode data in
  let? plain := match zlib_decompress lib raw with
                | Some p => Ok p
                | None => Raise ZlibError
                end in
  json_loads_bytes lib plain.

(** Three [except] clauses; any other exception propagates. *)
Definition read_package (name version : string) : M (option package) :=
  try_except
    (data <- pool_read (archive_name name version) ;;
     manifest <- lift (decode_archive data) ;;
     ret (Some {| manifest := manifest;
                  digest := sha256_hexdigest lib (str_encode data) |}))
    (fun e =>
       match e with
       | FileNotFoundError =>
         Some (print ("[!] Version " ++ version ++ " not found") ;; ret None)
       | JSONDecodeError =>
         Some (print ("[!] Version " ++ version ++ " is invalid (no manifest)") ;;
               ret None)
       | ZlibError | BinasciiError =>
         Some (print ("[!] Version " ++ version ++ " is invalid (corrupted)") ;;
               ret None)
       | _ => None
       end).

(** [if name not in packages: packages[name] = {...}]. *)
Definition ensure_entry (packages : value) (name : string) : outcome value :=
  let? present := py_contains packages name in
  if present then Ok packages else py_setitem packages name empty_entry.

(** The three assignments of the repair loop for one readable archive. *)
Definition repair_upsert (packages : value) (name version : string)
           (package : package) : outcome value :=
  let? packages := ensure_entry packages name in
  let? description := py_getitem (manifest package) "description" in
  let? packages :=
    py_update packages name
      (fun entry => py_setitem entry "description" description) in
  let? dependencies := py_getitem (manifest package) "dependencies" in
  let? packages :=
    py_update packages name
      (fun entry =>
         py_update entry "versions"
           (fun versions =>
              py_setitem versions version
                (version_entry (digest package) dependencies))) in
  py_update packages name
    (fun entry => py_setitem entry "latest_version" (VStr version)).

(** The body of the loop over the versions of one package. *)
Definition repair_version (name : string) (packages : value)
           (version : string) : M value :=
  package <- read_package name version ;;
  match package with
  | None => ret packages
  | Some package =>
    print ("[+] Version " ++ version) ;;
    lift (repair_upsert packages name version package)
  end.

(** The index rebuilt from the pool alone. *)
Definition repair_package_index : M value :=
  built <- get_built_packages ;;
  for_each built
    (fun packages '(name, versions) =>
       print ("Indexing " ++ name) ;;
       for_each versions (repair_version name) packages)
    (VDict []).

(** The assignments of the build loop for one package that was built. *)
Definition build_upsert (packages : value) (name : string)
           (package : package) : outcome value :=
  let? packages := ensure_entry packages name in
  let? description := py_getitem (manifest package) "description" in
  let? packages :=
    py_update packages name
      (fun entry => py_setitem entry "description" description) in
  let? dependencies := py_getitem (manifest package) "dependencies" in
  let? packages :=
    py_update packages name
      (fun entry =>
         py_update entry "versions"
           (fun versions =>
              let? version := py_getitem (manifest package) "version" in
              py_setitem_obj versions version
                (version_entry (digest package) dependencies))) in
  let? version := py_getitem (manifest package) "version" in
  py_update packages name
    (fun entry => py_setitem entry "latest_version" version).

(** The body of the loop of build mode over the source packages. *)
Definition build_step (packages : value) (name : string) : M value :=
  package <- build_and_write_package name ;;
  match package with
  | None => ret packages
  | Some package => lift (build_upsert packages name package)
  end.

(** The body of the [try] block of the main program. *)
Definition main_try (repair : bool) : M value :=
  if repair then repair_package_index
  else
    packages <-
      (fun w =>
         match assoc INDEX_FILE (pool_dir w) with
         | Some content =>
           match read_text content with
           | Ok text => (json_loads lib text, w)
           | Raise e => (Raise e, w)
           end
         | None => (Ok (VDict []), w)
         end) ;;
    names <- get_source_packages ;;
    for_each names build_step packages.

(** The main program; the result is the exit status of the process. *)
Definition main (repair : bool) (w : world) : Z * world :=
  match main_try repair w with
  | (Ok packages, w1) =>
    match (print "Writing index" ;;
           pool_open_w INDEX_FILE ;;
           pool_write INDEX_FILE (json_dumps lib packages)) w1 with
    | (_, w2) => (0, w2)
    end
  | (Raise e, w1) =>
    match (print ("Error: " ++ exn_str lib e) ;;
           print "You can try to repair the package index using the --repair option.")
            w1 with
    | (_, w2) => (1, w2)
    end
  end.

End Script.

(** ** A library instance from recorded calls

    To evaluate the script on concrete inputs, the library parameters are
    instantiated from a finite record of calls of the real modules: each
    table row is an argument with the result CPython 3.11 returns for it.
    Outside its tables the instance answers with a fixed default ([json]
    and [zlib] fail to parse, the other functions return an empty result);
    the sample worlds below stay within the tables.  [format] is computed
    for the scalars (an integer in decimal, [True], [False], [None]), and
    [str] for a [KeyError], whose message is the key as [repr] prints it
    (for a key without quote or backslash); the message of another
    exception depends on more than the embedding keeps of it, and the
    instance answers the empty string. *)

Fixpoint value_eqb (a b : value) : bool :=
  match a, b with
  | VNone, VNone => true
  | VBool x, VBool y => Bool.eqb x y
  | VInt x, VInt y => x =? y
  | VStr x, VStr y => String.eqb x y
  | VList x, VList y =>
    (fix go (x y : list value) : bool :=
       match x, y with
       | [], [] => true
       | u :: x', v :: y' => value_eqb u v && go x' y'
       | _, _ => false
       end) x y
  | VDict x, VDict y =>
    (fix go (x y : dict) : bool :=
       match x, y with
       | [], [] => true
       | (k, u) :: x', (k', v) :: y' =>
         match k, k' with
         | KStr s, KStr t => String.eqb s t
         | _, _ => false
         end && value_eqb u v && go x' y'
       | _, _ => false
       end) x y
  | _, _ => false
  end.

Definition bytes_eqb (a b : bytes) : bool :=
  String.eqb (string_of_list_byte a) (string_of_list_byte b).

Record calls : Type := {
  json_calls : list (string * value);   (* text, json.loads(text) *)
  zlib_calls : list (bytes * bytes);    (* data, zlib.compress(data, 9) *)
  sha256_calls : list (bytes * string)  (* data, sha256(data).hexdigest() *)
}.

Definition find_snd {A B} (p : B -> bool) (l : list (A * B)) : option A :=
  option_map fst (find (fun x => p (snd x)) l).

Definition find_fst {A B} (p : A -> bool) (l : list (A * B)) : option B :=
  option_map snd (find (fun x => p (fst x)) l).

Definition recorded_lib (t : calls) : pylib := {|
  sha256_hexdigest data :=
    match find_fst (bytes_eqb data) (sha256_calls t) with
    | Some h => h
    | None => ""
    end;
  zlib_compress data :=
    match find_fst (bytes_eqb data) (zlib_calls t) with
    | Some z => z
    | None => []
    end;
  zlib_decompress z := find_snd (bytes_eqb z) (zlib_calls t);
  json_dumps v :=
    match find_snd (value_eqb v) (json_calls t) with
    | Some text => text
    | None => ""
    end;
  json_loads text :=
    match find_fst (String.eqb text) (json_calls t) with
    | Some v => Ok v
    | None => Raise JSONDecodeError
    end;
  json_loads_bytes data :=
    if utf8_valid data then
      match find_fst (String.eqb (string_of_list_byte data)) (json_calls t) with
      | Some v => Ok v
      | None => Raise JSONDecodeError
      end
    else Raise UnicodeDecodeError;
  py_format v :=
    match v with
    | VInt z => NilZero.string_of_int (Z.to_int z)
    | VBool true => "True"
    | VBool false => "False"
    | VNone => "None"
    | _ => ""
    end;
  exn_str e :=
    match e with
    | KeyError (KStr k) => "'" ++ k ++ "'"
    | KeyError (KInt z) => NilZero.string_of_int (Z.to_int z)
    | KeyError (KBool true) => "True"
    | KeyError (KBool false) => "False"
    | KeyError KNone => "None"
    | _ => ""
    end
|}.

(** Writes a text with apostrophes for its double quotes. *)
Fixpoint dq (s : string) : string :=
  match s with
  | EmptyString => EmptyString
  | String c r =>
    String (if Ascii.eqb c "'" then ascii_of_nat 34 else c) (dq r)
  end.

Definition hello_sha256 : string :=
  "2cf24dba5fb0a30e26e83b2ac5b9e29e1b161e5c1fa7425e73043362938b9824".

(** The record of package [foo] of the example scenario: version 1.0, no
    dependencies, description [d], one file [a.txt] holding [hello]. *)
Definition foo_manifest : value :=
  VDict [ (KStr "version", VStr "1.0");
          (KStr "dependencies", VList []);
          (KStr "description", VStr "d") ].

Definition foo_record : value :=
  VDict [ (KStr "version", VStr "1.0");
          (KStr "dependencies", VList []);
          (KStr "description", VStr "d");
          (KStr "files",
           VDict [ (KStr "a.txt", file_entry "hello" hello_sha256) ]) ].

Definition foo_manifest_text : string :=
  dq "{'version': '1.0', 'dependencies': [], 'description': 'd'}".

Definition foo_record_text : string :=
  dq ("{'version': '1.0', 'dependencies': [], 'description': 'd', "
      ++ "'files': {'a.txt': {'content': 'hello', 'digest': '"
      ++ hello_sha256 ++ "'}}}").

Definition foo_record_zlib : bytes :=
  map byte_of_Z
    [120; 218; 45; 140; 77; 10; 131; 48; 20; 6; 175; 82; 222; 186; 72; 242;
     98; 212; 244; 42; 165; 139; 252; 124; 105; 3; 18; 197; 132; 82; 16; 239;
     222; 26; 186; 27; 134; 97; 118; 122; 99; 43; 105; 201; 116; 187; 144;
     236; 4; 93; 47; 20; 176; 34; 7; 100; 159; 80; 126; 250; 254; 104; 174;
     248; 45; 173; 245; 95; 134; 179; 139; 105; 110; 193; 78; 182; 171; 159;
     218; 200; 47; 185; 34; 159; 76; 47; 204; 243; 210; 126; 233; 137; 210;
     20; 251; 200; 125; 112; 86; 71; 39; 172; 18; 224; 1; 147; 114; 108; 189;
     118; 6; 108; 32; 157; 28; 36; 180; 151; 209; 142; 61; 107; 140; 74; 244;
     74; 13; 108; 212; 228; 204; 196; 61; 29; 199; 241; 5; 237; 128; 52; 139].

Definition foo_archive_text : string :=
  "eNotjE0KgzAUBq9S3rpI8mLU9Cqli/x8aQMSxYRSEO/eGrobhmF2emMracl0u5DsBF0vFLAiB2SfUH76/miu+C2t9V+Gs4tpbsFOtquf2sgvuSKfTC/M89J+6YnSFPvIfXBWRyesEuABk3JsvXYGbCCdHCS0l9GOPWuMSvRKDWzU5MzEPR3H8QXtgDSL".

Definition foo_archive_sha256 : string :=
  "cd3c52cc85837a61e427e2406d7646090e951b95170a6e25938d809795061123".

(** The archive of the empty JSON object. *)
Definition empty_zlib : bytes :=
  map byte_of_Z [120; 218; 171; 174; 5; 0; 1; 117; 0; 249].

Definition empty_archive_text : string := "eNqrrgUAAXUA+Q==".

(** A manifest with two keys outside the recognized set, [homepage] and
    [files], and the record [build_package] makes of it. *)
Definition bar_manifest_dict : dict :=
  [ (KStr "version", VStr "1.0");
    (KStr "dependencies", VList []);
    (KStr "description", VStr "d");
    (KStr "homepage", VStr "h");
    (KStr "files", VStr "mine") ].

Definition bar_record_dict : dict :=
  [ (KStr "version", VStr "1.0");
    (KStr "dependencies", VList []);
    (KStr "description", VStr "d");
    (KStr "homepage", VStr "h");
    (KStr "files", VDict []) ].

Definition bar_manifest_text : string :=
  dq ("{'version': '1.0', 'dependencies': [], 'description': 'd', "
      ++ "'homepage': 'h', 'files': 'mine'}").

(** The archive of the record of package [bar]. *)
Definition bar_record_text : string :=
  dq ("{'version': '1.0', 'dependencies': [], 'description': 'd', "
      ++ "'homepage': 'h', 'files': {}}").

Definition bar_record_zlib : bytes :=
  map byte_of_Z
    [120; 218; 171; 86; 42; 75; 45; 42; 206; 204; 207; 83; 178; 82; 80; 50;
     212; 51; 80; 210; 81; 80; 74; 73; 45; 72; 205; 75; 73; 205; 75; 206;
     76; 45; 6; 10; 71; 199; 130; 197; 138; 147; 139; 50; 11; 74; 160; 42;
     83; 64; 234; 50; 242; 115; 83; 11; 18; 211; 83; 65; 2; 25; 32; 129;
     180; 204; 28; 176; 142; 234; 218; 90; 0; 183; 126; 27; 0].

Definition bar_archive_text : string :=
  "eNqrVipLLSrOzM9TslJQMtQzUNJRUEpJLUjNS0nNS85MLQYKR8eCxYqTizIL"
  ++ "SqAqU0DqMvJzUwsS01NBAhkggbTMHLCO6tpaALd+GwA=".

Definition bar_archive_sha256 : string :=
  "e68f886727a6b4e3611a795a110c0a9fd75541b726f077a04a9d168ceddc2f3b".

(** Version 2.0 of package [foo], without files. *)
Definition foo2_record : value :=
  VDict [ (KStr "version", VStr "2.0");
          (KStr "dependencies", VList []);
          (KStr "description", VStr "d");
          (KStr "files", VDict []) ].

Definition foo2_record_text : string :=
  dq "{'version': '2.0', 'dependencies': [], 'description': 'd', 'files': {}}".

Definition foo2_record_zlib : bytes :=
  map byte_of_Z
    [120; 218; 171; 86; 42; 75; 45; 42; 206; 204; 207; 83; 178; 82; 80; 50;
     210; 51; 80; 210; 81; 80; 74; 73; 45; 72; 205; 75; 73; 205; 75; 206;
     76; 45; 6; 10; 71; 199; 130; 197; 138; 147; 139; 50; 11; 74; 160; 42;
     83; 64; 234; 210; 50; 115; 192; 10; 170; 107; 107; 1; 25; 149; 22; 37].

Definition foo2_archive_text : string :=
  "eNqrVipLLSrOzM9TslJQMtIzUNJRUEpJLUjNS0nNS85MLQYKR8eCxYqTizIL"
  ++ "SqAqU0Dq0jJzwAqqa2sBGZUWJQ==".

Definition foo2_archive_sha256 : string :=
  "27dabeadf893d0afe06b95b86356ae59c2836b70358559b938a29c5ae2bbd6c4".

(** Indexes, as values and as [json.dumps] prints them. *)
Definition index_entry (description : string)
           (versions : list (string * string)) (latest : string) : value :=
  VDict [ (KStr "description", VStr description);
          (KStr "versions",
           VDict (map (fun vd => (KStr (fst vd),
                                  version_entry (snd vd) (VList [])))
                      versions));
          (KStr "latest_version", VStr latest) ].

Definition index_entry_text (versions : list (string * string))
           (latest : string) : string :=
  dq ("{'description': 'd', 'versions': {"
      ++ String.concat ", "
           (map (fun vd => "'" ++ fst vd ++ "': {'digest': '" ++ snd vd
                           ++ "', 'dependencies': []}")
                versions)
      ++ "}, 'latest_version': '" ++ latest ++ "'}").

Definition index_foo : value :=
  VDict [ (KStr "foo", index_entry "d" [("1.0", foo_archive_sha256)] "1.0") ].

Definition index_foo_text : string :=
  dq "{'foo': " ++ index_entry_text [("1.0", foo_archive_sha256)] "1.0" ++ "}".

Definition index_foo_bar : value :=
  VDict [ (KStr "foo", index_entry "d" [("1.0", foo_archive_sha256)] "1.0");
          (KStr "bar", index_entry "d" [("1.0", bar_archive_sha256)] "1.0") ].

Definition index_foo_bar_text : string :=
  dq "{'foo': " ++ index_entry_text [("1.0", foo_archive_sha256)] "1.0"
  ++ dq ", 'bar': " ++ index_entry_text [("1.0", bar_archive_sha256)] "1.0"
  ++ "}".

Definition index_foo_two : value :=
  VDict [ (KStr "foo",
           index_entry "d" [ ("2.0", foo2_archive_sha256);
                             ("1.0", foo_archive_sha256) ] "1.0") ].

Definition index_foo_two_text : string :=
  dq "{'foo': "
  ++ index_entry_text [ ("2.0", foo2_archive_sha256);
                        ("1.0", foo_archive_sha256) ] "1.0"
  ++ "}".

Definition sample_calls : calls := {|
  json_calls :=
    [ (foo_record_text, foo_record);
      (bar_record_text, VDict bar_record_dict);
      (foo2_record_text, foo2_record);
      (index_foo_text, index_foo);
      (index_foo_bar_text, index_foo_bar);
      (index_foo_two_text, index_foo_two);
      (foo_manifest_text, foo_manifest);
      (bar_manifest_text, VDict bar_manifest_dict);
      ("{}", VDict []) ];
  zlib_calls :=
    [ (str_encode foo_record_text, foo_record_zlib);
      (str_encode bar_record_text, bar_record_zlib);
      (str_encode foo2_record_text, foo2_record_zlib);
      (str_encode "{}", empty_zlib) ];
  sha256_calls :=
    [ (str_encode "hello", hello_sha256);
      (str_encode foo_archive_text, foo_archive_sha256);
      (str_encode bar_archive_text, bar_archive_sha256);
      (str_encode foo2_archive_text, foo2_archive_sha256) ]
|}.

Definition sample_lib : pylib := recorded_lib sample_calls.

Definition foo_dir : package_dir :=
  {| manifest_file := Some (str_encode foo_manifest_text);
     source := Dir [("a.txt", str_encode "hello")] [] |}.

Definition bar_dir : package_dir :=
  {| manifest_file := Some (str_encode bar_manifest_text);
     source := Dir [] [] |}.

(** A fresh checkout: the two packages above, an empty pool. *)
Definition sample_world : world :=
  {| packages_dir := [("foo", Directory foo_dir); ("bar", Directory bar_dir)];
     pool_dir := [];
     stdout := [] |}.

(** A pool whose index file is not JSON. *)
Definition broken_index_world : world :=
  {| packages_dir := [("foo", Directory foo_dir)];
     pool_dir := [("index.json", str_encode "oops")];
     stdout := [] |}.

(** A pool holding one archive, of the empty JSON object. *)
Definition empty_record_world : world :=
  {| packages_dir := [];
     pool_dir := [("foo.1.0.ccp", str_encode empty_archive_text)];
     stdout := [] |}.

(** A source tree of two packages, the second without a manifest file. *)
Definition partial_world : world :=
  {| packages_dir :=
       [ ("foo", Directory foo_dir);
         ("baz", Directory {| manifest_file := None; source := Dir [] [] |}) ];
     pool_dir := [];
     stdout := [] |}.

(** The same tree with [bar] for the package without a manifest, over a
    pool whose index holds entries for [foo] and [bar]. *)
Definition partial_rebuild_world : world :=
  {| packages_dir :=
       [ ("foo", Directory foo_dir);
         ("bar", Directory {| manifest_file := None; source := Dir [] [] |}) ];
     pool_dir := [("index.json", str_encode index_foo_bar_text)];
     stdout := [] |}.

(** A source tree holding [bar] alone, over a pool whose index holds an
    entry for [foo]. *)
Definition incremental_world : world :=
  {| packages_dir := [("bar", Directory bar_dir)];
     pool_dir := [ ("foo.1.0.ccp", str_encode foo_archive_text);
                   ("index.json", str_encode index_foo_text) ];
     stdout := [] |}.

(** A source tree whose only package has the empty object for a
    manifest. *)
Definition incomplete_world : world :=
  {| packages_dir :=
       [ ("qux", Directory {| manifest_file := Some (str_encode "{}");
                              source := Dir [] [] |}) ];
     pool_dir := [];
     stdout := [] |}.

(** A pool of two archives of package [foo]: version 1.0 as built from the
    sample tree, and a version 0.8 whose content is not base64 (one data
    character). *)
Definition mixed_pool_world : world :=
  {| packages_dir := [];
     pool_dir :=
       [ ("foo.1.0.ccp", str_encode foo_archive_text);
         ("foo.0.8.ccp", str_encode "A") ];
     stdout := [] |}.

(** A pool with two versions of [foo], the newer one listed first. *)
Definition two_versions_world : world :=
  {| packages_dir := [];
     pool_dir :=
       [ ("foo.2.0.ccp", str_encode foo2_archive_text);
         ("foo.1.0.ccp", str_encode foo_archive_text) ];
     stdout := [] |}.

(** * Vocabulary of the properties

    The derived notions the statements of the second part are written
    with: relations between worlds, the functions of the script seen as
    functions of the files, and the conditions on packages, archives and
    indexes. *)

(** Every byte, for checks by enumeration. *)
Definition all_bytes : list byte :=
  map (fun n => byte_of_Z (Z.of_nat n)) (seq 0 256).

(** The sextets of a group of three bytes [a], [b], [c] (primed: of a
    last group of one or two bytes). *)
Module Sextets.
Import Base64.

Definition s1 (a : byte) : Z := Z.shiftr (bz a) 2.
Definition s2 (a b : byte) : Z :=
  Z.lor (Z.shiftl (Z.land (bz a) 3) 4) (Z.shiftr (bz b) 4).
Definition s2' (a : byte) : Z := Z.shiftl (Z.land (bz a) 3) 4.
Definition s3 (b c : byte) : Z :=
  Z.lor (Z.shiftl (Z.land (bz b) 15) 2) (Z.shiftr (bz c) 6).
Definition s3' (b : byte) : Z := Z.shiftl (Z.land (bz b) 15) 2.
Definition s4 (c : byte) : Z := Z.land (bz c) 63.

(** A sextet is printed as a character that is not the padding and reads
    back as the same sextet. *)
Definition char_ok (v : Z) : bool :=
  negb (Byte.eqb (table_b2a v) pad)
  && match table_a2b (table_b2a v) with
     | Some x => x =? v
     | None => false
     end.

End Sextets.

(** An ASCII character other than a carriage return. *)
Definition plain (c : byte) : bool :=
  Base64.is_ascii c && negb (Byte.eqb c x0d).

(** The relation [R] holds between the world before and after [m],
    however [m] ends. *)
Definition preserves (R : world -> world -> Prop) {A} (m : M A) : Prop :=
  forall w r w', m w = (r, w') -> R w w'.

(** The files are as before. *)
Definition same_files (w w' : world) : Prop :=
  packages_dir w' = packages_dir w /\ pool_dir w' = pool_dir w.

(** Standard output only grows. *)
Definition extends (w w' : world) : Prop :=
  exists lines, stdout w' = (stdout w ++ lines)%list.

(** The world after more lines of output. *)
Fixpoint say_all (lines : list string) (w : world) : world :=
  match lines with
  | [] => w
  | line :: r => say_all r (say line w)
  end.

(** The files are as before and standard output has only grown. *)
Definition prints_only (w w' : world) : Prop := same_files w w' /\ extends w w'.

(** The computation only prints. *)
Definition quiet {A} (m : M A) : Prop := preserves prints_only m.

(** The data comes back from its compressed form. *)
Definition zlib_round_trips (lib : pylib) (data : bytes) : Prop :=
  zlib_decompress lib (zlib_compress lib data) = Some data.

(** The record comes back from its JSON text. *)
Definition json_round_trips (lib : pylib) (r : value) : Prop :=
  json_loads_bytes lib (str_encode (json_dumps lib r)) = Ok r.

(** What [data.decode()] gives for the encoded record, and what the
    archive file holds once it is written. *)
Definition archive_text (lib : pylib) (r : value) : string :=
  string_of_list_byte (compress lib r).

(** The entry of a key in an object that may not be a dictionary. *)
Definition value_get (v : value) (k : key) : option value :=
  match v with
  | VDict d => dict_get k d
  | _ => None
  end.

(** The warning for a recognized field absent from the manifest. *)
Definition field_warning (key : string) : string :=
  "[!] Package manifest is incomplete (missing '" ++ key ++ "')".

(** The objects [in] accepts on its right-hand side. *)
Definition is_container (m : value) : bool :=
  match m with
  | VDict _ | VList _ | VStr _ => true
  | VNone | VBool _ | VInt _ => false
  end.

(** The manifest lacks the field. *)
Definition absent (m : value) (key : string) : bool :=
  match py_contains m key with
  | Ok present => negb present
  | Raise _ => false
  end.

(** The recognized fields a manifest lacks, in the order they are
    checked. *)
Definition missing_fields (m : value) : list string :=
  filter (absent m) MANIFEST_FIELDS.

(** The entry of [./packages] is a regular file. *)
Definition regular_file (pkgs : list (string * dir_entry)) (name : string)
  : bool :=
  match assoc name pkgs with
  | Some (RegularFile _) => true
  | _ => false
  end.

(** The line [get_manifest] prints for an exception it handles. *)
Definition manifest_handler (e : exn) : option string :=
  match e with
  | FileNotFoundError => Some "[!] Package is invalid (no manifest)"
  | JSONDecodeError => Some "[!] Package is invalid (unreadable manifest)"
  | _ => None
  end.

(** The content of [manifest.json] of a package, when the file exists. *)
Definition manifest_source (name : string) (w : world) : option bytes :=
  match assoc name (packages_dir w) with
  | Some (Directory d) => manifest_file d
  | _ => None
  end.

(** The body of the loop of [get_manifest] over the recognized fields. *)
Definition check_field (m : value) : unit -> string -> M unit :=
  fun _ key =>
    present <- lift (py_contains m key) ;;
    if present then ret tt else print (field_warning key).

(** [d] has a [files] dictionary and agrees with the manifest [m] on every
    other key. *)
Definition record_of (m d : dict) : Prop :=
  (exists files, dict_get (KStr "files") d = Some (VDict files))
  /\ forall k, key_eqb k (KStr "files") = false -> dict_get k d = dict_get k m.

(** The source tree and the index file are as before, and standard output
    has only grown. *)
Definition index_kept (w w' : world) : Prop :=
  packages_dir w' = packages_dir w
  /\ assoc INDEX_FILE (pool_dir w') = assoc INDEX_FILE (pool_dir w)
  /\ extends w w'.

(** The second line the handler of the main program prints. *)
Definition REPAIR_HINT : string :=
  "You can try to repair the package index using the --repair option.".

(** The prior index file exists and does not parse. *)
Definition prior_index_unparseable (lib : pylib) (w : world) : Prop :=
  exists content text e,
    assoc INDEX_FILE (pool_dir w) = Some content
    /\ read_text content = Ok text
    /\ json_loads lib text = Raise e.

(** The line [read_package] prints for an exception it handles. *)
Definition skip_line (version : string) (e : exn) : option string :=
  match e with
  | FileNotFoundError => Some ("[!] Version " ++ version ++ " not found")
  | JSONDecodeError =>
    Some ("[!] Version " ++ version ++ " is invalid (no manifest)")
  | ZlibError | BinasciiError =>
    Some ("[!] Version " ++ version ++ " is invalid (corrupted)")
  | _ => None
  end.

(** The [try] block of [read_package] as a function of the pool. *)
Definition read_archive (lib : pylib) (pool : list (string * bytes))
           (name version : string) : outcome package :=
  match assoc (archive_name name version) pool with
  | None => Raise FileNotFoundError
  | Some content =>
    let? data := read_text content in
    let? m := decode_archive lib data in
    Ok {| manifest := m;
          digest := sha256_hexdigest lib (str_encode data) |}
  end.

(** An index entry holds a dictionary of versions. *)
Definition entry_versions (e : value) : option dict :=
  match e with
  | VDict ed =>
    match dict_get (KStr "versions") ed with
    | Some (VDict vs) => Some vs
    | _ => None
    end
  | _ => None
  end.

(** The entry is a dictionary with a dictionary of versions. *)
Definition entry_ok (e : value) : bool :=
  match entry_versions e with Some _ => true | None => false end.

(** Every entry of the index that can be looked up is well formed. *)
Definition index_ok (packages : value) : Prop :=
  exists d, packages = VDict d
            /\ forall k e, dict_get k d = Some e -> entry_ok e = true.

(** The entry of a package, or the one the upsert starts it with. *)
Definition entry_or_empty (d : dict) (name : string) : value :=
  match dict_get (KStr name) d with
  | Some e => e
  | None => empty_entry
  end.

(** The entry after the three assignments of an upsert. *)
Definition upserted (e description : value) (version : string)
           (ventry : value) : value :=
  match e with
  | VDict ed =>
    match dict_get (KStr "versions") ed with
    | Some (VDict vs) =>
      VDict
        (dict_set (KStr "latest_version") (VStr version)
           (dict_set (KStr "versions")
              (VDict (dict_set (KStr version) ventry vs))
              (dict_set (KStr "description") description ed)))
    | _ => VNone
    end
  | _ => VNone
  end.

(** The files of the pool that [get_built_packages] looks at. *)
Definition pool_entries (w : world) : list string :=
  filter (fun n => negb (String.eqb n INDEX_FILE)) (map fst (pool_dir w)).

(** [entry.name[:-4].split(".", maxsplit=1)] when it gives two parts. *)
Definition parse_entry (fname : string) : option (string * string) :=
  split_dot (str_drop_last 4 fname).

(** The loop of [get_built_packages]; [None] when a name does not split. *)
Fixpoint group_all (entries : list string) (rtn : list (string * list string))
  : option (list (string * list string)) :=
  match entries with
  | [] => Some rtn
  | e :: r =>
    match parse_entry e with
    | Some (name, version) => group_all r (group_add name version rtn)
    | None => None
    end
  end.

Section RepairFunctions.

Variable lib : pylib.
Variable pool : list (string * bytes).

(** The loop over the versions of one package: its result and the lines
    it prints. *)
Fixpoint run_versions (name : string) (versions : list string)
         (packages : value) : outcome value * list string :=
  match versions with
  | [] => (Ok packages, [])
  | v :: r =>
    match read_archive lib pool name v with
    | Ok p =>
      match repair_upsert packages name v p with
      | Ok packages' =>
        let (res, lines) := run_versions name r packages' in
        (res, ("[+] Version " ++ v) :: lines)
      | Raise e => (Raise e, ["[+] Version " ++ v])
      end
    | Raise e =>
      match skip_line v e with
      | Some line =>
        let (res, lines) := run_versions name r packages in
        (res, line :: lines)
      | None => (Raise e, [])
      end
    end
  end.

(** The loop over the packages. *)
Fixpoint run_groups (groups : list (string * list string)) (packages : value)
  : outcome value * list string :=
  match groups with
  | [] => (Ok packages, [])
  | (name, versions) :: r =>
    match run_versions name versions packages with
    | (Ok packages', lines) =>
      let (res, lines') := run_groups r packages' in
      (res, ("Indexing " ++ name) :: app lines lines')
    | (Raise e, lines) => (Raise e, ("Indexing " ++ name) :: lines)
    end
  end.

(** The index after the archives of [pairs] are visited in order. *)
Fixpoint index_pairs (pairs : list (string * string)) (packages : value)
  : outcome value :=
  match pairs with
  | [] => Ok packages
  | (name, v) :: r =>
    match read_archive lib pool name v with
    | Ok p =>
      let? packages' := repair_upsert packages name v p in
      index_pairs r packages'
    | Raise e =>
      match skip_line v e with
      | Some _ => index_pairs r packages
      | None => Raise e
      end
    end
  end.

End RepairFunctions.

(** Repair mode: the result of the [try] block and the lines printed. *)
Definition repair_run (lib : pylib) (w : world) : outcome value * list string :=
  match group_all (pool_entries w) [] with
  | Some g => run_groups lib (pool_dir w) g (VDict [])
  | None => (Raise ValueError, [])
  end.

(** The (name, version) pairs of a grouping, in the order the two loops of
    [repair_package_index] visit them. *)
Definition pairs_of (groups : list (string * list string))
  : list (string * string) :=
  flat_map (fun g => map (pair (fst g)) (snd g)) groups.

(** The (name, version) pairs of the entries, when they all split. *)
Fixpoint parse_all (entries : list string) : option (list (string * string)) :=
  match entries with
  | [] => Some []
  | e :: r =>
    match parse_entry e, parse_all r with
    | Some nv, Some l => Some (nv :: l)
    | _, _ => None
    end
  end.

(** A readable archive whose record lacks [description] or
    [dependencies]. *)
Definition lacks_key (p : package) : Prop :=
  exists m, manifest p = VDict m
            /\ (dict_get (KStr "description") m = None
                \/ dict_get (KStr "dependencies") m = None).

(** The index build mode starts from. *)
Definition prior_index (lib : pylib) (w : world) : outcome value :=
  match assoc INDEX_FILE (pool_dir w) with
  | Some content =>
    let? text := read_text content in
    json_loads lib text
  | None => Ok (VDict [])
  end.

(** The package is in the source tree and its manifest file parses: the
    packages a run that completes has rebuilt. *)
Definition loads_manifest (lib : pylib) (w : world) (name : string) : Prop :=
  In name (map fst (packages_dir w))
  /\ exists content text m,
      manifest_source name w = Some content
      /\ read_text content = Ok text
      /\ json_loads lib text = Ok m.

(** The names in the tree are file names (without [/]; not empty for a
    directory) and the files all read as text. *)
Fixpoint tree_ok (t : tree) : bool :=
  match t with
  | Dir files subdirs =>
    forallb (fun f => negb (has_char "/" (fst f)) && utf8_valid (snd f)) files
    && forallb (fun sd => negb (String.eqb (fst sd) "")
                          && negb (has_char "/" (fst sd))
                          && tree_ok (snd sd))
               subdirs
  end.

(** The sources of a package can all be listed and read. *)
Definition sources_readable (d : package_dir) : Prop :=
  tree_ok (source d) = true.

(** The manifest of the package is a JSON object [m]. *)
Definition manifest_object (lib : pylib) (pkgs : list (string * dir_entry))
           (name : string) (d : package_dir) (m : dict) : Prop :=
  assoc name pkgs = Some (Directory d)
  /\ exists content text,
      manifest_file d = Some content
      /\ read_text content = Ok text
      /\ json_loads lib text = Ok (VDict m).



(** The index has no entry for the package, or an entry that is a
    dictionary with a dictionary under [versions]: what the three
    assignments of an upsert need of the index. *)
Definition entry_ready (d : dict) (name : string) : Prop :=
  entry_ok (entry_or_empty d name) = true.





(** The sample tree with a package that has no manifest, over a pool
    whose index holds an entry for [foo] that lacks its [versions]. *)
Definition stale_index_text : string := dq "{'foo': {}}".

Definition stale_index_calls : calls := {|
  json_calls :=
    (stale_index_text, VDict [(KStr "foo", VDict [])])
      :: json_calls sample_calls;
  zlib_calls := zlib_calls sample_calls;
  sha256_calls := sha256_calls sample_calls
|}.

Definition stale_index_lib : pylib := recorded_lib stale_index_calls.

Definition stale_index_world : world :=
  {| packages_dir := packages_dir partial_world;
     pool_dir := [("index.json", str_encode stale_index_text)];
     stdout := [] |}.

(** A package whose version is the number 2: its manifest, its record
    and its archive. *)
Definition numbered_manifest : dict :=
  [ (KStr "version", VInt 2);
    (KStr "dependencies", VList []);
    (KStr "description", VStr "d") ].

Definition numbered_manifest_text : string :=
  dq "{'version': 2, 'dependencies': [], 'description': 'd'}".

Definition numbered_record : value :=
  VDict [ (KStr "version", VInt 2);
          (KStr "dependencies", VList []);
          (KStr "description", VStr "d");
          (KStr "files", VDict []) ].

Definition numbered_record_text : string :=
  dq "{'version': 2, 'dependencies': [], 'description': 'd', 'files': {}}".

Definition numbered_record_zlib : bytes :=
  map byte_of_Z
    [120; 218; 171; 86; 42; 75; 45; 42; 206; 204; 207; 83; 178; 82; 48; 210;
     81; 80; 74; 73; 45; 72; 205; 75; 73; 205; 75; 206; 76; 45; 6; 10; 69;
     199; 130; 197; 138; 147; 139; 50; 11; 74; 32; 170; 148; 82; 148; 128;
     98; 105; 153; 57; 96; 5; 213; 181; 181; 0; 228; 142; 21; 131].

Definition numbered_archive_text : string :=
  "eNqrVipLLSrOzM9TslIw0lFQSkktSM1LSc1LzkwtBgpFx4LFipOLMgtKIKqUUpSAYmmZ"
  ++ "OWAF1bW1AOSOFYM=".

Definition numbered_archive_sha256 : string :=
  "a87c39a8ba79174faa6ca74d61c922814ef1d8882337035eeae99924a086a01e".

Definition numbered_calls : calls := {|
  json_calls := [ (numbered_manifest_text, VDict numbered_manifest);
                  (numbered_record_text, numbered_record) ];
  zlib_calls := [ (str_encode numbered_record_text, numbered_record_zlib) ];
  sha256_calls := [ (str_encode numbered_archive_text,
                     numbered_archive_sha256) ]
|}.

Definition numbered_lib : pylib := recorded_lib numbered_calls.

Definition numbered_dir : package_dir :=
  {| manifest_file := Some (str_encode numbered_manifest_text);
     source := Dir [] [] |}.

Definition numbered_world : world :=
  {| packages_dir := [("num", Directory numbered_dir)];
     pool_dir := [];
     stdout := [] |}.


(** The number of versions of an entry. *)
Definition entry_count (e : value) : nat :=
  match entry_versions e with
  | Some vs => List.length vs
  | None => 0%nat
  end.

(** The number of version entries of an index, across its packages. *)
Definition version_count (packages : value) : nat :=
  match packages with
  | VDict d => list_sum (map (fun kv => entry_count (snd kv)) d)
  | _ => 0%nat
  end.

(** The index has an entry for this version of this package. *)
Definition has_version (d : dict) (name version : string) : bool :=
  match entry_versions (entry_or_empty d name) with
  | Some vs => dict_mem (KStr version) vs
  | None => false
  end.

(** A line of output that is a warning. *)
Definition is_warning (line : string) : bool := prefix "[!]" line.

(** The archive reads and decodes to a record with [description] and
    [dependencies]. *)
Definition indexable (lib : pylib) (pool : list (string * bytes)) (nv : string * string)
  : bool :=
  match read_archive lib pool (fst nv) (snd nv) with
  | Ok p =>
    match py_getitem (manifest p) "description",
          py_getitem (manifest p) "dependencies" with
    | Ok _, Ok _ => true
    | _, _ => false
    end
  | Raise _ => false
  end.

(** Reading the archive fails with an exception [read_package] handles. *)
Definition skipped (lib : pylib) (pool : list (string * bytes)) (nv : string * string)
  : bool :=
  match read_archive lib pool (fst nv) (snd nv) with
  | Ok _ => false
  | Raise e =>
    match skip_line (snd nv) e with
    | Some _ => true
    | None => false
    end
  end.

(** The (name, version) pairs the files of the pool are read as. *)
Definition pool_archives (w : world) : list (string * string) :=
  match parse_all (pool_entries w) with
  | Some l => l
  | None => []
  end.

(** The last of the versions of a package whose archive reads. *)
Fixpoint last_read (lib : pylib) (pool : list (string * bytes))
         (name : string) (versions : list string) : option string :=
  match versions with
  | [] => None
  | v :: r =>
    match last_read lib pool name r with
    | Some v' => Some v'
    | None =>
      match read_archive lib pool name v with
      | Ok _ => Some v
      | Raise _ => None
      end
    end
  end.

(** The relative paths [get_package_files] makes of the walk of [t] from
    [root], [path] being the prefix it strips. *)
Definition walk_paths (path root : string) (t : tree) : list string :=
  flat_map (fun rf => map (fun file => root_path path (fst rf) ++ file)
                          (snd rf))
           (os_walk root t).

(** The directories the walk from [path] reaches: [path] itself, or a
    directory below it whose path does not end in [/]. *)
Definition reached (path root : string) : Prop :=
  prefix path root = true /\ (root = path \/ ends_slash root = false).

(** ** Vocabulary of the further properties

    The notions the last part is stated with: the grouping of the pool,
    the source files of a package, build mode as a function of the source
    tree, and more sample worlds. *)

(** The versions listed for a package among (name, version) pairs, in
    the order of the pairs. *)
Definition versions_of (name : string) (pairs : list (string * string))
  : list string :=
  map snd (filter (fun nv => String.eqb (fst nv) name) pairs).

(** The grouping [g] holds each name once, with the versions the pairs
    list for it, in their order. *)
Definition grouped (g : list (string * list string))
           (pairs : list (string * string)) : Prop :=
  NoDup (map fst g)
  /\ forall n, assoc n g = match versions_of n pairs with
                           | [] => None
                           | vs => Some vs
                           end.

(** A pool holding a file that is no archive. *)
Definition stray_file_world : world :=
  {| packages_dir := [];
     pool_dir := [ ("foo.1.0.ccp", str_encode foo_archive_text);
                   ("README.md", str_encode "notes") ];
     stdout := [] |}.

(** A pool holding a backup copy of an archive, and not the archive. *)
Definition backup_file_world : world :=
  {| packages_dir := [];
     pool_dir := [ ("foo.1.0.bak", str_encode foo_archive_text) ];
     stdout := [] |}.

(** The names in the tree are file names: without [/], and not empty for
    a directory. *)
Fixpoint names_ok (t : tree) : bool :=
  match t with
  | Dir files subdirs =>
    forallb (fun f => negb (has_char "/" (fst f))) files
    && forallb (fun sd => negb (String.eqb (fst sd) "")
                          && negb (has_char "/" (fst sd))
                          && names_ok (snd sd))
               subdirs
  end.

(** The paths [get_package_files] lists for a package. *)
Definition package_paths (pkgs : list (string * dir_entry)) (name : string)
  : list string :=
  match assoc name pkgs with
  | Some (Directory d) =>
    walk_paths (source_path name) (source_path name) (source d)
  | _ => []
  end.

(** What opening and reading the source file [path] of a package
    gives. *)
Definition source_text (pkgs : list (string * dir_entry))
           (name path : string) : outcome string :=
  match assoc name pkgs with
  | Some (Directory d) =>
    match assoc (source_path name ++ path)
                (tree_files (source_path name) (source d)) with
    | Some content => read_text content
    | None => Raise FileNotFoundError
    end
  | Some (RegularFile _) => Raise NotADirectoryError
  | None => Raise FileNotFoundError
  end.

(** The entry [build_package] stores for a source file that reads as
    [text]. *)
Definition source_entry (lib : pylib) (text : string) : value :=
  file_entry text (sha256_hexdigest lib (str_encode text)).

(** The record [s] holds, under [files], the entries of the paths [done]
    and nothing else. *)
Definition files_recorded (lib : pylib) (pkgs : list (string * dir_entry))
           (name : string) (done : list string) (s : value) : Prop :=
  exists files,
    value_get s (KStr "files") = Some (VDict files)
    /\ (forall path, In path done ->
          exists text,
            source_text pkgs name path = Ok text
            /\ dict_get (KStr path) files = Some (source_entry lib text))
    /\ (forall k e, dict_get k files = Some e ->
                    exists path, k = KStr path /\ In path done).

(** A package with a source file that is not text. *)
Definition binary_source_world : world :=
  {| packages_dir :=
       [ ("foo",
          Directory
            {| manifest_file := Some (str_encode foo_manifest_text);
               source := Dir [ ("a.txt", str_encode "hello");
                               ("logo.png", [x89; xff]) ] [] |}) ];
     pool_dir := [];
     stdout := [] |}.

(** A package whose manifest file is not UTF-8. *)
Definition binary_manifest_world : world :=
  {| packages_dir :=
       [ ("foo", Directory {| manifest_file := Some [xff; xfe];
                              source := Dir [] [] |}) ];
     pool_dir := [];
     stdout := [] |}.

(** A package whose manifest is the empty JSON array. *)
Definition list_manifest_world : world :=
  {| packages_dir :=
       [ ("foo", Directory {| manifest_file := Some (str_encode "[]");
                              source := Dir [] [] |}) ];
     pool_dir := [];
     stdout := [] |}.

(** The manifest of a package with a version and dependencies and no
    description, as a value and as text. *)
Definition nameless_manifest : dict :=
  [ (KStr "version", VStr "1.0"); (KStr "dependencies", VList []) ].

Definition nameless_manifest_text : string :=
  dq "{'version': '1.0', 'dependencies': []}".

(** The record [build_package] makes of it, and its archive. *)
Definition nameless_record : value :=
  VDict [ (KStr "version", VStr "1.0");
          (KStr "dependencies", VList []);
          (KStr "files", VDict []) ].

Definition nameless_record_text : string :=
  dq "{'version': '1.0', 'dependencies': [], 'files': {}}".

Definition nameless_record_zlib : bytes :=
  map byte_of_Z
    [120; 218; 171; 86; 42; 75; 45; 42; 206; 204; 207; 83; 178; 82; 80; 50;
     212; 51; 80; 210; 81; 80; 74; 73; 45; 72; 205; 75; 73; 205; 75; 206;
     76; 45; 6; 10; 71; 199; 2; 197; 210; 50; 115; 192; 156; 234; 218; 90;
     0; 153; 83; 15; 238].

Definition nameless_archive_text : string :=
  "eNqrVipLLSrOzM9TslJQMtQzUNJRUEpJLUjNS0nNS85MLQYKR8cCxdIyc8Cc6tpaAJlTD+4=".

Definition nameless_archive_sha256 : string :=
  "40dfe87e0902156c7125faf88a0a9c404f4e07c6aac2d80e08a50c9f2caadfcd".

Definition nameless_calls : calls := {|
  json_calls := [ (nameless_manifest_text, VDict nameless_manifest);
                  (nameless_record_text, nameless_record) ];
  zlib_calls := [ (str_encode nameless_record_text, nameless_record_zlib) ];
  sha256_calls := [ (str_encode nameless_archive_text, nameless_archive_sha256) ]
|}.

Definition nameless_lib : pylib := recorded_lib nameless_calls.

Definition nameless_dir : package_dir :=
  {| manifest_file := Some (str_encode nameless_manifest_text);
     source := Dir [] [] |}.

Definition nameless_world : world :=
  {| packages_dir := [("foo", Directory nameless_dir)];
     pool_dir := [];
     stdout := [] |}.

(** A character of the base64 alphabet (the padding is not one). *)
Definition in_alphabet (b : byte) : bool :=
  match Base64.table_a2b b with
  | Some _ => true
  | None => false
  end.

(** A pool of three files that are no archives: bytes that are not
    UTF-8, a text that is not ASCII, and the first ten characters of an
    archive. *)
Definition damaged_pool_world : world :=
  {| packages_dir := [];
     pool_dir := [ ("foo.1.0.ccp", [xff; xfe]);
                   ("foo.1.1.ccp", [xc3; xa9]);
                   ("foo.1.2.ccp", str_encode "eNotjE0Kgz") ];
     stdout := [] |}.

(** The entry of version [v] of package [name] in an index. *)
Definition index_version (packages : value) (name v : string) : option value :=
  match value_get packages (KStr name) with
  | Some e =>
    match entry_versions e with
    | Some vs => dict_get (KStr v) vs
    | None => None
    end
  | None => None
  end.

(** The latest version of an entry is one of its versions. *)
Definition entry_consistent (e : value) : Prop :=
  exists vs lv,
    entry_versions e = Some vs
    /\ value_get e (KStr "latest_version") = Some (VStr lv)
    /\ dict_mem (KStr lv) vs = true.

(** The library of the samples, knowing the empty JSON array too. *)
Definition shapes_sample_calls : calls := {|
  json_calls :=
    ("[]", VList []) :: ("null", VNone) :: json_calls sample_calls;
  zlib_calls := zlib_calls sample_calls;
  sha256_calls := sha256_calls sample_calls
|}.

Definition shapes_sample_lib : pylib := recorded_lib shapes_sample_calls.

(** A source tree with a regular file beside the directory of a
    package. *)
Definition stray_entry_world : world :=
  {| packages_dir :=
       [ ("foo", Directory foo_dir);
         ("README.md", RegularFile (str_encode "notes")) ];
     pool_dir := [];
     stdout := [] |}.

(** A package whose manifest is the JSON value null. *)
Definition null_manifest_world : world :=
  {| packages_dir :=
       [ ("foo", Directory {| manifest_file := Some (str_encode "null");
                              source := Dir [] [] |}) ];
     pool_dir := [];
     stdout := [] |}.

(** The sample tree over a pool whose index is the empty JSON array. *)
Definition list_index_world : world :=
  {| packages_dir := [("foo", Directory foo_dir); ("bar", Directory bar_dir)];
     pool_dir := [("index.json", str_encode "[]")];
     stdout := [] |}.

(** The package returned for [foo] of the sample tree. *)
Definition foo_package : package :=
  {| manifest := foo_record; digest := foo_archive_sha256 |}.

(** The source tree is as before, every file of the pool is still there,
    the files that are neither the index nor named as an archive have
    their content, and standard output has only grown. *)
Definition pool_grows (w w' : world) : Prop :=
  packages_dir w' = packages_dir w
  /\ (forall f, In f (map fst (pool_dir w)) -> In f (map fst (pool_dir w')))
  /\ (forall f, f <> INDEX_FILE -> (forall n v, f <> archive_name n v) ->
                assoc f (pool_dir w') = assoc f (pool_dir w))
  /\ extends w w'.

(** The sample pool after a build, with a file of notes besides. *)
Definition noted_pool_world : world :=
  {| packages_dir := [("foo", Directory foo_dir)];
     pool_dir := [ ("NOTES", str_encode "keep");
                   ("index.json", str_encode "{}") ];
     stdout := [] |}.

(** The loop of [build_package] over the source files, as a function of
    the source tree. *)
Fixpoint files_fold (lib : pylib) (pkgs : list (string * dir_entry))
         (name : string) (paths : list string) (s : value) : outcome value :=
  match paths with
  | [] => Ok s
  | p :: r =>
    let? text := source_text pkgs name p in
    let? s' := py_update s "files"
                 (fun files => py_setitem files p (source_entry lib text)) in
    files_fold lib pkgs name r s'
  end.

(** What [build_package] returns, as a function of the source tree. *)
Definition built_record (lib : pylib) (pkgs : list (string * dir_entry))
           (name : string) : outcome (option value) :=
  if regular_file pkgs name then Raise NotADirectoryError
  else
    match match assoc name pkgs with
          | Some (Directory d) => manifest_file d
          | _ => None
          end with
    | None => Ok None
    | Some content =>
      match read_text content with
      | Raise _ => Raise UnicodeDecodeError
      | Ok text =>
        match json_loads lib text with
        | Ok m =>
          if is_container m then
            let? m1 := py_setitem m "files" (VDict []) in
            let? r := files_fold lib pkgs name (package_paths pkgs name) m1 in
            Ok (Some r)
          else Raise TypeError
        | Raise e =>
          match manifest_handler e with
          | Some _ => Ok None
          | None => Raise e
          end
        end
      end
    end.

(** What [build_and_write_package] returns, with the name of the archive
    file it writes, as a function of the source tree. *)
Definition built_package (lib : pylib) (pkgs : list (string * dir_entry))
           (name : string) : outcome (option (package * string)) :=
  let? r := built_record lib pkgs name in
  match r with
  | None => Ok None
  | Some pkg =>
    let? v := py_getitem pkg "version" in
    let fname := archive_name name (fmt lib v) in
    if has_char NUL fname then Raise ValueError
    else if has_char "/" fname then Raise OSError
    else Ok (Some ({| manifest := pkg;
                      digest := sha256_hexdigest lib (compress lib pkg) |},
                   fname))
  end.

(** The packages a build of [names] returns, each with its name and the
    name of its archive file. *)
Definition built_all (lib : pylib) (pkgs : list (string * dir_entry))
           (names : list string) : list (string * (package * string)) :=
  flat_map (fun n => match built_package lib pkgs n with
                     | Ok (Some pf) => [(n, pf)]
                     | _ => []
                     end)
           names.

(** The index updates and the archive writes of these packages. *)
Definition upserts_of (l : list (string * (package * string)))
  : list (string * package) :=
  map (fun x => (fst x, fst (snd x))) l.

Definition archives_of (lib : pylib) (l : list (string * (package * string)))
  : list (string * bytes) :=
  map (fun x => (snd (snd x), compress lib (manifest (fst (snd x))))) l.

(** The index after the updates of the build loop, in order. *)
Fixpoint index_fold (l : list (string * package)) (packages : value)
  : outcome value :=
  match l with
  | [] => Ok packages
  | (n, p) :: r =>
    let? packages' := build_upsert packages n p in
    index_fold r packages'
  end.

(** The pool after files are written, in order. *)
Fixpoint store_all (writes : list (string * bytes))
         (pool : list (string * bytes)) : list (string * bytes) :=
  match writes with
  | [] => pool
  | (f, c) :: r => store_all r (assoc_set f c pool)
  end.

(** The index comes back from the file it is written to. *)
Definition index_round_trips (lib : pylib) (packages : value) : Prop :=
  (let? text := read_text (write_text (json_dumps lib packages)) in
   json_loads lib text) = Ok packages.

(** The version of every package the build of the tree returns is a
    string. *)
Definition versions_are_strings (lib : pylib) (w : world) : Prop :=
  forall name p w',
    build_and_write_package lib name w = (Ok (Some p), w') ->
    exists v, py_getitem (manifest p) "version" = Ok (VStr v).

(** The record of every package the build of the tree returns comes back
    from its archive. *)
Definition records_round_trip (lib : pylib) (w : world) : Prop :=
  forall name p w',
    build_and_write_package lib name w = (Ok (Some p), w') ->
    zlib_round_trips lib (str_encode (json_dumps lib (manifest p)))
    /\ json_round_trips lib (manifest p).

(** The index holds for package [n] the entry an update with the package
    [p] leaves unchanged. *)
Definition settled (d : dict) (n : string) (p : package) : Prop :=
  exists e ds dp v,
    py_getitem (manifest p) "description" = Ok ds
    /\ py_getitem (manifest p) "dependencies" = Ok dp
    /\ py_getitem (manifest p) "version" = Ok (VStr v)
    /\ dict_get (KStr n) d = Some e
    /\ entry_ok e = true
    /\ upserted e ds v (version_entry (digest p) dp) = e.

(** The version of a package, when it is a string. *)
Definition version_string (p : package) : string :=
  match py_getitem (manifest p) "version" with
  | Ok (VStr v) => v
  | _ => ""
  end.

(** The (name, version) pairs of the packages a build returns. *)
Definition built_pairs (l : list (string * (package * string)))
  : list (string * string) :=
  map (fun x => (fst x, version_string (fst (snd x)))) l.

(** The carriage return. *)
Definition CR : ascii := ascii_of_byte x0d.

(** A package with a source file in the line-ending convention of
    Windows, and a manifest that is not JSON. *)
Definition crlf_world : world :=
  {| packages_dir :=
       [ ("foo",
          Directory
            {| manifest_file := Some (str_encode "oops");
               source := Dir [ ("a.txt", [x61; x0d; x0a; x62]) ] [] |}) ];
     pool_dir := [];
     stdout := [] |}.

(** The lines a package whose manifest is not JSON leaves on standard
    output. *)
Definition unreadable_manifest_lines (name : string) : list string :=
  [ "Packaging " ++ name;
    "[i] Reading manifest";
    "[!] Package is invalid (unreadable manifest)" ].

(** * Properties *)

(** ** Exhaustive checks over bytes *)

Lemma bz_range (b : byte) : 0 <= bz b < 256.
Proof.
  unfold bz. pose proof (Byte.to_N_bounded b). lia.
Qed.

Lemma byte_of_Z_bz (b : byte) : byte_of_Z (bz b) = b.
Proof.
  unfold byte_of_Z. pose proof (bz_range b) as R.
  rewrite Z.mod_small by exact R.
  unfold bz. rewrite N2Z.id, Byte.of_to_N. reflexivity.
Qed.

Lemma all_bytes_complete (b : byte) : In b all_bytes.
Proof.
  unfold all_bytes. apply in_map_iff.
  exists (Z.to_nat (bz b)). pose proof (bz_range b) as R. split.
  - rewrite Z2Nat.id by lia. apply byte_of_Z_bz.
  - apply in_seq. lia.
Qed.

Lemma forall_bytes (P : byte -> bool) :
  forallb P all_bytes = true -> forall b, P b = true.
Proof.
  intros H b. rewrite forallb_forall in H. apply H, all_bytes_complete.
Qed.

Lemma forall_bytes2 (P : byte -> byte -> bool) :
  forallb (fun a => forallb (P a) all_bytes) all_bytes = true ->
  forall a b, P a b = true.
Proof.
  intros H a b.
  apply (forall_bytes (P a)). apply (forall_bytes _ H).
Qed.

(** ** base64 round trip *)

Module Base64Facts.
Import Base64 Sextets.

Lemma char_ok_spec v :
  char_ok v = true ->
  Byte.eqb (table_b2a v) pad = false /\ table_a2b (table_b2a v) = Some v.
Proof.
  unfold char_ok. intros H. apply andb_true_iff in H as [H1 H2].
  apply negb_true_iff in H1. split; [exact H1|].
  destruct (table_a2b (table_b2a v)); [|discriminate].
  apply Z.eqb_eq in H2. now subst.
Qed.

Lemma s1_ok a : char_ok (s1 a) = true.
Proof. revert a. apply forall_bytes. vm_compute. reflexivity. Qed.

Lemma s2'_ok a : char_ok (s2' a) = true.
Proof. revert a. apply forall_bytes. vm_compute. reflexivity. Qed.

Lemma s3'_ok a : char_ok (s3' a) = true.
Proof. revert a. apply forall_bytes. vm_compute. reflexivity. Qed.

Lemma s4_ok a : char_ok (s4 a) = true.
Proof. revert a. apply forall_bytes. vm_compute. reflexivity. Qed.

Lemma s2_ok a b : char_ok (s2 a b) = true.
Proof. revert a b. apply forall_bytes2. vm_compute. reflexivity. Qed.

Lemma s3_ok a b : char_ok (s3 a b) = true.
Proof. revert a b. apply forall_bytes2. vm_compute. reflexivity. Qed.

(** The three bytes of a group come back from its four sextets. *)
Lemma out1 a b :
  byte_of_Z (Z.lor (Z.shiftl (s1 a) 2) (Z.shiftr (s2 a b) 4)) = a.
Proof.
  apply Byte.byte_dec_bl. revert a b.
  apply (forall_bytes2
    (fun a b => Byte.eqb (byte_of_Z (Z.lor (Z.shiftl (s1 a) 2)
                                          (Z.shiftr (s2 a b) 4))) a)).
  vm_compute. reflexivity.
Qed.

Lemma out1' a :
  byte_of_Z (Z.lor (Z.shiftl (s1 a) 2) (Z.shiftr (s2' a) 4)) = a.
Proof.
  apply Byte.byte_dec_bl. revert a.
  apply (forall_bytes
    (fun a => Byte.eqb (byte_of_Z (Z.lor (Z.shiftl (s1 a) 2)
                                        (Z.shiftr (s2' a) 4))) a)).
  vm_compute. reflexivity.
Qed.

Lemma s2_low a b : Z.land (s2 a b) 15 = Z.land (bz b / 16) 15.
Proof.
  apply Z.eqb_eq. revert a b.
  apply (forall_bytes2
    (fun a b => Z.land (s2 a b) 15 =? Z.land (bz b / 16) 15)).
  vm_compute. reflexivity.
Qed.

Lemma out2 b c :
  byte_of_Z (Z.lor (Z.shiftl (Z.land (bz b / 16) 15) 4) (Z.shiftr (s3 b c) 2))
  = b.
Proof.
  apply Byte.byte_dec_bl. revert b c.
  apply (forall_bytes2
    (fun b c => Byte.eqb
       (byte_of_Z (Z.lor (Z.shiftl (Z.land (bz b / 16) 15) 4)
                         (Z.shiftr (s3 b c) 2))) b)).
  vm_compute. reflexivity.
Qed.

Lemma out2' b :
  byte_of_Z (Z.lor (Z.shiftl (Z.land (bz b / 16) 15) 4) (Z.shiftr (s3' b) 2))
  = b.
Proof.
  apply Byte.byte_dec_bl. revert b.
  apply (forall_bytes
    (fun b => Byte.eqb
       (byte_of_Z (Z.lor (Z.shiftl (Z.land (bz b / 16) 15) 4)
                         (Z.shiftr (s3' b) 2))) b)).
  vm_compute. reflexivity.
Qed.

Lemma out3 b c :
  byte_of_Z (Z.lor (Z.shiftl (Z.land (s3 b c) 3) 6) (s4 c)) = c.
Proof.
  apply Byte.byte_dec_bl. revert b c.
  apply (forall_bytes2
    (fun b c => Byte.eqb
       (byte_of_Z (Z.lor (Z.shiftl (Z.land (s3 b c) 3) 6) (s4 c))) c)).
  vm_compute. reflexivity.
Qed.

(** One step of the decoder on a character of the alphabet. *)
Lemma a2b_char q lc p v r :
  char_ok v = true ->
  a2b q lc p (table_b2a v :: r) =
  match q with
  | 0%nat => a2b 1 v 0 r
  | 1%nat =>
    let? out := a2b 2 (Z.land v 15) 0 r in
    Ok (byte_of_Z (Z.lor (Z.shiftl lc 2) (Z.shiftr v 4)) :: out)
  | 2%nat =>
    let? out := a2b 3 (Z.land v 3) 0 r in
    Ok (byte_of_Z (Z.lor (Z.shiftl lc 4) (Z.shiftr v 2)) :: out)
  | _ =>
    let? out := a2b 0 0 0 r in
    Ok (byte_of_Z (Z.lor (Z.shiftl lc 6) v) :: out)
  end.
Proof.
  intros H. apply char_ok_spec in H as [H1 H2].
  cbn [a2b]. rewrite H1, H2. reflexivity.
Qed.

Lemma list_ind3 (A : Type) (P : list A -> Prop) :
  P [] -> (forall a, P [a]) -> (forall a b, P [a; b]) ->
  (forall a b c r, P r -> P (a :: b :: c :: r)) ->
  forall l, P l.
Proof.
  intros H0 H1 H2 H3.
  assert (G : forall l, P l /\ (forall a, P (a :: l))
                        /\ (forall a b, P (a :: b :: l))).
  { induction l as [|x l [IH0 [IH1 IH2]]].
    - auto.
    - repeat split; auto. }
  intros l. apply G.
Qed.

Lemma a2b_pad2 lc : a2b 2 lc 0 [pad; pad] = Ok [].
Proof. reflexivity. Qed.

Lemma a2b_pad1 lc : a2b 3 lc 0 [pad] = Ok [].
Proof. reflexivity. Qed.

Lemma a2b_b2a (data : bytes) : a2b 0 0 0 (b2a data) = Ok data.
Proof.
  induction data as [|a|a b|a b c r IH] using list_ind3.
  - reflexivity.
  - cbn [b2a]. fold (s1 a) (s2' a).
    rewrite (a2b_char _ _ _ _ _ (s1_ok a)), (a2b_char _ _ _ _ _ (s2'_ok a)).
    rewrite a2b_pad2. unfold obind. rewrite out1'. reflexivity.
  - cbn [b2a]. fold (s1 a) (s2 a b) (s3' b).
    rewrite (a2b_char _ _ _ _ _ (s1_ok a)), (a2b_char _ _ _ _ _ (s2_ok a b)),
      (a2b_char _ _ _ _ _ (s3'_ok b)).
    rewrite a2b_pad1. unfold obind. rewrite out1, s2_low, out2'. reflexivity.
  - cbn [b2a]. fold (s1 a) (s2 a b) (s3 b c) (s4 c).
    rewrite (a2b_char _ _ _ _ _ (s1_ok a)), (a2b_char _ _ _ _ _ (s2_ok a b)),
      (a2b_char _ _ _ _ _ (s3_ok b c)), (a2b_char _ _ _ _ _ (s4_ok c)).
    rewrite IH. unfold obind. rewrite out1, s2_low, out2, out3. reflexivity.
Qed.

End Base64Facts.

(** ** Text files holding base64 *)

Module TextFacts.
Import Base64.

Lemma table_b2a_plain v : plain (table_b2a v) = true.
Proof.
  assert (A : forallb plain alphabet = true) by (vm_compute; reflexivity).
  unfold table_b2a.
  destruct (nth_in_or_default (Z.to_nat v) alphabet pad) as [I | E].
  - rewrite forallb_forall in A. apply A, I.
  - rewrite E. reflexivity.
Qed.

Lemma b2a_plain (data : bytes) : forallb plain (b2a data) = true.
Proof.
  induction data as [|a|a b|a b c r IH] using Base64Facts.list_ind3;
    cbn [b2a forallb]; rewrite ?table_b2a_plain, ?IH; reflexivity.
Qed.

Lemma utf8_valid_plain (l : bytes) : forallb plain l = true -> utf8_valid l = true.
Proof.
  unfold utf8_valid. induction l as [|b l IH]; [reflexivity|].
  cbn [forallb utf8_scan]. intros H. apply andb_true_iff in H as [Hb Hl].
  unfold plain, is_ascii in Hb. apply andb_true_iff in Hb as [Hb _].
  rewrite Hb. apply IH, Hl.
Qed.

Lemma universal_newlines_plain (l : bytes) :
  forallb plain l = true -> universal_newlines l = l.
Proof.
  induction l as [|b l IH]; [reflexivity|].
  cbn [forallb universal_newlines]. intros H.
  apply andb_true_iff in H as [Hb Hl].
  unfold plain in Hb. apply andb_true_iff in Hb as [_ Hb].
  apply negb_true_iff in Hb. rewrite Hb, (IH Hl). reflexivity.
Qed.

Lemma is_ascii_plain (l : bytes) :
  forallb plain l = true -> forallb is_ascii l = true.
Proof.
  induction l as [|b l IH]; [reflexivity|].
  cbn [forallb]. intros H. apply andb_true_iff in H as [Hb Hl].
  unfold plain in Hb. apply andb_true_iff in Hb as [Hb _].
  rewrite Hb, (IH Hl). reflexivity.
Qed.

Lemma bytes_decode_plain (l : bytes) :
  forallb plain l = true -> bytes_decode l = Ok (string_of_list_byte l).
Proof.
  intros H. unfold bytes_decode. rewrite (utf8_valid_plain _ H). reflexivity.
Qed.

Lemma str_encode_of_bytes (l : bytes) : str_encode (string_of_list_byte l) = l.
Proof. apply list_byte_of_string_of_list_byte. Qed.

(** Writing the text of plain bytes and reading the file back gives the
    text again. *)
Lemma read_write_plain (l : bytes) :
  forallb plain l = true ->
  read_text (write_text (string_of_list_byte l)) = Ok (string_of_list_byte l).
Proof.
  intros H. unfold read_text, write_text. rewrite str_encode_of_bytes.
  rewrite (utf8_valid_plain _ H), (universal_newlines_plain _ H). reflexivity.
Qed.

Lemma b64decode_b64encode (data : bytes) :
  b64decode (string_of_list_byte (b64encode data)) = Ok data.
Proof.
  unfold b64decode, b64encode. rewrite str_encode_of_bytes.
  rewrite (is_ascii_plain _ (b2a_plain data)). apply Base64Facts.a2b_b2a.
Qed.

End TextFacts.

Example sample_compress :
  compress sample_lib foo_record = str_encode foo_archive_text
  /\ compress sample_lib (VDict []) = str_encode empty_archive_text.
Proof. split; vm_compute; reflexivity. Qed.

(** ** Reasoning about computations *)

Lemma bind_inv {A B} (m : M A) (f : A -> M B) w r w' :
  bind m f w = (r, w') ->
  (exists a w1, m w = (Ok a, w1) /\ f a w1 = (r, w'))
  \/ (exists e, m w = (Raise e, w') /\ r = Raise e).
Proof.
  unfold bind. destruct (m w) as [[a|e] w1]; intros H.
  - left. eauto.
  - right. inversion H; subst. eauto.
Qed.

Lemma bind_ok {A B} (m : M A) (f : A -> M B) w b w' :
  bind m f w = (Ok b, w') ->
  exists a w1, m w = (Ok a, w1) /\ f a w1 = (Ok b, w').
Proof.
  intros H. apply bind_inv in H as [H | (e & _ & H)]; [exact H | discriminate].
Qed.

Lemma bind_eq_ok {A B} (m : M A) (f : A -> M B) w a w1 :
  m w = (Ok a, w1) -> bind m f w = f a w1.
Proof. unfold bind. intros ->. reflexivity. Qed.

Lemma bind_eq_raise {A B} (m : M A) (f : A -> M B) w e w1 :
  m w = (Raise e, w1) -> bind m f w = (Raise e, w1).
Proof. unfold bind. intros ->. reflexivity. Qed.

Lemma lift_inv {A} (o : outcome A) w r w' :
  lift o w = (r, w') -> r = o /\ w' = w.
Proof. unfold lift. intros H. inversion H. auto. Qed.

Lemma ret_inv {A} (a : A) w r w' : ret a w = (r, w') -> r = Ok a /\ w' = w.
Proof. unfold ret. intros H. inversion H. auto. Qed.

Lemma try_except_inv {A} (m : M A) h w r w' :
  try_except m h w = (r, w') ->
  (exists a, m w = (Ok a, w') /\ r = Ok a)
  \/ (exists e w1, m w = (Raise e, w1)
                   /\ match h e with
                      | Some k => k w1 = (r, w')
                      | None => r = Raise e /\ w' = w1
                      end).
Proof.
  unfold try_except. destruct (m w) as [[a|e] w1]; intros H.
  - left. inversion H; subst. eauto.
  - right. exists e, w1. split; [reflexivity|].
    destruct (h e); [exact H|]. inversion H. auto.
Qed.

(** Relations between the world before and after a computation that hold
    of every step and compose. *)
Section Preserved.

Variable R : world -> world -> Prop.
Hypothesis R_refl : forall w, R w w.
Hypothesis R_trans : forall a b c, R a b -> R b c -> R a c.

Lemma preserves_ret {A} (a : A) : preserves R (ret a).
Proof. intros w r w' H. apply ret_inv in H as [_ ->]. apply R_refl. Qed.

Lemma preserves_raise {A} e : preserves R (@raise A e).
Proof. intros w r w' H. inversion H. subst. apply R_refl. Qed.

Lemma preserves_lift {A} (o : outcome A) : preserves R (lift o).
Proof. intros w r w' H. apply lift_inv in H as [_ ->]. apply R_refl. Qed.

Lemma preserves_bind {A B} (m : M A) (f : A -> M B) :
  preserves R m -> (forall a, preserves R (f a)) -> preserves R (bind m f).
Proof.
  intros Hm Hf w r w' H.
  apply bind_inv in H as [(a & w1 & H1 & H2) | (e & H1 & _)].
  - eapply R_trans; [eapply Hm, H1 | eapply Hf, H2].
  - eapply Hm, H1.
Qed.

Lemma preserves_try {A} (m : M A) h :
  preserves R m -> (forall e k, h e = Some k -> preserves R k) ->
  preserves R (try_except m h).
Proof.
  intros Hm Hh w r w' H.
  apply try_except_inv in H as [(a & H1 & _) | (e & w1 & H1 & H2)].
  - eapply Hm, H1.
  - destruct (h e) as [k|] eqn:E.
    + eapply R_trans; [eapply Hm, H1 | eapply (Hh _ _ E), H2].
    + destruct H2 as [_ ->]. eapply Hm, H1.
Qed.

Lemma preserves_for_each {X S} (xs : list X) (body : S -> X -> M S) :
  (forall s x, preserves R (body s x)) ->
  forall s, preserves R (for_each xs body s).
Proof.
  intros Hb. induction xs as [|x xs IH]; intros s; cbn [for_each].
  - apply preserves_ret.
  - apply preserves_bind; [apply Hb | intros s'; apply IH].
Qed.

End Preserved.

(** ** What the functions leave unchanged *)

Lemma same_files_refl w : same_files w w.
Proof. split; reflexivity. Qed.

Lemma same_files_trans a b c : same_files a b -> same_files b c -> same_files a c.
Proof. intros [H1 H2] [H3 H4]. split; congruence. Qed.

Lemma extends_refl w : extends w w.
Proof. exists []. symmetry. apply app_nil_r. Qed.

Lemma extends_trans a b c : extends a b -> extends b c -> extends a c.
Proof.
  intros [l1 H1] [l2 H2]. exists (l1 ++ l2)%list.
  rewrite H2, H1, app_assoc. reflexivity.
Qed.

Lemma extends_say line w : extends w (say line w).
Proof. exists [line]. reflexivity. Qed.

Lemma same_files_extends_store fname content w :
  extends w (pool_store fname content w).
Proof. exists []. cbn. symmetry. apply app_nil_r. Qed.

Lemma say_all_stdout lines w :
  stdout (say_all lines w) = (stdout w ++ lines)%list.
Proof.
  revert w. induction lines as [|l r IH]; intros w; cbn [say_all].
  - symmetry. apply app_nil_r.
  - rewrite IH. cbn [say stdout]. rewrite <- app_assoc. reflexivity.
Qed.

Lemma say_all_files lines w : same_files w (say_all lines w).
Proof.
  revert w. induction lines as [|l r IH]; intros w; cbn [say_all].
  - apply same_files_refl.
  - eapply same_files_trans; [|apply IH]. split; reflexivity.
Qed.

Lemma prints_only_refl w : prints_only w w.
Proof. split; [apply same_files_refl | apply extends_refl]. Qed.

Lemma prints_only_trans a b c :
  prints_only a b -> prints_only b c -> prints_only a c.
Proof.
  intros [H1 H2] [H3 H4].
  split; [eapply same_files_trans | eapply extends_trans]; eauto.
Qed.

Lemma quiet_print line : quiet (print line).
Proof.
  intros w r w' H. inversion H. subst.
  split; [split; reflexivity | apply extends_say].
Qed.

Lemma quiet_pool_read fname : quiet (pool_read fname).
Proof.
  intros w r w' H. unfold pool_read in H.
  destruct (assoc fname (pool_dir w)); inversion H; subst;
    apply prints_only_refl.
Qed.

Lemma quiet_ret {A} (a : A) : quiet (ret a).
Proof. apply preserves_ret, prints_only_refl. Qed.

Lemma quiet_raise {A} e : quiet (@raise A e).
Proof. apply preserves_raise, prints_only_refl. Qed.

Lemma quiet_lift {A} (o : outcome A) : quiet (lift o).
Proof. apply preserves_lift, prints_only_refl. Qed.

Lemma quiet_bind {A B} (m : M A) (f : A -> M B) :
  quiet m -> (forall a, quiet (f a)) -> quiet (bind m f).
Proof. apply preserves_bind, prints_only_trans. Qed.

Lemma quiet_try {A} (m : M A) h :
  quiet m -> (forall e k, h e = Some k -> quiet k) -> quiet (try_except m h).
Proof. apply preserves_try, prints_only_trans. Qed.

Lemma quiet_for_each {X S} (xs : list X) (body : S -> X -> M S) s :
  (forall s x, quiet (body s x)) -> quiet (for_each xs body s).
Proof.
  intros H.
  apply (preserves_for_each prints_only prints_only_refl prints_only_trans
           xs body H).
Qed.

Create HintDb quiet.
#[export] Hint Resolve quiet_print quiet_pool_read quiet_ret quiet_raise
  quiet_lift : quiet.

(** Decomposes a goal [quiet m] along the structure of [m]. *)
Ltac solve_quiet :=
  repeat (intros;
    match goal with
    | H : Some _ = Some _ |- _ => inversion H; subst; clear H
    | H : match ?e with _ => _ end = Some _ |- _ =>
      destruct e; try discriminate
    | |- quiet (bind _ _) => apply quiet_bind
    | |- quiet (for_each _ _ _) => apply quiet_for_each
    | |- quiet (try_except _ _) => apply quiet_try
    | |- quiet (match ?x with _ => _ end) => destruct x
    | |- quiet _ => solve [eauto with quiet]
    end).

Section ScriptFrames.

Variable lib : pylib.

Lemma quiet_read_manifest_file name : quiet (read_manifest_file name).
Proof.
  intros w r w' H. unfold read_manifest_file in H.
  destruct (assoc name (packages_dir w)) as [[c|d]|];
    [|destruct (manifest_file d)|];
    inversion H; subst; apply prints_only_refl.
Qed.

Lemma quiet_read_source_file name path : quiet (read_source_file name path).
Proof.
  intros w r w' H. unfold read_source_file in H.
  destruct (assoc name (packages_dir w)) as [[c|d]|];
    [|destruct (assoc (source_path name ++ path)
                      (tree_files (source_path name) (source d)))|];
    inversion H; subst; apply prints_only_refl.
Qed.

Lemma quiet_get_package_files name : quiet (get_package_files name).
Proof.
  intros w r w' H. unfold get_package_files in H.
  destruct (assoc name (packages_dir w)) as [[c|d]|]; inversion H; subst;
    apply prints_only_refl.
Qed.

Hint Resolve quiet_read_manifest_file quiet_read_source_file
  quiet_get_package_files : quiet.

Lemma quiet_get_manifest name : quiet (get_manifest lib name).
Proof. unfold get_manifest. solve_quiet. Qed.

Hint Resolve quiet_get_manifest : quiet.

Lemma quiet_build_package name : quiet (build_package lib name).
Proof. unfold build_package, build_package_file. solve_quiet. Qed.

Lemma quiet_read_package name version : quiet (read_package lib name version).
Proof. unfold read_package. solve_quiet. Qed.

End ScriptFrames.

(** ** Association lists *)

Lemma assoc_set_same {A} k (a : A) l : assoc k (assoc_set k a l) = Some a.
Proof.
  induction l as [|[k' a'] l IH]; cbn [assoc assoc_set].
  - rewrite String.eqb_refl. reflexivity.
  - destruct (String.eqb k k') eqn:E; cbn [assoc]; rewrite E; auto.
Qed.

Lemma assoc_set_other {A} k k' (a : A) l :
  k <> k' -> assoc k' (assoc_set k a l) = assoc k' l.
Proof.
  intros N. induction l as [|[k0 a0] l IH]; cbn [assoc assoc_set].
  - apply String.eqb_neq in N. rewrite String.eqb_sym, N. reflexivity.
  - destruct (String.eqb k k0) eqn:E; cbn [assoc].
    + apply String.eqb_eq in E. subst k0.
      apply String.eqb_neq in N. rewrite String.eqb_sym, N. reflexivity.
    + rewrite IH. reflexivity.
Qed.

(** ** The archive codec *)

Section Codec.

Variable lib : pylib.

Lemma compress_plain r : forallb plain (compress lib r) = true.
Proof. apply TextFacts.b2a_plain. Qed.

Lemma compress_decode r : bytes_decode (compress lib r) = Ok (archive_text lib r).
Proof. apply TextFacts.bytes_decode_plain, compress_plain. Qed.

Lemma archive_text_encode r : str_encode (archive_text lib r) = compress lib r.
Proof. apply TextFacts.str_encode_of_bytes. Qed.

Lemma archive_text_reread r :
  read_text (write_text (archive_text lib r)) = Ok (archive_text lib r).
Proof. apply TextFacts.read_write_plain, compress_plain. Qed.

Lemma decode_archive_text r :
  zlib_round_trips lib (str_encode (json_dumps lib r)) ->
  json_round_trips lib r ->
  decode_archive lib (archive_text lib r) = Ok r.
Proof.
  intros Hz Hj. unfold decode_archive, archive_text, compress.
  rewrite TextFacts.b64decode_b64encode. cbn [obind].
  rewrite Hz. exact Hj.
Qed.

(** C1.  Round trip of the archive codec: for a record [r] that the JSON
    and zlib modules themselves carry through unchanged (a well-formed
    record), encoding [r] as [compress] does, writing the text to the
    archive file, reading it back and decoding it by the inverse steps of
    [read_package] gives [r] again. *)
Theorem archive_round_trip (r : value) :
  zlib_round_trips lib (str_encode (json_dumps lib r)) ->
  json_round_trips lib r ->
  (let? text := bytes_decode (compress lib r) in
   let? data := read_text (write_text text) in
   decode_archive lib data) = Ok r.
Proof.
  intros Hz Hj.
  rewrite compress_decode. cbn [obind].
  rewrite archive_text_reread. cbn [obind].
  apply decode_archive_text; assumption.
Qed.

End Codec.

Lemma archive_round_trip_witness :
  (let? text := bytes_decode (compress sample_lib foo_record) in
   let? data := read_text (write_text text) in
   decode_archive sample_lib data) = Ok foo_record.
Proof.
  apply (archive_round_trip sample_lib foo_record); vm_compute; reflexivity.
Defined.

(** ** Building and writing one package *)

Section Build.

Variable lib : pylib.

(** [build_and_write_package] in terms of what [build_package] returns. *)
Lemma build_and_write_eq name w :
  build_and_write_package lib name w =
  match build_package lib name (say ("Packaging " ++ name) w) with
  | (Ok None, w1) => (Ok None, w1)
  | (Ok (Some pkg), w1) =>
    match py_getitem pkg "version" with
    | Ok v =>
      let fname := archive_name name (fmt lib v) in
      if has_char NUL fname then (Raise ValueError, w1)
      else if has_char "/" fname then (Raise OSError, w1)
      else (Ok (Some {| manifest := pkg;
                        digest := sha256_hexdigest lib (compress lib pkg) |}),
            pool_store fname (compress lib pkg) (pool_store fname [] w1))
    | Raise e => (Raise e, w1)
    end
  | (Raise e, w1) => (Raise e, w1)
  end.
Proof.
  unfold build_and_write_package.
  unfold bind at 1. unfold print at 1.
  unfold bind at 1.
  destruct (build_package lib name (say ("Packaging " ++ name) w))
    as [[[pkg|]|e] w1]; try reflexivity.
  unfold bind at 1, lift at 1.
  destruct (py_getitem pkg "version") as [v|e]; [|reflexivity].
  unfold bind at 1, pool_open_w at 1. cbv zeta.
  destruct (has_char NUL (archive_name name (fmt lib v))); [reflexivity|].
  destruct (has_char "/" (archive_name name (fmt lib v))); [reflexivity|].
  unfold bind at 1, lift at 1. rewrite compress_decode.
  unfold bind, pool_write, ret. unfold archive_text, write_text.
  rewrite TextFacts.str_encode_of_bytes. reflexivity.
Qed.

Lemma pool_read_store fname content w :
  pool_read fname (pool_store fname content w)
  = (read_text content, pool_store fname content w).
Proof.
  unfold pool_read, pool_store. cbn [pool_dir].
  rewrite assoc_set_same. reflexivity.
Qed.

(** Reading back an archive that was just written. *)
Lemma read_package_written name version pkg w :
  zlib_round_trips lib (str_encode (json_dumps lib pkg)) ->
  json_round_trips lib pkg ->
  let w' := pool_store (archive_name name version) (compress lib pkg) w in
  read_package lib name version w'
  = (Ok (Some {| manifest := pkg;
                 digest := sha256_hexdigest lib (compress lib pkg) |}), w').
Proof.
  intros Hz Hj w'. unfold read_package, try_except.
  unfold bind at 1. subst w'. rewrite pool_read_store.
  pose proof (archive_text_reread lib pkg) as Hr.
  unfold write_text in Hr. rewrite archive_text_encode in Hr. rewrite Hr.
  unfold bind, lift, ret. rewrite (decode_archive_text lib pkg Hz Hj).
  rewrite archive_text_encode. reflexivity.
Qed.

(** C6.  The digest build mode records for an archive it wrote (over the
    encoded bytes) is the digest repair mode computes when it reads that
    archive file back (over the re-read text, encoded): the file read back
    decodes, as [read_package] does it, to the same package with the same
    digest, under whichever name and version the file name splits into. *)
Theorem written_digest_read_back name w p w' n version v :
  build_and_write_package lib name w = (Ok (Some p), w') ->
  zlib_round_trips lib (str_encode (json_dumps lib (manifest p))) ->
  json_round_trips lib (manifest p) ->
  py_getitem (manifest p) "version" = Ok v ->
  archive_name n version = archive_name name (fmt lib v) ->
  digest p = sha256_hexdigest lib (compress lib (manifest p))
  /\ (exists data,
        pool_read (archive_name n version) w' = (Ok data, w')
        /\ str_encode data = compress lib (manifest p))
  /\ read_package lib n version w' = (Ok (Some p), w').
Proof.
  intros Hb Hz Hj Hv Hn. rewrite build_and_write_eq in Hb.
  destruct (build_package lib name (say ("Packaging " ++ name) w))
    as [[[pkg|]|e] w1]; try discriminate.
  destruct (py_getitem pkg "version") as [v'|e] eqn:Ev; [|discriminate].
  cbv zeta in Hb.
  destruct (has_char NUL (archive_name name (fmt lib v'))); [discriminate|].
  destruct (has_char "/" (archive_name name (fmt lib v'))); [discriminate|].
  inversion Hb; subst p w'; clear Hb. cbn [manifest digest] in *.
  assert (v' = v) by congruence. subst v'. rewrite <- Hn.
  split; [reflexivity|]. split.
  - exists (archive_text lib pkg). rewrite pool_read_store.
    pose proof (archive_text_reread lib pkg) as Hr.
    unfold write_text in Hr. rewrite archive_text_encode in Hr. rewrite Hr.
    split; [reflexivity | apply archive_text_encode].
  - apply (read_package_written n version pkg _ Hz Hj).
Qed.

End Build.

Lemma written_digest_read_back_witness :
  digest {| manifest := foo_record; digest := foo_archive_sha256 |}
  = sha256_hexdigest sample_lib (compress sample_lib foo_record)
  /\ (exists data,
        pool_read (archive_name "foo" "1.0")
          (snd (build_and_write_package sample_lib "foo" sample_world))
        = (Ok data, snd (build_and_write_package sample_lib "foo" sample_world))
        /\ str_encode data = compress sample_lib foo_record)
  /\ read_package sample_lib "foo" "1.0"
       (snd (build_and_write_package sample_lib "foo" sample_world))
     = (Ok (Some {| manifest := foo_record; digest := foo_archive_sha256 |}),
        snd (build_and_write_package sample_lib "foo" sample_world)).
Proof.
  apply (written_digest_read_back sample_lib "foo" sample_world
           {| manifest := foo_record; digest := foo_archive_sha256 |}
           (snd (build_and_write_package sample_lib "foo" sample_world))
           "foo" "1.0" (VStr "1.0"));
    vm_compute; reflexivity.
Defined.

(** ** Dictionaries *)

Lemma key_eqb_refl k : key_eqb k k = true.
Proof.
  destruct k as [s|z|b|]; cbn.
  - apply String.eqb_refl.
  - apply Z.eqb_refl.
  - destruct b; reflexivity.
  - reflexivity.
Qed.

Lemma key_eqb_str_l s k : key_eqb (KStr s) k = true -> k = KStr s.
Proof.
  destruct k; cbn; try discriminate.
  intros H. apply String.eqb_eq in H. now subst.
Qed.

Lemma key_eqb_str_r s k : key_eqb k (KStr s) = true -> k = KStr s.
Proof.
  destruct k; cbn; try discriminate.
  intros H. apply String.eqb_eq in H. now subst.
Qed.

Lemma key_eqb_str s t : key_eqb (KStr s) (KStr t) = String.eqb s t.
Proof. reflexivity. Qed.

Lemma dict_get_set_str s v d :
  dict_get (KStr s) (dict_set (KStr s) v d) = Some v.
Proof.
  induction d as [|[k' v'] d IH]; cbn [dict_get dict_set].
  - rewrite key_eqb_refl. reflexivity.
  - destruct (key_eqb (KStr s) k') eqn:E; cbn [dict_get]; rewrite E; auto.
Qed.

Lemma dict_get_set_other s v d k :
  key_eqb k (KStr s) = false ->
  dict_get k (dict_set (KStr s) v d) = dict_get k d.
Proof.
  intros N. induction d as [|[k' v'] d IH]; cbn [dict_get dict_set].
  - rewrite N. reflexivity.
  - destruct (key_eqb (KStr s) k') eqn:E; cbn [dict_get].
    + apply key_eqb_str_l in E. subst k'. rewrite N. reflexivity.
    + rewrite IH. reflexivity.
Qed.


Lemma py_getitem_ok c k v : py_getitem c k = Ok v -> value_get c (KStr k) = Some v.
Proof.
  destruct c; cbn; try discriminate.
  destruct (dict_get (KStr k) d); [|discriminate]. congruence.
Qed.


Lemma py_setitem_ok c k v c' :
  py_setitem c k v = Ok c' ->
  exists d, c = VDict d /\ c' = VDict (dict_set (KStr k) v d).
Proof.
  destruct c; cbn; try discriminate. intros H. inversion H. eauto.
Qed.

Lemma py_update_ok c k f c' :
  py_update c k f = Ok c' ->
  exists d item item',
    c = VDict d /\ dict_get (KStr k) d = Some item /\ f item = Ok item'
    /\ c' = VDict (dict_set (KStr k) item' d).
Proof.
  unfold py_update. intros H.
  destruct (py_getitem c k) as [item|] eqn:G; [|discriminate].
  cbn [obind] in H. destruct (f item) as [item'|] eqn:F; [|discriminate].
  cbn [obind] in H. apply py_setitem_ok in H as (d & -> & ->).
  apply py_getitem_ok in G. cbn in G. eauto 8.
Qed.

(** After [c[k]... = ...] the object under [k] is the mutated one and the
    other entries of [c] are as before. *)
Lemma py_update_same c k f c' :
  py_update c k f = Ok c' ->
  exists item item',
    value_get c (KStr k) = Some item /\ f item = Ok item'
    /\ value_get c' (KStr k) = Some item'.
Proof.
  intros H. apply py_update_ok in H as (d & item & item' & -> & G & F & ->).
  exists item, item'. cbn. rewrite dict_get_set_str. auto.
Qed.

Lemma py_update_other c k f c' k' :
  py_update c k f = Ok c' -> key_eqb k' (KStr k) = false ->
  value_get c' k' = value_get c k'.
Proof.
  intros H N. apply py_update_ok in H as (d & item & item' & -> & G & F & ->).
  cbn. apply dict_get_set_other, N.
Qed.

Lemma ensure_entry_other c name c' k' :
  ensure_entry c name = Ok c' -> key_eqb k' (KStr name) = false ->
  value_get c' k' = value_get c k'.
Proof.
  unfold ensure_entry. intros H N.
  destruct (py_contains c name) as [[|]|]; cbn [obind] in H; try discriminate.
  - inversion H. reflexivity.
  - apply py_setitem_ok in H as (d & -> & ->). cbn.
    apply dict_get_set_other, N.
Qed.

(** ** Index upserts *)

Lemma obind_ok {A B} (m : outcome A) (f : A -> outcome B) b :
  obind m f = Ok b -> exists a, m = Ok a /\ f a = Ok b.
Proof. destruct m; cbn; [eauto | discriminate]. Qed.

(** Splits the first step off a successful chain of [let?]. *)
Ltac obind_split H :=
  let a := fresh "x" in
  let E := fresh "E" in
  apply obind_ok in H as (a & E & H).

Section Upsert.

Variable lib : pylib.

Lemma build_upsert_steps packages name p packages' :
  build_upsert packages name p = Ok packages' ->
  exists p1 p2 p3 description dependencies version,
    ensure_entry packages name = Ok p1
    /\ py_getitem (manifest p) "description" = Ok description
    /\ py_update p1 name
         (fun entry => py_setitem entry "description" description) = Ok p2
    /\ py_getitem (manifest p) "dependencies" = Ok dependencies
    /\ py_update p2 name
         (fun entry =>
            py_update entry "versions"
              (fun versions =>
                 let? version := py_getitem (manifest p) "version" in
                 py_setitem_obj versions version
                   (version_entry (digest p) dependencies))) = Ok p3
    /\ py_getitem (manifest p) "version" = Ok version
    /\ py_update p3 name
         (fun entry => py_setitem entry "latest_version" version)
       = Ok packages'.
Proof.
  unfold build_upsert. intros H. do 6 obind_split H.
  eauto 15.
Qed.

Lemma repair_upsert_steps packages name version p packages' :
  repair_upsert packages name version p = Ok packages' ->
  exists p1 p2 p3 description dependencies,
    ensure_entry packages name = Ok p1
    /\ py_getitem (manifest p) "description" = Ok description
    /\ py_update p1 name
         (fun entry => py_setitem entry "description" description) = Ok p2
    /\ py_getitem (manifest p) "dependencies" = Ok dependencies
    /\ py_update p2 name
         (fun entry =>
            py_update entry "versions"
              (fun versions =>
                 py_setitem versions version
                   (version_entry (digest p) dependencies))) = Ok p3
    /\ py_update p3 name
         (fun entry => py_setitem entry "latest_version" (VStr version))
       = Ok packages'.
Proof.
  unfold repair_upsert. intros H. do 5 obind_split H.
  eauto 15.
Qed.

(** An upsert leaves the entries of the other packages alone. *)
Lemma build_upsert_other packages name p packages' k :
  build_upsert packages name p = Ok packages' ->
  key_eqb k (KStr name) = false ->
  value_get packages' k = value_get packages k.
Proof.
  intros H N.
  apply build_upsert_steps in H
    as (p1 & p2 & p3 & ds & dp & v & H1 & _ & H2 & _ & H3 & _ & H4).
  rewrite (py_update_other _ _ _ _ _ H4 N), (py_update_other _ _ _ _ _ H3 N),
    (py_update_other _ _ _ _ _ H2 N).
  apply (ensure_entry_other _ _ _ _ H1 N).
Qed.

Lemma repair_upsert_other packages name version p packages' k :
  repair_upsert packages name version p = Ok packages' ->
  key_eqb k (KStr name) = false ->
  value_get packages' k = value_get packages k.
Proof.
  intros H N.
  apply repair_upsert_steps in H
    as (p1 & p2 & p3 & ds & dp & H1 & _ & H2 & _ & H3 & H4).
  rewrite (py_update_other _ _ _ _ _ H4 N), (py_update_other _ _ _ _ _ H3 N),
    (py_update_other _ _ _ _ _ H2 N).
  apply (ensure_entry_other _ _ _ _ H1 N).
Qed.

Lemma set_latest_version p3 name v packages' :
  py_update p3 name (fun entry => py_setitem entry "latest_version" v)
  = Ok packages' ->
  exists entry,
    value_get packages' (KStr name) = Some entry
    /\ value_get entry (KStr "latest_version") = Some v.
Proof.
  intros H. apply py_update_same in H as (item & item' & _ & F & G).
  exists item'. split; [exact G|].
  apply py_setitem_ok in F as (d & -> & ->). cbn.
  apply dict_get_set_str.
Qed.

(** C9.  After an upsert by either strategy, the [latest_version] of the
    package is the version that upsert processed: the [version] of the
    manifest just built in build mode, the version of the archive just
    read in repair mode.  No ordering of versions is consulted, so the
    last upsert of a run wins. *)
Theorem latest_version_last_write packages name p packages' version :
  (build_upsert packages name p = Ok packages'
   /\ py_getitem (manifest p) "version" = Ok version)
  \/ (exists v, repair_upsert packages name v p = Ok packages'
                /\ version = VStr v) ->
  exists entry,
    value_get packages' (KStr name) = Some entry
    /\ value_get entry (KStr "latest_version") = Some version.
Proof.
  intros [[H Hv] | (v & H & ->)].
  - apply build_upsert_steps in H
      as (p1 & p2 & p3 & ds & dp & v & _ & _ & _ & _ & _ & Hv' & H4).
    assert (v = version) by congruence. subst v.
    apply (set_latest_version _ _ _ _ H4).
  - apply repair_upsert_steps in H
      as (p1 & p2 & p3 & ds & dp & _ & _ & _ & _ & _ & H4).
    apply (set_latest_version _ _ _ _ H4).
Qed.

End Upsert.

Lemma latest_version_last_write_witness :
  exists entry,
    value_get index_foo (KStr "foo") = Some entry
    /\ value_get entry (KStr "latest_version") = Some (VStr "1.0").
Proof.
  apply (latest_version_last_write (VDict []) "foo"
           {| manifest := foo_record; digest := foo_archive_sha256 |}
           index_foo (VStr "1.0")).
  right. exists "1.0". split; vm_compute; reflexivity.
Defined.

(** ** Loops *)

Lemma for_each_app {X S} (xs ys : list X) (body : S -> X -> M S) s w :
  for_each (xs ++ ys)%list body s w
  = bind (for_each xs body s) (for_each ys body) w.
Proof.
  revert s w. induction xs as [|x xs IH]; intros s w; cbn [for_each app].
  - reflexivity.
  - unfold bind. destruct (body s x w) as [[s'|e] w1]; [|reflexivity].
    rewrite IH. reflexivity.
Qed.

(** An invariant of the loop variables and the world that every
    successful iteration keeps holds after a successful loop. *)
Lemma for_each_invariant {X S} (I : S -> world -> Prop) (xs : list X)
      (body : S -> X -> M S) :
  (forall s x w s' w',
      In x xs -> I s w -> body s x w = (Ok s', w') -> I s' w') ->
  forall s w s' w',
    I s w -> for_each xs body s w = (Ok s', w') -> I s' w'.
Proof.
  induction xs as [|x xs IH]; intros Hb s w s' w' Hi H; cbn [for_each] in H.
  - apply ret_inv in H as [E ->]. inversion E. subst. exact Hi.
  - apply bind_ok in H as (s1 & w1 & H1 & H2).
    eapply IH; [| |exact H2].
    + intros; eapply Hb; eauto. now right.
    + eapply Hb; eauto. now left.
Qed.

(** When every iteration succeeds from the invariant, so does the loop. *)
Lemma for_each_total {X S} (I : S -> world -> Prop) (xs : list X)
      (body : S -> X -> M S) :
  (forall s x w,
      In x xs -> I s w -> exists s' w', body s x w = (Ok s', w') /\ I s' w') ->
  forall s w,
    I s w -> exists s' w', for_each xs body s w = (Ok s', w') /\ I s' w'.
Proof.
  induction xs as [|x xs IH]; intros Hb s w Hi; cbn [for_each].
  - exists s, w. split; [reflexivity | exact Hi].
  - destruct (Hb s x w (or_introl eq_refl) Hi) as (s1 & w1 & H1 & Hi1).
    destruct (IH (fun s x w Hx => Hb s x w (or_intror Hx)) s1 w1 Hi1)
      as (s' & w' & H2 & Hi').
    exists s', w'. split; [|exact Hi'].
    rewrite (bind_eq_ok _ _ _ _ _ H1). exact H2.
Qed.

(** ** Loading a manifest *)

Section Manifest.

Variable lib : pylib.

Lemma check_fields_container m keys w :
  is_container m = true ->
  for_each keys (check_field m) tt w
  = (Ok tt, say_all (map field_warning (filter (absent m) keys)) w).
Proof.
  intros C. revert w. induction keys as [|k keys IH]; intros w.
  - reflexivity.
  - cbn [for_each filter]. unfold bind at 1. unfold check_field at 1.
    unfold bind at 1, lift at 1, absent at 1.
    destruct (py_contains m k) as [[|]|e] eqn:P.
    + cbn [negb ret]. destruct tt. apply IH.
    + cbn [negb map say_all print]. rewrite <- IH. reflexivity.
    + destruct m; cbn in C, P; discriminate.
Qed.

Lemma check_fields_scalar m k keys w :
  is_container m = false ->
  for_each (k :: keys) (check_field m) tt w = (Raise TypeError, w).
Proof.
  intros C. cbn [for_each]. unfold bind, check_field, bind, lift.
  destruct m; cbn in C; try discriminate; reflexivity.
Qed.

(** [get_manifest] case by case. *)
Lemma get_manifest_eq name w :
  get_manifest lib name w =
  let w1 := say "[i] Reading manifest" w in
  match manifest_source name w with
  | None =>
    if regular_file (packages_dir w) name then (Raise NotADirectoryError, w1)
    else (Ok None, say "[!] Package is invalid (no manifest)" w1)
  | Some content =>
    match read_text content with
    | Raise _ => (Raise UnicodeDecodeError, w1)
    | Ok text =>
      match json_loads lib text with
      | Ok m =>
        if is_container m
        then (Ok (Some m), say_all (map field_warning (missing_fields m)) w1)
        else (Raise TypeError, w1)
      | Raise e =>
        match manifest_handler e with
        | Some line => (Ok None, say line w1)
        | None => (Raise e, w1)
        end
      end
    end
  end.
Proof.
  unfold get_manifest. unfold bind at 1, print at 1. cbv zeta.
  set (w1 := say "[i] Reading manifest" w).
  unfold try_except. unfold bind at 1.
  assert (Hs : manifest_source name w1 = manifest_source name w) by reflexivity.
  unfold read_manifest_file at 1. unfold manifest_source, regular_file in *.
  fold (manifest_source name w1).
  change (packages_dir w1) with (packages_dir w).
  destruct (assoc name (packages_dir w)) as [[c|d]|];
    [reflexivity| |reflexivity].
  destruct (manifest_file d) as [content|]; [|reflexivity].
  unfold read_text.
  destruct (utf8_valid content); [|reflexivity].
  unfold bind at 1.
  destruct (json_loads lib (string_of_list_byte (universal_newlines content)))
    as [m|e]; [|destruct e; reflexivity].
  unfold lift at 1. unfold bind at 1.
  change (fun (_ : unit) (key : string) =>
            present <- lift (py_contains m key) ;;
            (if present then ret tt
             else print ("[!] Package manifest is incomplete (missing '"
                           ++ key ++ "')")))
    with (check_field m).
  destruct (is_container m) eqn:C.
  - rewrite (check_fields_container m MANIFEST_FIELDS w1 C). reflexivity.
  - unfold MANIFEST_FIELDS. rewrite (check_fields_scalar m _ _ w1 C).
    reflexivity.
Qed.

End Manifest.

(** ** Building a record *)

Section Record.

Variable lib : pylib.

Lemma record_of_start m :
  record_of m (dict_set (KStr "files") (VDict []) m).
Proof.
  split.
  - exists []. apply dict_get_set_str.
  - intros k N. apply dict_get_set_other, N.
Qed.

Lemma record_of_step m d path entry r :
  record_of m d ->
  py_update (VDict d) "files" (fun files => py_setitem files path entry) = Ok r ->
  exists d', r = VDict d' /\ record_of m d'.
Proof.
  intros [[files Hf] Hk] H.
  apply py_update_ok in H as (d0 & item & item' & E & G & F & ->).
  inversion E; subst d0; clear E.
  exists (dict_set (KStr "files") item' d). split; [reflexivity|]. split.
  - apply py_setitem_ok in F as (f' & -> & ->).
    eexists. apply dict_get_set_str.
  - intros k N. rewrite dict_get_set_other by exact N. apply Hk, N.
Qed.

Lemma record_of_step_ok m d path entry :
  record_of m d ->
  exists r,
    py_update (VDict d) "files" (fun files => py_setitem files path entry) = Ok r.
Proof.
  intros [[files Hf] Hk]. unfold py_update. cbn [py_getitem].
  rewrite Hf. cbn. eauto.
Qed.

(** A record that was built has every key of its manifest, [files] apart,
    with the value the manifest gives it. *)
Lemma build_package_inv name w r w' :
  build_package lib name w = (Ok (Some r), w') ->
  exists m w1 d,
    get_manifest lib name w = (Ok (Some (VDict m)), w1)
    /\ r = VDict d /\ record_of m d.
Proof.
  unfold build_package. intros H.
  apply bind_ok in H as ([mv|] & w1 & Hm & H);
    [|apply ret_inv in H as [H _]; discriminate].
  apply bind_ok in H as (m1 & w2 & H1 & H).
  apply lift_inv in H1 as [H1 ->]. symmetry in H1.
  apply py_setitem_ok in H1 as (m & -> & ->).
  apply bind_ok in H as (paths & w3 & _ & H).
  apply bind_ok in H as (r' & w4 & Hl & H).
  apply ret_inv in H as [H _]. inversion H; subst r'; clear H.
  exists m, w1.
  assert (G : (fun s (_ : world) => exists d, s = VDict d /\ record_of m d)
                r w4).
  { eapply (for_each_invariant
              (fun s _ => exists d, s = VDict d /\ record_of m d));
      [| |exact Hl].
    - intros s x w0 s' w0' _ (d & -> & Hd) Hb.
      unfold build_package_file in Hb.
      apply bind_ok in Hb as (? & ? & _ & Hb).
      apply bind_ok in Hb as (content & ? & _ & Hb).
      apply lift_inv in Hb as [Hb _]. symmetry in Hb.
      eapply record_of_step; eauto.
    - eexists. split; [reflexivity | apply record_of_start]. }
  destruct G as (d & -> & Hd). eauto.
Qed.

End Record.

(** ** Extra manifest keys *)

Lemma str_key_neq k s : k <> s -> key_eqb (KStr k) (KStr s) = false.
Proof. intros N. cbn. apply String.eqb_neq, N. Qed.

(** The statement of C8 as the specification has it: every key of the
    manifest outside the recognized set reaches the built record with its
    value.  It fails for the key [files], which [build_package] assigns:
    package [bar] declares [files] as the string [mine] and its record
    holds the empty dictionary of its (absent) source files. *)
Lemma extra_key_files_overwritten :
  ~ (forall lib name w m w1 d w' k,
        get_manifest lib name w = (Ok (Some (VDict m)), w1) ->
        build_package lib name w = (Ok (Some (VDict d)), w') ->
        ~ In k MANIFEST_FIELDS ->
        dict_get (KStr k) d = dict_get (KStr k) m).
Proof.
  intros H.
  assert (C : dict_get (KStr "files") bar_record_dict
              = dict_get (KStr "files") bar_manifest_dict).
  { apply (H sample_lib "bar" sample_world bar_manifest_dict
             (snd (get_manifest sample_lib "bar" sample_world))
             bar_record_dict
             (snd (build_package sample_lib "bar" sample_world))).
    - vm_compute. reflexivity.
    - vm_compute. reflexivity.
    - unfold MANIFEST_FIELDS. cbn [In]. intros F.
      repeat (destruct F as [F|F]; [discriminate|]). exact F. }
  vm_compute in C. discriminate.
Qed.

Section ExtraKeys.

Variable lib : pylib.

(** C8, amended.  Every key of the manifest other than [files] (the
    recognized ones and any extra one) is in the built record with the
    value the manifest gives it, and so it is in the record decoded from
    the archive written for it. *)
Theorem extra_keys_preserved name w r w' :
  build_package lib name w = (Ok (Some r), w') ->
  exists m w1 d,
    get_manifest lib name w = (Ok (Some (VDict m)), w1)
    /\ r = VDict d
    /\ (forall k, k <> "files" -> dict_get (KStr k) d = dict_get (KStr k) m)
    /\ (zlib_round_trips lib (str_encode (json_dumps lib r)) ->
        json_round_trips lib r ->
        (let? text := bytes_decode (compress lib r) in
         let? data := read_text (write_text text) in
         decode_archive lib data) = Ok (VDict d)).
Proof.
  intros H. apply build_package_inv in H as (m & w1 & d & Hm & -> & Hd).
  exists m, w1, d. repeat split; auto.
  - intros k N. apply Hd, str_key_neq, N.
  - intros Hz Hj.
    rewrite compress_decode. cbn [obind].
    rewrite archive_text_reread. cbn [obind].
    apply decode_archive_text; assumption.
Qed.

End ExtraKeys.

Lemma extra_keys_preserved_witness :
  exists m w1 d,
    get_manifest sample_lib "bar" sample_world = (Ok (Some (VDict m)), w1)
    /\ VDict bar_record_dict = VDict d
    /\ (forall k, k <> "files" -> dict_get (KStr k) d = dict_get (KStr k) m)
    /\ (zlib_round_trips sample_lib
          (str_encode (json_dumps sample_lib (VDict bar_record_dict))) ->
        json_round_trips sample_lib (VDict bar_record_dict) ->
        (let? text := bytes_decode (compress sample_lib (VDict bar_record_dict)) in
         let? data := read_text (write_text text) in
         decode_archive sample_lib data) = Ok (VDict d)).
Proof.
  apply (extra_keys_preserved sample_lib "bar" sample_world
           (VDict bar_record_dict)
           (snd (build_package sample_lib "bar" sample_world))).
  vm_compute. reflexivity.
Defined.

(** ** Archive names *)

Lemma last_char_app a b :
  b <> EmptyString -> last_char (a ++ b) = last_char b.
Proof.
  intros N. induction a as [|c a IH]; cbn [append last_char].
  - reflexivity.
  - rewrite IH. destruct b as [|d b]; [contradiction|].
    cbn [last_char]. destruct (last_char b); reflexivity.
Qed.

Lemma archive_name_last name version :
  last_char (archive_name name version) = Some "p"%char.
Proof.
  unfold archive_name.
  rewrite last_char_app.
  - change ("." ++ version ++ ".ccp") with (String "." (version ++ ".ccp")).
    cbn [last_char]. rewrite last_char_app by discriminate. reflexivity.
  - discriminate.
Qed.

(** No archive is written over the index file. *)
Lemma archive_name_not_index name version :
  archive_name name version <> INDEX_FILE.
Proof.
  intros E. pose proof (archive_name_last name version) as L.
  rewrite E in L. discriminate.
Qed.

(** ** What a run leaves unchanged *)

Lemma index_kept_refl w : index_kept w w.
Proof. repeat split; auto using extends_refl. Qed.

Lemma index_kept_trans a b c : index_kept a b -> index_kept b c -> index_kept a c.
Proof.
  intros (H1 & H2 & H3) (H4 & H5 & H6).
  repeat split; try congruence. eapply extends_trans; eauto.
Qed.

Lemma prints_only_index_kept w w' : prints_only w w' -> index_kept w w'.
Proof.
  intros [[H1 H2] H3]. repeat split; auto. now rewrite H2.
Qed.

Lemma index_kept_store name version content w :
  index_kept w (pool_store (archive_name name version) content w).
Proof.
  repeat split.
  - cbn. apply assoc_set_other, archive_name_not_index.
  - apply same_files_extends_store.
Qed.

Section RunFrames.

Variable lib : pylib.

Lemma index_kept_build_and_write name :
  preserves index_kept (build_and_write_package lib name).
Proof.
  intros w r w' H. rewrite build_and_write_eq in H.
  destruct (build_package lib name (say ("Packaging " ++ name) w))
    as [r1 w1] eqn:B.
  assert (K : index_kept w w1).
  { eapply index_kept_trans.
    - apply prints_only_index_kept. eapply quiet_print. reflexivity.
    - apply prints_only_index_kept. eapply quiet_build_package, B. }
  destruct r1 as [[pkg|]|e]; try (inversion H; subst; exact K).
  destruct (py_getitem pkg "version") as [v|e];
    [|inversion H; subst; exact K].
  cbv zeta in H.
  destruct (has_char NUL (archive_name name (fmt lib v)));
    [inversion H; subst; exact K|].
  destruct (has_char "/" (archive_name name (fmt lib v)));
    [inversion H; subst; exact K|].
  inversion H; subst.
  eapply index_kept_trans; [exact K|].
  eapply index_kept_trans; apply index_kept_store.
Qed.

Lemma index_kept_build_step packages name :
  preserves index_kept (build_step lib packages name).
Proof.
  unfold build_step.
  apply (preserves_bind index_kept index_kept_trans).
  - apply index_kept_build_and_write.
  - intros [p|].
    + apply preserves_lift, index_kept_refl.
    + apply preserves_ret, index_kept_refl.
Qed.

Lemma index_kept_main_try : preserves index_kept (main_try lib false).
Proof.
  unfold main_try.
  apply (preserves_bind index_kept index_kept_trans).
  - intros w r w' H.
    destruct (assoc INDEX_FILE (pool_dir w)) as [content|];
      [destruct (read_text content) as [text|];
       [destruct (json_loads lib text)|]|];
      inversion H; subst; apply index_kept_refl.
  - intros packages.
    apply (preserves_bind index_kept index_kept_trans).
    + intros w r w' H. inversion H; subst. apply index_kept_refl.
    + intros names.
      apply (preserves_for_each index_kept index_kept_refl index_kept_trans).
      intros s x. apply index_kept_build_step.
Qed.

End RunFrames.

(** ** Build mode aborts *)

Section Abort.

Variable lib : pylib.

Lemma unparseable_raises w :
  prior_index_unparseable lib w ->
  exists e, main_try lib false w = (Raise e, w).
Proof.
  intros (content & text & e & H1 & H2 & H3). exists e.
  unfold main_try, bind. rewrite H1, H2, H3. reflexivity.
Qed.

(** C7.  When an exception leaves the [try] block of build mode (raised
    while a package is processed or while the prior index is loaded, as
    when that file does not parse), the run exits with status 1, its last
    two lines of output are the error and the hint at [--repair], and the
    index file is what it was before the run: still absent, or with the
    same content. *)
Theorem build_abort_keeps_index w :
  (exists e w1, main_try lib false w = (Raise e, w1))
  \/ prior_index_unparseable lib w ->
  exists e out w',
    main lib false w = (1, w')
    /\ stdout w' = app (stdout w)
                     (app out [("Error: " ++ exn_str lib e)%string; REPAIR_HINT])
    /\ assoc INDEX_FILE (pool_dir w') = assoc INDEX_FILE (pool_dir w).
Proof.
  intros H.
  assert (R : exists e w1, main_try lib false w = (Raise e, w1)).
  { destruct H as [H|H]; [exact H|].
    destruct (unparseable_raises w H) as [e E]. exists e, w. exact E. }
  destruct R as (e & w1 & R).
  destruct (index_kept_main_try lib w _ _ R) as (_ & K & [out E]).
  exists e, out. eexists. split; [|split].
  - unfold main. rewrite R. reflexivity.
  - cbn. rewrite E. rewrite <- !app_assoc. reflexivity.
  - cbn. exact K.
Qed.

End Abort.

Lemma build_abort_keeps_index_witness :
  exists e out w',
    main sample_lib false broken_index_world = (1, w')
    /\ stdout w'
       = app (stdout broken_index_world)
           (app out [("Error: " ++ exn_str sample_lib e)%string; REPAIR_HINT])
    /\ assoc INDEX_FILE (pool_dir w')
       = assoc INDEX_FILE (pool_dir broken_index_world).
Proof.
  apply (build_abort_keeps_index sample_lib broken_index_world).
  right. exists (str_encode "oops"), "oops", JSONDecodeError.
  repeat split; vm_compute; reflexivity.
Defined.

(** ** Reading an archive *)

Section Reading.

Variable lib : pylib.

Lemma read_package_eq name version w :
  read_package lib name version w =
  match read_archive lib (pool_dir w) name version with
  | Ok p => (Ok (Some p), w)
  | Raise e =>
    match skip_line version e with
    | Some line => (Ok None, say line w)
    | None => (Raise e, w)
    end
  end.
Proof.
  unfold read_package, try_except, read_archive.
  unfold bind at 1. unfold pool_read.
  destruct (assoc (archive_name name version) (pool_dir w)) as [content|];
    [|reflexivity].
  destruct (read_text content) as [data|e] eqn:R.
  - cbn [obind]. unfold bind at 1, lift at 1.
    destruct (decode_archive lib data) as [m|e]; cbn [obind].
    + reflexivity.
    + destruct e; reflexivity.
  - unfold read_text in R. destruct (utf8_valid content); inversion R.
    reflexivity.
Qed.

Lemma repair_version_eq name packages version w :
  repair_version lib name packages version w =
  match read_archive lib (pool_dir w) name version with
  | Ok p =>
    (repair_upsert packages name version p, say ("[+] Version " ++ version) w)
  | Raise e =>
    match skip_line version e with
    | Some line => (Ok packages, say line w)
    | None => (Raise e, w)
    end
  end.
Proof.
  unfold repair_version, bind. rewrite read_package_eq.
  destruct (read_archive lib (pool_dir w) name version) as [p|e].
  - reflexivity.
  - destruct (skip_line version e); reflexivity.
Qed.

End Reading.

(** ** Well-formed indexes *)

Lemma index_ok_empty : index_ok (VDict []).
Proof. exists []. split; [reflexivity|]. intros k e H. discriminate. Qed.

Lemma dict_set_set s a b d :
  dict_set (KStr s) a (dict_set (KStr s) b d) = dict_set (KStr s) a d.
Proof.
  induction d as [|[k v] d IH]; cbn [dict_set].
  - rewrite key_eqb_refl. reflexivity.
  - destruct (key_eqb (KStr s) k) eqn:E; cbn [dict_set]; rewrite E.
    + reflexivity.
    + rewrite IH. reflexivity.
Qed.

Lemma dict_get_set_cases s v d k :
  dict_get k (dict_set (KStr s) v d)
  = if key_eqb k (KStr s) then Some v else dict_get k d.
Proof.
  destruct (key_eqb k (KStr s)) eqn:E.
  - apply key_eqb_str_r in E. subst k. apply dict_get_set_str.
  - apply dict_get_set_other, E.
Qed.

Lemma index_ok_set d name e :
  index_ok (VDict d) -> entry_ok e = true ->
  index_ok (VDict (dict_set (KStr name) e d)).
Proof.
  intros (d0 & E & H) He. inversion E; subst d0; clear E.
  eexists. split; [reflexivity|]. intros k e' G.
  rewrite dict_get_set_cases in G.
  destruct (key_eqb k (KStr name)); [inversion G; subst; exact He|].
  eapply H, G.
Qed.

Lemma entry_or_empty_ok d name :
  index_ok (VDict d) -> entry_ok (entry_or_empty d name) = true.
Proof.
  intros (d0 & E & H). inversion E; subst d0; clear E.
  unfold entry_or_empty. destruct (dict_get (KStr name) d) eqn:G.
  - eapply H, G.
  - reflexivity.
Qed.

Lemma upserted_ok e description version ventry :
  entry_ok e = true -> entry_ok (upserted e description version ventry) = true.
Proof.
  unfold entry_ok, entry_versions, upserted.
  destruct e as [| | | | |ed]; try discriminate.
  destruct (dict_get (KStr "versions") ed) as [[| | | | |vs]|]; try discriminate.
  intros _.
  rewrite dict_get_set_other by reflexivity.
  rewrite dict_get_set_str. reflexivity.
Qed.

Lemma ensure_entry_eq d name :
  exists d1,
    ensure_entry (VDict d) name = Ok (VDict d1)
    /\ dict_get (KStr name) d1 = Some (entry_or_empty d name)
    /\ forall a, dict_set (KStr name) a d1 = dict_set (KStr name) a d.
Proof.
  unfold ensure_entry, entry_or_empty. cbn [py_contains obind]. unfold dict_mem.
  destruct (dict_get (KStr name) d) as [e|] eqn:G.
  - exists d. auto.
  - exists (dict_set (KStr name) empty_entry d). cbn [py_setitem].
    split; [reflexivity|]. split.
    + apply dict_get_set_str.
    + intros a. apply dict_set_set.
Qed.

(** An upsert into a well-formed index, step by step. *)
Lemma repair_upsert_eq d name version p description dependencies :
  index_ok (VDict d) ->
  py_getitem (manifest p) "description" = Ok description ->
  py_getitem (manifest p) "dependencies" = Ok dependencies ->
  repair_upsert (VDict d) name version p
  = Ok (VDict (dict_set (KStr name)
                 (upserted (entry_or_empty d name) description version
                    (version_entry (digest p) dependencies))
                 d)).
Proof.
  intros Hi Hd Hp.
  pose proof (entry_or_empty_ok d name Hi) as He.
  destruct (ensure_entry_eq d name) as (d1 & E1 & G1 & S1).
  unfold repair_upsert. rewrite E1. cbn [obind]. rewrite Hd. cbn [obind].
  unfold entry_ok, entry_versions in He. unfold upserted.
  destruct (entry_or_empty d name) as [| | | | |ed]; try discriminate.
  destruct (dict_get (KStr "versions") ed) as [[| | | | |vs]|] eqn:V;
    try discriminate.
  unfold py_update at 1. cbn [py_getitem]. rewrite G1. cbn [obind py_setitem].
  rewrite Hp. cbn [obind].
  unfold py_update at 1. cbn [py_getitem]. rewrite dict_get_set_str.
  cbn [obind]. unfold py_update at 1. cbn [py_getitem].
  rewrite dict_get_set_other by reflexivity. rewrite V.
  cbn [obind py_setitem].
  unfold py_update at 1. cbn [py_getitem]. rewrite dict_get_set_str.
  cbn [obind py_setitem].
  rewrite !dict_set_set. rewrite S1. reflexivity.
Qed.

Lemma repair_upsert_index_ok packages name version p packages' :
  index_ok packages ->
  repair_upsert packages name version p = Ok packages' ->
  index_ok packages'.
Proof.
  intros Hi H. destruct Hi as (d & -> & Hd).
  assert (Hi : index_ok (VDict d)) by (exists d; auto).
  pose proof H as H0.
  apply repair_upsert_steps in H0
    as (p1 & p2 & p3 & ds & dp & _ & Hds & _ & Hdp & _).
  rewrite (repair_upsert_eq d name version p ds dp Hi Hds Hdp) in H.
  inversion H; subst; clear H.
  apply index_ok_set; [exact Hi|].
  apply upserted_ok, entry_or_empty_ok, Hi.
Qed.

(** With a [version] that is a string, the upsert of build mode is the
    upsert of repair mode. *)
Lemma py_update_ext c k f g :
  (forall x, f x = g x) -> py_update c k f = py_update c k g.
Proof.
  intros H. unfold py_update. destruct (py_getitem c k); cbn [obind]; auto.
  rewrite H. reflexivity.
Qed.

Lemma py_setitem_obj_str c v x : py_setitem_obj c (VStr v) x = py_setitem c v x.
Proof. destruct c; reflexivity. Qed.

Lemma build_upsert_str packages name p v :
  py_getitem (manifest p) "version" = Ok (VStr v) ->
  build_upsert packages name p = repair_upsert packages name v p.
Proof.
  intros Hv. unfold build_upsert, repair_upsert. rewrite Hv.
  destruct (ensure_entry packages name) as [p1|]; cbn [obind]; [|reflexivity].
  destruct (py_getitem (manifest p) "description") as [ds|]; cbn [obind];
    [|reflexivity].
  destruct (py_update p1 name _) as [p2|]; cbn [obind]; [|reflexivity].
  destruct (py_getitem (manifest p) "dependencies") as [dp|]; cbn [obind];
    [|reflexivity].
  rewrite (py_update_ext p2 name _
             (fun entry =>
                py_update entry "versions"
                  (fun versions =>
                     py_setitem versions v (version_entry (digest p) dp)))).
  - reflexivity.
  - intros e. apply py_update_ext. intros vs. apply py_setitem_obj_str.
Qed.

(** ** Enumerating the pool *)

Lemma get_built_packages_eq w :
  get_built_packages w =
  match group_all (pool_entries w) [] with
  | Some g => (Ok g, w)
  | None => (Raise ValueError, w)
  end.
Proof.
  unfold get_built_packages. fold (pool_entries w).
  generalize (@nil (string * list string)) as rtn.
  induction (pool_entries w) as [|e r IH]; intros rtn; cbn [for_each group_all].
  - reflexivity.
  - unfold bind at 1. fold (parse_entry e).
    destruct (parse_entry e) as [[name version]|]; [|reflexivity].
    unfold ret at 1. apply IH.
Qed.

Lemma list_byte_of_string_app a b :
  list_byte_of_string (a ++ b)
  = (list_byte_of_string a ++ list_byte_of_string b)%list.
Proof.
  induction a as [|c a IH]; [reflexivity|].
  change (list_byte_of_string (String c a ++ b))
    with (byte_of_ascii c :: list_byte_of_string (a ++ b)).
  rewrite IH. reflexivity.
Qed.

Lemma str_drop_last_ccp stem : str_drop_last 4 (stem ++ ".ccp") = stem.
Proof.
  unfold str_drop_last. rewrite list_byte_of_string_app, rev_app_distr.
  change (rev (list_byte_of_string ".ccp")) with ["p"; "c"; "c"; "."]%byte.
  cbn [app Nat.iter nat_rect]. 
  change (drop_char_rev ("."%byte :: rev (list_byte_of_string stem)))
    with (rev (list_byte_of_string stem)).
  cbn. rewrite rev_involutive. apply string_of_list_byte_of_string.
Qed.

Lemma split_dot_join stem n v :
  split_dot stem = Some (n, v) -> stem = n ++ "." ++ v.
Proof.
  revert n v. induction stem as [|c stem IH]; intros n v H; cbn [split_dot] in H.
  - discriminate.
  - destruct (Ascii.eqb c ".") eqn:E.
    + apply Ascii.eqb_eq in E. subst c. inversion H. reflexivity.
    + destruct (split_dot stem) as [[a b]|]; [|discriminate].
      inversion H; subst. cbn [append]. f_equal. apply IH. reflexivity.
Qed.

Lemma split_dot_name n v :
  has_char "." n = false -> split_dot (n ++ "." ++ v) = Some (n, v).
Proof.
  induction n as [|c n IH]; intros H.
  - reflexivity.
  - cbn [has_char] in H. apply orb_false_iff in H as [H1 H2].
    specialize (IH H2). cbn [append split_dot] in *.
    rewrite Ascii.eqb_sym, H1, IH. reflexivity.
Qed.

Lemma archive_name_stem n v : archive_name n v = (n ++ "." ++ v) ++ ".ccp".
Proof.
  unfold archive_name.
  induction n as [|c n IH]; [reflexivity|].
  cbn [append]. f_equal. exact IH.
Qed.

(** An entry with the extension [.ccp] names the archive it is read as. *)
Lemma parse_entry_ccp stem n v :
  parse_entry (stem ++ ".ccp") = Some (n, v) ->
  archive_name n v = stem ++ ".ccp".
Proof.
  unfold parse_entry. rewrite str_drop_last_ccp. intros H.
  apply split_dot_join in H. rewrite archive_name_stem, H. reflexivity.
Qed.

Lemma parse_entry_archive n v :
  has_char "." n = false -> parse_entry (archive_name n v) = Some (n, v).
Proof.
  intros H. unfold parse_entry.
  rewrite archive_name_stem, str_drop_last_ccp. apply split_dot_name, H.
Qed.

(** ** Repair mode as a function of the pool *)

Section RepairRun.

Variable lib : pylib.
Variable pool : list (string * bytes).

Lemma say_all_app l1 l2 w : say_all (l1 ++ l2)%list w = say_all l2 (say_all l1 w).
Proof.
  revert w. induction l1 as [|a l1 IH]; intros w; cbn [say_all app]; auto.
Qed.

Lemma say_all_pool lines w : pool_dir (say_all lines w) = pool_dir w.
Proof. apply (say_all_files lines w). Qed.

Lemma run_versions_eq name versions packages w :
  pool_dir w = pool ->
  for_each versions (repair_version lib name) packages w
  = (fst (run_versions lib pool name versions packages),
     say_all (snd (run_versions lib pool name versions packages)) w).
Proof.
  revert packages w.
  induction versions as [|v r IH]; intros packages w Hw;
    cbn [for_each run_versions].
  - reflexivity.
  - unfold bind. rewrite repair_version_eq, Hw.
    destruct (read_archive lib pool name v) as [p|e].
    + destruct (repair_upsert packages name v p) as [packages'|e'].
      * rewrite IH by exact Hw.
        destruct (run_versions lib pool name r packages'). reflexivity.
      * reflexivity.
    + destruct (skip_line v e) as [line|].
      * rewrite IH by exact Hw.
        destruct (run_versions lib pool name r packages). reflexivity.
      * reflexivity.
Qed.

Lemma run_groups_eq groups packages w :
  pool_dir w = pool ->
  for_each groups
    (fun packages '(name, versions) =>
       print ("Indexing " ++ name) ;;
       for_each versions (repair_version lib name) packages)
    packages w
  = (fst (run_groups lib pool groups packages),
     say_all (snd (run_groups lib pool groups packages)) w).
Proof.
  revert packages w.
  induction groups as [|[name versions] r IH]; intros packages w Hw;
    cbn [for_each run_groups].
  - reflexivity.
  - unfold bind at 1. unfold bind at 1, print at 1.
    rewrite run_versions_eq by exact Hw.
    destruct (run_versions lib pool name versions packages) as [[packages'|e] lines];
      cbn [fst snd].
    + rewrite IH by (rewrite say_all_pool; exact Hw).
      destruct (run_groups lib pool r packages') as [res lines']. cbn [fst snd say_all].
      rewrite say_all_app. reflexivity.
    + reflexivity.
Qed.

End RepairRun.

Section RepairMain.

Variable lib : pylib.

Lemma repair_package_index_eq w :
  repair_package_index lib w
  = (fst (repair_run lib w), say_all (snd (repair_run lib w)) w).
Proof.
  unfold repair_package_index, repair_run, bind.
  rewrite get_built_packages_eq.
  destruct (group_all (pool_entries w) []) as [g|]; [|reflexivity].
  apply run_groups_eq. reflexivity.
Qed.

(** The whole run in repair mode. *)
Lemma main_repair_eq w :
  main lib true w =
  let w1 := say_all (snd (repair_run lib w)) w in
  match fst (repair_run lib w) with
  | Ok packages =>
    (0, pool_store INDEX_FILE (write_text (json_dumps lib packages))
          (pool_store INDEX_FILE [] (say "Writing index" w1)))
  | Raise e =>
    (1, say REPAIR_HINT (say ("Error: " ++ exn_str lib e) w1))
  end.
Proof.
  unfold main, main_try. rewrite repair_package_index_eq.
  destruct (fst (repair_run lib w)); reflexivity.
Qed.

End RepairMain.

(** ** The archives a repair run visits *)

Lemma group_add_perm name version groups :
  Permutation (pairs_of (group_add name version groups))
              (pairs_of groups ++ [(name, version)]).
Proof.
  induction groups as [|[n vs] r IH]; cbn [group_add].
  - reflexivity.
  - destruct (String.eqb name n) eqn:E.
    + apply String.eqb_eq in E. subst n.
      unfold pairs_of. cbn [flat_map fst snd].
      rewrite map_app. cbn [map]. rewrite <- !app_assoc.
      apply Permutation_app_head. apply Permutation_app_comm.
    + unfold pairs_of in *. cbn [flat_map fst snd].
      rewrite <- app_assoc. apply Permutation_app_head. exact IH.
Qed.

Lemma group_all_perm entries rtn groups :
  group_all entries rtn = Some groups ->
  exists pairs,
    parse_all entries = Some pairs
    /\ Permutation (pairs_of groups) (pairs_of rtn ++ pairs).
Proof.
  revert rtn. induction entries as [|e r IH]; intros rtn H;
    cbn [group_all parse_all] in *.
  - inversion H; subst. exists []. split; [reflexivity|].
    rewrite app_nil_r. reflexivity.
  - destruct (parse_entry e) as [[n v]|]; [|discriminate].
    destruct (IH _ H) as (pairs & P & Q). rewrite P.
    exists ((n, v) :: pairs). split; [reflexivity|].
    rewrite Q. rewrite group_add_perm. rewrite <- app_assoc. reflexivity.
Qed.

Lemma group_all_none entries rtn :
  group_all entries rtn = None -> parse_all entries = None.
Proof.
  revert rtn. induction entries as [|e r IH]; intros rtn H;
    cbn [group_all parse_all] in *.
  - discriminate.
  - destruct (parse_entry e) as [[n v]|]; [|reflexivity].
    rewrite (IH _ H). reflexivity.
Qed.

Lemma parse_all_in entries pairs e :
  parse_all entries = Some pairs -> In e entries ->
  exists nv, parse_entry e = Some nv /\ In nv pairs.
Proof.
  revert pairs. induction entries as [|x r IH]; intros pairs H I;
    cbn [parse_all] in H; [contradiction|].
  destruct (parse_entry x) as [nv|] eqn:P; [|discriminate].
  destruct (parse_all r) as [l|]; [|discriminate].
  inversion H; subst; clear H.
  destruct I as [<-|I].
  - exists nv. split; [exact P | now left].
  - destruct (IH _ eq_refl I) as (nv' & P' & I').
    exists nv'. split; [exact P' | now right].
Qed.

Section Visits.

Variable lib : pylib.
Variable pool : list (string * bytes).

Lemma index_pairs_app l1 l2 packages :
  index_pairs lib pool (l1 ++ l2) packages
  = let? packages' := index_pairs lib pool l1 packages in
    index_pairs lib pool l2 packages'.
Proof.
  revert packages. induction l1 as [|[n v] l1 IH]; intros packages;
    cbn [index_pairs app].
  - reflexivity.
  - destruct (read_archive lib pool n v) as [p|e].
    + destruct (repair_upsert packages n v p); cbn [obind]; auto.
    + destruct (skip_line v e); auto.
Qed.

Lemma run_versions_pairs name versions packages :
  fst (run_versions lib pool name versions packages)
  = index_pairs lib pool (map (pair name) versions) packages.
Proof.
  revert packages. induction versions as [|v r IH]; intros packages;
    cbn [run_versions index_pairs map].
  - reflexivity.
  - destruct (read_archive lib pool name v) as [p|e].
    + destruct (repair_upsert packages name v p) as [packages'|]; cbn [obind].
      * rewrite <- IH. destruct (run_versions lib pool name r packages').
        reflexivity.
      * reflexivity.
    + destruct (skip_line v e).
      * rewrite <- IH. destruct (run_versions lib pool name r packages).
        reflexivity.
      * reflexivity.
Qed.

Lemma run_groups_pairs groups packages :
  fst (run_groups lib pool groups packages)
  = index_pairs lib pool (pairs_of groups) packages.
Proof.
  revert packages. induction groups as [|[name versions] r IH];
    intros packages; cbn [run_groups].
  - reflexivity.
  - unfold pairs_of. cbn [flat_map fst snd]. fold (pairs_of r).
    rewrite index_pairs_app, <- run_versions_pairs.
    destruct (run_versions lib pool name versions packages)
      as [[packages'|e] lines]; cbn [fst obind].
    + rewrite <- IH. destruct (run_groups lib pool r packages'). reflexivity.
    + reflexivity.
Qed.

Lemma repair_upsert_key_error packages name version p :
  index_ok packages -> lacks_key p ->
  repair_upsert packages name version p = Raise (KeyError (KStr "description"))
  \/ repair_upsert packages name version p
     = Raise (KeyError (KStr "dependencies")).
Proof.
  intros (d & -> & Hd) (m & Hm & Hk).
  assert (Hi : index_ok (VDict d)) by (exists d; auto).
  pose proof (entry_or_empty_ok d name Hi) as He.
  destruct (ensure_entry_eq d name) as (d1 & E1 & G1 & _).
  unfold repair_upsert. rewrite E1, Hm. cbn [obind py_getitem].
  destruct (dict_get (KStr "description") m) as [ds|] eqn:Ds.
  - destruct Hk as [Hk|Hk]; [discriminate|]. right.
    cbn [obind]. unfold py_update at 1. cbn [py_getitem]. rewrite G1.
    cbn [obind].
    unfold entry_ok, entry_versions in He.
    destruct (entry_or_empty d name) as [| | | | |ed]; try discriminate.
    cbn [py_setitem obind]. rewrite Hk. reflexivity.
  - left. reflexivity.
Qed.

(** Visiting such an archive from a well-formed index raises, whatever
    comes before it. *)
Lemma index_pairs_raises pairs packages name version p :
  index_ok packages ->
  In (name, version) pairs ->
  read_archive lib pool name version = Ok p ->
  lacks_key p ->
  exists e, index_pairs lib pool pairs packages = Raise e.
Proof.
  revert packages. induction pairs as [|[n v] r IH]; intros packages Hi I R L.
  - contradiction.
  - cbn [index_pairs].
    destruct (read_archive lib pool n v) as [q|e] eqn:Rq.
    + destruct (repair_upsert packages n v q) as [packages'|e'] eqn:U;
        cbn [obind]; [|eauto].
      destruct I as [I|I].
      * inversion I; subst n v. rewrite R in Rq. inversion Rq; subst q.
        destruct (repair_upsert_key_error packages name version p Hi L) as [X|X];
          rewrite X in U; discriminate.
      * apply IH; auto. eapply repair_upsert_index_ok; eauto.
    + destruct I as [I|I].
      * inversion I; subst n v. rewrite R in Rq. discriminate.
      * destruct (skip_line v e); [|eauto]. apply IH; auto.
Qed.

End Visits.

(** ** Repair mode and records without [description] or [dependencies] *)

Lemma assoc_in {A} k (a : A) l : assoc k l = Some a -> In k (map fst l).
Proof.
  induction l as [|[k' a'] l IH]; cbn [assoc map fst]; [discriminate|].
  destruct (String.eqb k k') eqn:E.
  - apply String.eqb_eq in E. subst. now left.
  - intros H. right. apply IH, H.
Qed.

Lemma ccp_not_index stem : stem ++ ".ccp" <> INDEX_FILE.
Proof.
  intros E. assert (L : last_char (stem ++ ".ccp") = Some "p"%char).
  { rewrite last_char_app by discriminate. reflexivity. }
  rewrite E in L. discriminate.
Qed.

Section RepairAbort.

Variable lib : pylib.

Lemma read_archive_file pool n v content data m :
  assoc (archive_name n v) pool = Some content ->
  read_text content = Ok data ->
  decode_archive lib data = Ok m ->
  read_archive lib pool n v
  = Ok {| manifest := m; digest := sha256_hexdigest lib (str_encode data) |}.
Proof.
  intros H1 H2 H3. unfold read_archive. rewrite H1, H2. cbn [obind].
  rewrite H3. reflexivity.
Qed.

(** C10.  In repair mode, an archive file of the pool that reads,
    base64-decodes, decompresses and parses to an object without the key
    [description] or without the key [dependencies] is not skipped: the
    step that indexes it (from the well-formed index a repair run carries)
    prints its version and raises [KeyError] for the absent key; and the
    run as a whole exits with status 1 after the error and hint lines,
    with the pool as it was, so that no index is written. *)
Theorem repair_missing_key_aborts w stem content data m :
  assoc (stem ++ ".ccp") (pool_dir w) = Some content ->
  read_text content = Ok data ->
  decode_archive lib data = Ok (VDict m) ->
  dict_get (KStr "description") m = None
  \/ dict_get (KStr "dependencies") m = None ->
  (forall packages n v,
      index_ok packages ->
      archive_name n v = stem ++ ".ccp" ->
      exists k,
        (k = "description" \/ k = "dependencies")
        /\ repair_version lib n packages v w
           = (Raise (KeyError (KStr k)), say ("[+] Version " ++ v) w))
  /\ exists e out w',
      main lib true w = (1, w')
      /\ pool_dir w' = pool_dir w
      /\ stdout w' = app (stdout w)
                       (app out [("Error: " ++ exn_str lib e)%string;
                                 REPAIR_HINT]).
Proof.
  intros H1 H2 H3 H4.
  set (p := {| manifest := VDict m;
               digest := sha256_hexdigest lib (str_encode data) |}).
  assert (L : lacks_key p) by (exists m; split; [reflexivity | exact H4]).
  split.
  - intros packages n v Hi Hn.
    rewrite repair_version_eq.
    rewrite (read_archive_file (pool_dir w) n v content data (VDict m));
      [|rewrite Hn; exact H1|exact H2|exact H3].
    fold p.
    destruct (repair_upsert_key_error packages n v p Hi L) as [X|X];
      rewrite X; eauto.
  - assert (R : exists e, fst (repair_run lib w) = Raise e).
    { unfold repair_run.
      destruct (group_all (pool_entries w) []) as [g|] eqn:G;
        [|exists ValueError; reflexivity].
      rewrite run_groups_pairs.
      destruct (group_all_perm _ _ _ G) as (pairs & P & Q).
      cbn [pairs_of flat_map app] in Q.
      assert (I : In (stem ++ ".ccp") (pool_entries w)).
      { unfold pool_entries. apply filter_In. split.
        - eapply assoc_in, H1.
        - apply negb_true_iff, String.eqb_neq, ccp_not_index. }
      destruct (parse_all_in _ _ _ P I) as ([n v] & Pe & Ip).
      apply parse_entry_ccp in Pe.
      eapply (index_pairs_raises lib (pool_dir w) (pairs_of g) (VDict [])
                n v p).
      - apply index_ok_empty.
      - eapply Permutation_in; [symmetry; exact Q | exact Ip].
      - apply (read_archive_file (pool_dir w) n v content data (VDict m));
          [rewrite Pe; exact H1 | exact H2 | exact H3].
      - exact L. }
    destruct R as [e R].
    exists e, (snd (repair_run lib w)). eexists.
    rewrite main_repair_eq. cbv zeta. rewrite R.
    split; [reflexivity|]. split.
    + cbn [say pool_dir]. apply say_all_pool.
    + cbn [say stdout]. rewrite say_all_stdout. rewrite <- !app_assoc.
      reflexivity.
Qed.

End RepairAbort.

Lemma repair_missing_key_aborts_witness :
  (forall packages n v,
      index_ok packages ->
      archive_name n v = "foo.1.0" ++ ".ccp" ->
      exists k,
        (k = "description" \/ k = "dependencies")
        /\ repair_version sample_lib n packages v empty_record_world
           = (Raise (KeyError (KStr k)),
              say ("[+] Version " ++ v) empty_record_world))
  /\ exists e out w',
      main sample_lib true empty_record_world = (1, w')
      /\ pool_dir w' = pool_dir empty_record_world
      /\ stdout w' = app (stdout empty_record_world)
                       (app out [("Error: " ++ exn_str sample_lib e)%string;
                                 REPAIR_HINT]).
Proof.
  apply (repair_missing_key_aborts sample_lib empty_record_world "foo.1.0"
           (str_encode empty_archive_text) empty_archive_text []).
  - vm_compute. reflexivity.
  - vm_compute. reflexivity.
  - vm_compute. reflexivity.
  - left. reflexivity.
Defined.

(** ** Build mode keeps the entries of the packages it does not rebuild *)

Section Incremental.

Variable lib : pylib.

Lemma get_manifest_some name w m w1 :
  get_manifest lib name w = (Ok (Some m), w1) ->
  exists content text,
    manifest_source name w = Some content
    /\ read_text content = Ok text
    /\ json_loads lib text = Ok m.
Proof.
  rewrite get_manifest_eq. cbv zeta.
  destruct (manifest_source name w) as [content|];
    [|destruct (regular_file _ _); discriminate].
  destruct (read_text content) as [text|] eqn:R; [|discriminate].
  destruct (json_loads lib text) as [m'|e] eqn:J;
    [|destruct (manifest_handler e); discriminate].
  destruct (is_container m'); [|discriminate].
  intros H. inversion H; subst. eauto.
Qed.

Lemma build_and_write_some name w p w' :
  build_and_write_package lib name w = (Ok (Some p), w') ->
  exists content text m,
    manifest_source name w = Some content
    /\ read_text content = Ok text
    /\ json_loads lib text = Ok m.
Proof.
  rewrite build_and_write_eq.
  destruct (build_package lib name (say ("Packaging " ++ name) w))
    as [[[pkg|]|e] w1] eqn:B; try discriminate.
  intros _.
  apply build_package_inv in B as (m & w2 & d & G & _).
  apply get_manifest_some in G as (content & text & G1 & G2 & G3).
  exists content, text, (VDict m). auto.
Qed.

Lemma main_try_build_ok w packages w1 :
  main_try lib false w = (Ok packages, w1) ->
  exists prior,
    prior_index lib w = Ok prior
    /\ for_each (map fst (packages_dir w)) (build_step lib) prior w
       = (Ok packages, w1).
Proof.
  unfold main_try, prior_index. intros H.
  apply bind_ok in H as (prior & w0 & H0 & H).
  apply bind_ok in H as (names & w0' & Hn & H).
  unfold get_source_packages in Hn. inversion Hn; subst names w0'; clear Hn.
  destruct (assoc INDEX_FILE (pool_dir w)) as [content|].
  - destruct (read_text content) as [text|]; [|discriminate].
    cbn [obind].
    destruct (json_loads lib text) as [v|]; [|discriminate].
    inversion H0; subst. eauto.
  - inversion H0; subst. eauto.
Qed.

Lemma main_build_ok w w' :
  main lib false w = (0, w') ->
  exists packages w1,
    main_try lib false w = (Ok packages, w1)
    /\ w' = pool_store INDEX_FILE (write_text (json_dumps lib packages))
              (pool_store INDEX_FILE [] (say "Writing index" w1)).
Proof.
  unfold main. destruct (main_try lib false w) as [[packages|e] w1].
  - intros H. inversion H. eauto.
  - intros H. inversion H.
Qed.

Lemma main_exit_status repair w code w' :
  main lib repair w = (code, w') ->
  (code = 0 /\ exists packages w1, main_try lib repair w = (Ok packages, w1))
  \/ (code = 1 /\ exists e w1, main_try lib repair w = (Raise e, w1)).
Proof.
  unfold main. destruct (main_try lib repair w) as [[packages|e] w1];
    intros H; inversion H; eauto 6.
Qed.

(** C5.  Every build-mode run either aborts, and then the index file is
    what it was, or completes, and then the index written agrees with the
    prior index (the empty one when there was no index file) on every key
    that is not the name of a package rebuilt in the run: such an entry is
    unchanged, and no such entry is added. *)
Theorem incremental_preservation w code w' :
  main lib false w = (code, w') ->
  (code = 1
   /\ assoc INDEX_FILE (pool_dir w') = assoc INDEX_FILE (pool_dir w))
  \/ (code = 0
      /\ exists prior packages,
          prior_index lib w = Ok prior
          /\ assoc INDEX_FILE (pool_dir w')
             = Some (write_text (json_dumps lib packages))
          /\ forall k,
              (forall name, loads_manifest lib w name ->
                            key_eqb k (KStr name) = false) ->
              value_get packages k = value_get prior k).
Proof.
  intros H.
  destruct (main_exit_status false w code w' H)
    as [[-> _] | [-> (e & w1 & R)]].
  2:{ left. split; [reflexivity|].
      pose proof (index_kept_main_try lib w _ _ R) as (_ & K & _).
      unfold main in H. rewrite R in H. inversion H; subst w'. exact K. }
  right. split; [reflexivity|].
  apply main_build_ok in H as (packages & w1 & H & ->).
  apply main_try_build_ok in H as (prior & Hp & H).
  exists prior, packages. split; [exact Hp|]. split.
  - cbn [pool_store pool_dir]. apply assoc_set_same.
  - intros k Hk.
    pose (I := fun (s : value) (w0 : world) =>
                 packages_dir w0 = packages_dir w
                 /\ value_get s k = value_get prior k).
    assert (G : I packages w1).
    { eapply (for_each_invariant I); [| |exact H].
      - intros s x w0 s' w0' Hx [Hd Hs] Hb.
        pose proof (index_kept_build_step lib s x w0 _ _ Hb) as (Hd' & _).
        split; [congruence|].
        unfold build_step in Hb.
        apply bind_ok in Hb as ([p|] & w2 & Hw & Hb).
        + apply lift_inv in Hb as [Hb _]. symmetry in Hb.
          rewrite (build_upsert_other _ _ _ _ k Hb); [exact Hs|].
          apply Hk. split; [exact Hx|].
          apply build_and_write_some in Hw
            as (content & text & m & G1 & G2 & G3).
          exists content, text, m. repeat split; auto.
          unfold manifest_source in *. rewrite <- Hd. exact G1.
        + apply ret_inv in Hb as [Hb _]. inversion Hb; subst. exact Hs.
      - split; reflexivity. }
    apply G.
Qed.

End Incremental.

Lemma incremental_preservation_witness :
  (0 = 1
   /\ assoc INDEX_FILE
        (pool_dir (snd (main sample_lib false incremental_world)))
      = assoc INDEX_FILE (pool_dir incremental_world))
  \/ (0 = 0
      /\ exists prior packages,
          prior_index sample_lib incremental_world = Ok prior
          /\ assoc INDEX_FILE
               (pool_dir (snd (main sample_lib false incremental_world)))
             = Some (write_text (json_dumps sample_lib packages))
          /\ forall k,
              (forall name, loads_manifest sample_lib incremental_world name ->
                            key_eqb k (KStr name) = false) ->
              value_get packages k = value_get prior k).
Proof.
  apply (incremental_preservation sample_lib incremental_world 0
           (snd (main sample_lib false incremental_world))).
  vm_compute. reflexivity.
Defined.

(** The run of the sample above: [bar] is built and added to the index,
    and the entry of [foo], which is not in the source tree, is the one
    the prior index had. *)
Example incremental_run :
  fst (main sample_lib false incremental_world) = 0
  /\ prior_index sample_lib incremental_world = Ok index_foo
  /\ assoc INDEX_FILE
       (pool_dir (snd (main sample_lib false incremental_world)))
     = Some (str_encode index_foo_bar_text)
  /\ value_get index_foo_bar (KStr "foo") = value_get index_foo (KStr "foo").
Proof. repeat split; vm_compute; reflexivity. Qed.

(** ** Source trees *)

Lemma tree_induction (P : tree -> Prop) :
  (forall files subdirs,
      Forall (fun sd => P (snd sd)) subdirs -> P (Dir files subdirs)) ->
  forall t, P t.
Proof.
  intros H. fix IH 1. intros [files subdirs]. apply H.
  induction subdirs as [|[n sub] r IHr]; constructor;
    [apply IH | exact IHr].
Qed.

Module PathFacts.

Lemma append_assoc (a b c : string) :
  ((a ++ b) ++ c = a ++ (b ++ c))%string.
Proof. induction a as [|x a IH]; cbn; [reflexivity | now rewrite IH]. Qed.

Lemma last_char_has c s : last_char s = Some c -> has_char c s = true.
Proof.
  induction s as [|d r IH]; cbn; [discriminate|].
  destruct (last_char r) as [x|]; intros H; inversion H; subst.
  - rewrite IH by reflexivity. apply orb_true_r.
  - rewrite Ascii.eqb_refl. reflexivity.
Qed.

Lemma ends_slash_app a b :
  b <> EmptyString -> ends_slash (a ++ b) = ends_slash b.
Proof. intros N. unfold ends_slash. now rewrite last_char_app. Qed.

Lemma no_slash_ends n : has_char "/" n = false -> ends_slash n = false.
Proof.
  intros H. unfold ends_slash. destruct (last_char n) as [c|] eqn:E;
    [|reflexivity].
  destruct (Ascii.eqb c "/") eqn:E2; [|reflexivity].
  apply Ascii.eqb_eq in E2. subst c. apply last_char_has in E. congruence.
Qed.

Lemma no_slash_prefix n : has_char "/" n = false -> prefix "/" n = false.
Proof.
  destruct n as [|c r]; [reflexivity|]. cbn [has_char prefix]. intros H.
  apply orb_false_iff in H. destruct H as [H _]. apply Ascii.eqb_neq in H.
  destruct (ascii_dec "/" c); [contradiction | reflexivity].
Qed.

Lemma prefix_nil s : prefix "" s = true.
Proof. destruct s; reflexivity. Qed.

Lemma prefix_refl s : prefix s s = true.
Proof.
  induction s as [|c s IH]; cbn [prefix]; [reflexivity|].
  destruct (ascii_dec c c); [exact IH | congruence].
Qed.

Lemma prefix_app p a b : prefix p a = true -> prefix p (a ++ b) = true.
Proof.
  revert a. induction p as [|c p IH]; intros a H; [apply prefix_nil|].
  destruct a as [|d a]; cbn in *; [discriminate|].
  destruct (ascii_dec c d); [auto | discriminate].
Qed.

Lemma prefix_split p s :
  prefix p s = true -> s = (p ++ str_drop (String.length p) s)%string.
Proof.
  revert s. induction p as [|c p IH]; intros s H; [reflexivity|].
  destruct s as [|d s]; cbn in *; [discriminate|].
  destruct (ascii_dec c d) as [<-|]; [|discriminate].
  f_equal. apply IH, H.
Qed.

Section Below.

Variable path : string.
Hypothesis path_slash : ends_slash path = true.

Lemma reached_top : reached path path.
Proof.
  split; [apply prefix_refl | now left].
Qed.

Lemma path_join_file root f :
  reached path root ->
  has_char "/" f = false ->
  path_join root f = (path ++ (root_path path root ++ f))%string.
Proof.
  intros [Hp Hr] Hf. unfold path_join, root_path.
  rewrite (no_slash_prefix f Hf).
  destruct Hr as [-> | He].
  - rewrite String.eqb_refl, path_slash, orb_true_r. reflexivity.
  - rewrite He, orb_false_r.
    destruct (String.eqb root "") eqn:E0.
    + apply String.eqb_eq in E0. subst root.
      destruct path; [discriminate path_slash | discriminate Hp].
    + destruct (String.eqb root path) eqn:E1.
      * apply String.eqb_eq in E1. subst root. congruence.
      * unfold removeprefix. rewrite Hp.
        rewrite (prefix_split path root Hp) at 1.
        rewrite !append_assoc. reflexivity.
Qed.

Lemma path_join_sub root n :
  reached path root ->
  String.eqb n "" = false ->
  has_char "/" n = false ->
  reached path (path_join root n).
Proof.
  intros [Hp _] Hn Hs. apply String.eqb_neq in Hn.
  unfold path_join. rewrite (no_slash_prefix n Hs).
  destruct (String.eqb root "" || ends_slash root); split.
  - apply prefix_app, Hp.
  - right. rewrite ends_slash_app by exact Hn. apply no_slash_ends, Hs.
  - apply prefix_app, Hp.
  - right. rewrite ends_slash_app by discriminate.
    rewrite (ends_slash_app "/" n Hn). apply no_slash_ends, Hs.
Qed.

(** Every path listed by the walk of a tree with proper names is the
    path of a file of the tree, and the files read as text. *)
Lemma walk_found t :
  forall root,
    tree_ok t = true ->
    reached path root ->
    (forall rel, In rel (walk_paths path root t) ->
                 In (path ++ rel)%string (map fst (tree_files root t)))
    /\ (forall p c, In (p, c) (tree_files root t) -> utf8_valid c = true).
Proof.
  induction t as [files subdirs IH] using tree_induction.
  intros root Hok Hr. cbn [tree_ok] in Hok.
  apply andb_true_iff in Hok. destruct Hok as [Hfiles Hsubs].
  rewrite forallb_forall in Hfiles, Hsubs. rewrite Forall_forall in IH.
  assert (Sub : forall sd, In sd subdirs ->
                  reached path (path_join root (fst sd))
                  /\ tree_ok (snd sd) = true).
  { intros sd Hsd. specialize (Hsubs sd Hsd).
    apply andb_true_iff in Hsubs. destruct Hsubs as [Hsubs Ht].
    apply andb_true_iff in Hsubs. destruct Hsubs as [Hn Hs].
    apply negb_true_iff in Hn, Hs.
    split; [apply path_join_sub; assumption | exact Ht]. }
  split.
  - intros rel Hrel. unfold walk_paths in Hrel.
    cbn [os_walk flat_map fst snd] in Hrel.
    cbn [tree_files]. rewrite map_app. apply in_or_app.
    apply in_app_or in Hrel. destruct Hrel as [Hrel | Hrel].
    + left. apply in_map_iff in Hrel. destruct Hrel as (f & <- & Hf).
      apply in_map_iff in Hf. destruct Hf as ([f' c] & <- & Hf).
      specialize (Hfiles _ Hf). apply andb_true_iff in Hfiles.
      destruct Hfiles as [Hs _]. apply negb_true_iff in Hs.
      apply in_map_iff. exists (path_join root f', c). split.
      * cbn [fst]. apply path_join_file; assumption.
      * apply in_map_iff. exists (f', c). split; [reflexivity | exact Hf].
    + right. apply in_flat_map in Hrel. destruct Hrel as (rf & Hrf & Hrel).
      apply in_flat_map in Hrf. destruct Hrf as (sd & Hsd & Hrf).
      destruct (Sub sd Hsd) as [Hreached Ht].
      destruct (IH sd Hsd _ Ht Hreached) as [Hin _].
      assert (Hw : In rel (walk_paths path (path_join root (fst sd)) (snd sd))).
      { apply in_flat_map. exists rf. split; assumption. }
      apply Hin, in_map_iff in Hw. destruct Hw as (pc & Hpc & Hw).
      apply in_map_iff. exists pc. split; [exact Hpc|].
      apply in_flat_map. exists sd. split; assumption.
  - intros p c Hpc. cbn [tree_files] in Hpc.
    apply in_app_or in Hpc. destruct Hpc as [Hpc | Hpc].
    + apply in_map_iff in Hpc. destruct Hpc as ([f' c'] & E & Hf).
      inversion E; subst. specialize (Hfiles _ Hf).
      apply andb_true_iff in Hfiles. apply Hfiles.
    + apply in_flat_map in Hpc. destruct Hpc as (sd & Hsd & Hpc).
      destruct (Sub sd Hsd) as [Hreached Ht].
      destruct (IH sd Hsd _ Ht Hreached) as [_ Hval].
      apply (Hval p c Hpc).
Qed.

End Below.

Lemma source_path_slash name : ends_slash (source_path name) = true.
Proof.
  unfold source_path.
  rewrite ends_slash_app by discriminate.
  rewrite (ends_slash_app "/") by (destruct name; discriminate).
  rewrite ends_slash_app by discriminate. reflexivity.
Qed.

End PathFacts.


(** The walk of a source tree with sub-directories lists the directories
    top-down and gives each file its path relative to [source/], under
    which the file is then opened. *)
Example nested_sources_listed :
  let d :=
    {| manifest_file := None;
       source :=
         Dir [("a.txt", str_encode "a")]
             [ ("lib", Dir [("b.txt", str_encode "b")]
                           [("sub", Dir [("c.txt", str_encode "c")] [])]);
               ("doc", Dir [("d.md", str_encode "d")] []) ] |} in
  let w := {| packages_dir := [("foo", Directory d)];
              pool_dir := [];
              stdout := [] |} in
  fst (get_package_files "foo" w)
  = Ok ["a.txt"; "lib/b.txt"; "lib/sub/c.txt"; "doc/d.md"]
  /\ fst (read_source_file "foo" "lib/sub/c.txt" w) = Ok "c"
  /\ sources_readable d.
Proof. repeat split; vm_compute; reflexivity. Qed.


(** ** Packages that build *)

Lemma assoc_pair {A} k (a : A) l : assoc k l = Some a -> In (k, a) l.
Proof.
  induction l as [|[k' a'] l IH]; cbn [assoc]; [discriminate|].
  destruct (String.eqb k k') eqn:E.
  - apply String.eqb_eq in E. intros H. inversion H; subst. now left.
  - intros H. right. apply IH, H.
Qed.

Lemma assoc_of_in {A} k (l : list (string * A)) :
  In k (map fst l) -> exists a, assoc k l = Some a.
Proof.
  induction l as [|[k' a'] l IH]; cbn [assoc map fst]; [contradiction|].
  intros [E|I].
  - subst k'. rewrite String.eqb_refl. eauto.
  - destruct (String.eqb k k'); eauto.
Qed.

Section Buildable.

Variable lib : pylib.

Lemma get_manifest_object name w d m :
  manifest_object lib (packages_dir w) name d m ->
  get_manifest lib name w
  = (Ok (Some (VDict m)),
     say_all (map field_warning (missing_fields (VDict m)))
             (say "[i] Reading manifest" w)).
Proof.
  intros (Ha & content & text & Hc & Hr & Hj).
  rewrite get_manifest_eq. cbv zeta. unfold manifest_source.
  rewrite Ha, Hc, Hr, Hj. reflexivity.
Qed.

Lemma build_package_file_ok name w d m r path :
  assoc name (packages_dir w) = Some (Directory d) ->
  sources_readable d ->
  In path (walk_paths (source_path name) (source_path name) (source d)) ->
  record_of m r ->
  exists r' w',
    build_package_file lib name (VDict r) path w = (Ok (VDict r'), w')
    /\ record_of m r' /\ prints_only w w'.
Proof.
  intros Ha Hs Hp Hr.
  destruct (PathFacts.walk_found (source_path name)
              (PathFacts.source_path_slash name) (source d) (source_path name)
              Hs (PathFacts.reached_top (source_path name)))
    as [Hfound Hvalid].
  destruct (assoc_of_in _ _ (Hfound _ Hp)) as [c Hc].
  pose proof (Hvalid _ _ (assoc_pair _ _ _ Hc)) as Hv.
  unfold build_package_file, bind, print, read_source_file.
  cbn [say packages_dir]. rewrite Ha, Hc. unfold read_text. rewrite Hv.
  unfold lift.
  destruct (record_of_step_ok m r path
              (file_entry (string_of_list_byte (universal_newlines c))
                 (sha256_hexdigest lib
                    (str_encode (string_of_list_byte (universal_newlines c)))))
              Hr) as [x Hx].
  rewrite Hx.
  destruct (record_of_step _ _ _ _ _ Hr Hx) as (r' & -> & Hr').
  exists r'. eexists. split; [reflexivity|]. split; [exact Hr'|].
  split; [split; reflexivity | apply extends_say].
Qed.

Lemma build_package_ok name w d m :
  manifest_object lib (packages_dir w) name d m ->
  sources_readable d ->
  exists r w',
    build_package lib name w = (Ok (Some (VDict r)), w')
    /\ record_of m r /\ prints_only w w'.
Proof.
  intros Hm Hs.
  assert (Q : forall w0 r w', build_package lib name w0 = (r, w') ->
                              prints_only w0 w')
    by (intros w0 r w'; apply quiet_build_package).
  pose proof Hm as (Ha & _).
  unfold build_package in *.
  unfold bind at 1. unfold bind at 1 in Q.
  rewrite (get_manifest_object name w d m Hm).
  set (w1 := say_all _ _) in *.
  assert (P1 : packages_dir w1 = packages_dir w).
  { subst w1. rewrite (proj1 (say_all_files _ _)). reflexivity. }
  unfold bind at 1, lift at 1. cbn [py_setitem].
  unfold bind at 1, get_package_files at 1. cbv zeta. rewrite P1, Ha.
  fold (walk_paths (source_path name) (source_path name) (source d)).
  destruct (for_each_total
              (fun s w0 => (exists r, s = VDict r /\ record_of m r)
                           /\ packages_dir w0 = packages_dir w)
              (walk_paths (source_path name) (source_path name) (source d))
              (build_package_file lib name))
    with (s := VDict (dict_set (KStr "files") (VDict []) m)) (w := w1)
    as (s' & w' & Hl & (r & -> & Hr) & Hw).
  - intros s x w0 Hx [(r & -> & Hr) Hw0].
    rewrite <- Hw0 in Ha.
    destruct (build_package_file_ok name w0 d m r x Ha Hs Hx Hr)
      as (r' & w' & E & Hr' & [[Hf _] _]).
    exists (VDict r'), w'. split; [exact E|]. split; [eauto|]. congruence.
  - split; [|exact P1]. eexists. split; [reflexivity|].
    apply record_of_start.
  - exists r, w'. unfold bind at 1. rewrite Hl. unfold ret.
    split; [reflexivity|]. split; [exact Hr|].
    apply (Q w (Ok (Some (VDict r))) w').
    rewrite (get_manifest_object name w d m Hm). fold w1.
    unfold bind at 1, lift at 1. cbn [py_setitem].
    unfold bind at 1, get_package_files at 1. cbv zeta. rewrite P1, Ha.
    fold (walk_paths (source_path name) (source_path name) (source d)).
    unfold bind at 1. rewrite Hl. reflexivity.
Qed.

End Buildable.

(** ** Counting the versions of an index *)

Lemma dict_set_length s x d :
  List.length (dict_set (KStr s) x d)
  = (List.length d + if dict_mem (KStr s) d then 0 else 1)%nat.
Proof.
  unfold dict_mem.
  induction d as [|[k v] d IH]; cbn [dict_set dict_get List.length].
  - reflexivity.
  - destruct (key_eqb (KStr s) k) eqn:E; cbn [List.length].
    + lia.
    + rewrite IH. lia.
Qed.

Lemma count_dict_set s e d :
  (list_sum (map (fun kv => entry_count (snd kv)) (dict_set (KStr s) e d))
   + entry_count (entry_or_empty d s)
   = list_sum (map (fun kv => entry_count (snd kv)) d) + entry_count e)%nat.
Proof.
  unfold entry_or_empty, list_sum.
  induction d as [|[k v] d IH]; cbn [dict_set dict_get map fold_right snd].
  - cbn. lia.
  - destruct (key_eqb (KStr s) k) eqn:E; cbn [map fold_right snd].
    + lia.
    + lia.
Qed.

Lemma upserted_versions e description version ventry vs :
  entry_versions e = Some vs ->
  entry_versions (upserted e description version ventry)
  = Some (dict_set (KStr version) ventry vs).
Proof.
  unfold entry_versions, upserted.
  destruct e as [| | | | |ed]; try discriminate.
  destruct (dict_get (KStr "versions") ed) as [[| | | | |vs']|]; try discriminate.
  intros H. inversion H; subst vs'.
  rewrite dict_get_set_other by reflexivity.
  rewrite dict_get_set_str. reflexivity.
Qed.

Lemma entry_or_empty_set d name e n :
  entry_or_empty (dict_set (KStr name) e d) n
  = if String.eqb n name then e else entry_or_empty d n.
Proof.
  unfold entry_or_empty. rewrite dict_get_set_cases. rewrite key_eqb_str.
  destruct (String.eqb n name); reflexivity.
Qed.

Lemma dict_mem_set s x d k :
  dict_mem k (dict_set (KStr s) x d) = key_eqb k (KStr s) || dict_mem k d.
Proof.
  unfold dict_mem. rewrite dict_get_set_cases.
  destruct (key_eqb k (KStr s)); reflexivity.
Qed.

(** An upsert of a version the index does not have adds one version
    entry, and an entry for no other version. *)
Lemma upsert_count d name version description ventry :
  index_ok (VDict d) ->
  has_version d name version = false ->
  let d' := dict_set (KStr name)
              (upserted (entry_or_empty d name) description version ventry) d in
  version_count (VDict d') = S (version_count (VDict d))
  /\ forall n v,
      has_version d' n v
      = (String.eqb n name && String.eqb v version) || has_version d n v.
Proof.
  intros Hi Hv d'.
  pose proof (entry_or_empty_ok d name Hi) as He.
  unfold entry_ok in He.
  destruct (entry_versions (entry_or_empty d name)) as [vs|] eqn:Ev;
    [|discriminate].
  pose proof (upserted_versions _ description version ventry _ Ev) as Eu.
  split.
  - cbn [version_count].
    pose proof (count_dict_set name
                  (upserted (entry_or_empty d name) description version ventry)
                  d) as C.
    fold d' in C. unfold entry_count in *. rewrite Ev, Eu in C.
    rewrite dict_set_length in C.
    unfold has_version in Hv. rewrite Ev in Hv. rewrite Hv in C. lia.
  - intros n v. unfold has_version. subst d'. rewrite entry_or_empty_set.
    destruct (String.eqb n name) eqn:En.
    + apply String.eqb_eq in En. subst n. rewrite Eu, Ev.
      rewrite dict_mem_set, key_eqb_str. reflexivity.
    + reflexivity.
Qed.

(** ** Repair mode over archives that index or are skipped *)

Section Completeness.

Variable lib : pylib.

Lemma skip_line_warning v e line :
  skip_line v e = Some line -> is_warning line = true.
Proof.
  destruct e; cbn; intros H; inversion H; reflexivity.
Qed.

Lemma perm_filter_length {A} (f : A -> bool) l l' :
  Permutation l l' -> List.length (filter f l) = List.length (filter f l').
Proof.
  induction 1; cbn [filter].
  - reflexivity.
  - destruct (f x); cbn [List.length]; congruence.
  - destruct (f x), (f y); reflexivity.
  - congruence.
Qed.

Lemma index_pairs_count pool pairs :
  NoDup pairs ->
  (forall nv, In nv pairs -> indexable lib pool nv || skipped lib pool nv = true) ->
  forall d,
    index_ok (VDict d) ->
    (forall n v, In (n, v) pairs -> has_version d n v = false) ->
    exists d',
      index_pairs lib pool pairs (VDict d) = Ok (VDict d')
      /\ version_count (VDict d')
         = (version_count (VDict d)
            + List.length (filter (indexable lib pool) pairs))%nat.
Proof.
  induction pairs as [|[n v] pairs IH]; intros Hn Hc d Hi Hv.
  - exists d. split; [reflexivity|]. cbn. lia.
  - inversion Hn as [|? ? Hnot Hn']; subst.
    assert (Hc' : forall nv, In nv pairs ->
                             indexable lib pool nv || skipped lib pool nv = true)
      by (intros nv I; apply Hc; now right).
    pose proof (Hc (n, v) (or_introl eq_refl)) as C.
    cbn [index_pairs filter]. unfold indexable at 1 in C.
    unfold skipped in C. unfold indexable at 1. cbn [fst snd] in *.
    destruct (read_archive lib pool n v) as [p|e].
    + destruct (py_getitem (manifest p) "description") as [ds|] eqn:Ds;
        [|discriminate].
      destruct (py_getitem (manifest p) "dependencies") as [dp|] eqn:Dp;
        [|discriminate].
      rewrite (repair_upsert_eq d n v p ds dp Hi Ds Dp). cbn [obind].
      destruct (upsert_count d n v ds (version_entry (digest p) dp) Hi
                  (Hv n v (or_introl eq_refl))) as [U1 U2].
      cbv zeta in U1, U2.
      set (d1 := dict_set (KStr n) _ d) in *.
      destruct (IH Hn' Hc' d1) as (d' & E & Cnt).
      * apply index_ok_set; [exact Hi|].
        apply upserted_ok, entry_or_empty_ok, Hi.
      * intros n' v' I. rewrite U2.
        rewrite (Hv n' v' (or_intror I)), orb_false_r.
        apply andb_false_iff.
        destruct (String.eqb n' n) eqn:En; [|now left].
        destruct (String.eqb v' v) eqn:Ev; [|now right].
        apply String.eqb_eq in En, Ev. subst. contradiction.
      * exists d'. split; [exact E|]. rewrite Cnt, U1. cbn [List.length]. lia.
    + destruct (skip_line v e) as [line|]; [|discriminate].
      destruct (IH Hn' Hc' d Hi) as (d' & E & Cnt).
      * intros n' v' I. apply Hv. now right.
      * exists d'. split; [exact E | exact Cnt].
Qed.

Lemma run_versions_warnings pool name versions packages r :
  fst (run_versions lib pool name versions packages) = Ok r ->
  List.length (filter is_warning
                 (snd (run_versions lib pool name versions packages)))
  = List.length (filter (skipped lib pool) (map (pair name) versions)).
Proof.
  revert packages. induction versions as [|v vs IH]; intros packages H;
    cbn [run_versions map filter] in *.
  - reflexivity.
  - unfold skipped at 1. cbn [fst snd].
    destruct (read_archive lib pool name v) as [p|e].
    + destruct (repair_upsert packages name v p) as [packages'|];
        [|discriminate].
      specialize (IH packages').
      destruct (run_versions lib pool name vs packages') as [res lines].
      cbn [fst snd filter] in *.
      change (is_warning ("[+] Version " ++ v)) with false. cbv iota.
      apply IH, H.
    + destruct (skip_line v e) as [line|] eqn:S; [|discriminate].
      specialize (IH packages).
      destruct (run_versions lib pool name vs packages) as [res lines].
      cbn [fst snd filter] in *.
      rewrite (skip_line_warning _ _ _ S). cbn [List.length].
      f_equal. apply IH, H.
Qed.

Lemma filter_length_app {A} (f : A -> bool) l1 l2 :
  List.length (filter f (l1 ++ l2))
  = (List.length (filter f l1) + List.length (filter f l2))%nat.
Proof. rewrite filter_app, length_app. reflexivity. Qed.

Lemma run_groups_warnings pool groups packages r :
  fst (run_groups lib pool groups packages) = Ok r ->
  List.length (filter is_warning (snd (run_groups lib pool groups packages)))
  = List.length (filter (skipped lib pool) (pairs_of groups)).
Proof.
  revert packages. induction groups as [|[name versions] gs IH];
    intros packages H; cbn [run_groups] in *.
  - reflexivity.
  - unfold pairs_of. cbn [flat_map fst snd]. fold (pairs_of gs).
    rewrite filter_length_app.
    pose proof (run_versions_warnings pool name versions packages) as W.
    destruct (run_versions lib pool name versions packages)
      as [[packages'|e] lines]; [|discriminate].
    cbn [fst snd] in W. rewrite <- (W packages' eq_refl).
    specialize (IH packages').
    destruct (run_groups lib pool gs packages') as [res lines'].
    cbn [fst snd filter] in *.
    change (is_warning ("Indexing " ++ name)) with false. cbv iota.
    rewrite filter_length_app. f_equal. apply IH, H.
Qed.

Lemma parse_all_archives entries :
  (forall f, In f entries ->
             exists n v, f = archive_name n v /\ has_char "." n = false) ->
  exists pairs,
    parse_all entries = Some pairs
    /\ map (fun nv => archive_name (fst nv) (snd nv)) pairs = entries.
Proof.
  induction entries as [|f entries IH]; intros H.
  - exists []. split; reflexivity.
  - destruct (H f (or_introl eq_refl)) as (n & v & -> & Hn).
    destruct IH as (pairs & P & E); [intros g I; apply H; now right|].
    exists ((n, v) :: pairs). cbn [parse_all map fst snd].
    rewrite (parse_entry_archive n v Hn), P, E. split; reflexivity.
Qed.

End Completeness.

(** The statement of C4 as the specification has it fails on a pool whose
    one archive decodes successfully, to the empty object: no archive is
    corrupted, and yet the run exits with status 1 and writes no index. *)
Lemma repair_aborts_on_decodable_archive :
  pool_entries empty_record_world = ["foo.1.0.ccp"]
  /\ read_archive sample_lib (pool_dir empty_record_world) "foo" "1.0"
     = Ok {| manifest := VDict [];
             digest :=
               sha256_hexdigest sample_lib (str_encode empty_archive_text) |}
  /\ fst (main sample_lib true empty_record_world) = 1
  /\ assoc INDEX_FILE (pool_dir (snd (main sample_lib true empty_record_world)))
     = None.
Proof. repeat split; vm_compute; reflexivity. Qed.

Section RepairTheorem.

Variable lib : pylib.

(** C4, amended.  Over a pool whose files, the index apart, are named
    [name.version.ccp], of which [M] read and decode to a record that has
    [description] and [dependencies] and the other [K] fail with an
    exception [read_package] handles (missing file, base64 or zlib error,
    JSON parse error): repair mode exits with status 0, writes an index
    with exactly [M] version entries across its packages, and prints
    exactly [K] warning lines. *)
Theorem repair_completeness w :
  NoDup (map fst (pool_dir w)) ->
  (forall f, In f (pool_entries w) ->
             exists n v, f = archive_name n v /\ has_char "." n = false) ->
  (forall nv, In nv (pool_archives w) ->
              indexable lib (pool_dir w) nv || skipped lib (pool_dir w) nv
              = true) ->
  exists packages lines w',
    main lib true w = (0, w')
    /\ assoc INDEX_FILE (pool_dir w')
       = Some (write_text (json_dumps lib packages))
    /\ version_count packages
       = List.length (filter (indexable lib (pool_dir w)) (pool_archives w))
    /\ stdout w' = app (stdout w) (app lines ["Writing index"])
    /\ List.length (filter is_warning lines)
       = List.length (filter (skipped lib (pool_dir w)) (pool_archives w)).
Proof.
  intros Hnd Hnames Hclass.
  destruct (parse_all_archives (pool_entries w) Hnames) as (pairs & P & Em).
  unfold pool_archives in *. rewrite P in *.
  assert (Np : NoDup pairs).
  { apply (NoDup_map_inv (fun nv => archive_name (fst nv) (snd nv))).
    rewrite Em. unfold pool_entries. apply NoDup_filter, Hnd. }
  destruct (group_all (pool_entries w) []) as [g|] eqn:G;
    [|apply group_all_none in G; congruence].
  destruct (group_all_perm _ _ _ G) as (pairs' & P' & Q).
  assert (pairs' = pairs) by congruence. subst pairs'.
  cbn [pairs_of flat_map app] in Q.
  destruct (index_pairs_count lib (pool_dir w) (pairs_of g)) with (d := @nil (key * value))
    as (d' & E & Cnt).
  - eapply Permutation_NoDup; [symmetry; exact Q | exact Np].
  - intros nv I. apply Hclass. eapply Permutation_in; [exact Q | exact I].
  - apply index_ok_empty.
  - intros n v _. reflexivity.
  - assert (R : fst (repair_run lib w) = Ok (VDict d')).
    { unfold repair_run. rewrite G, run_groups_pairs. exact E. }
    exists (VDict d'), (snd (repair_run lib w)). eexists.
    rewrite main_repair_eq. cbv zeta. rewrite R.
    split; [reflexivity|]. split; [|split; [|split]].
    + cbn [pool_store pool_dir]. apply assoc_set_same.
    + rewrite Cnt. cbn [version_count map list_sum fold_right].
      cbn [Nat.add]. apply perm_filter_length, Q.
    + cbn [pool_store say stdout]. rewrite say_all_stdout, <- app_assoc.
      reflexivity.
    + unfold repair_run in *. rewrite G in *.
      rewrite (run_groups_warnings lib (pool_dir w) g (VDict []) (VDict d') R).
      apply perm_filter_length, Q.
Qed.

End RepairTheorem.

Lemma repair_completeness_witness :
  exists packages lines w',
    main sample_lib true mixed_pool_world = (0, w')
    /\ assoc INDEX_FILE (pool_dir w')
       = Some (write_text (json_dumps sample_lib packages))
    /\ version_count packages
       = List.length (filter (indexable sample_lib (pool_dir mixed_pool_world))
                        (pool_archives mixed_pool_world))
    /\ stdout w' = app (stdout mixed_pool_world) (app lines ["Writing index"])
    /\ List.length (filter is_warning lines)
       = List.length (filter (skipped sample_lib (pool_dir mixed_pool_world))
                        (pool_archives mixed_pool_world)).
Proof.
  apply (repair_completeness sample_lib mixed_pool_world).
  - vm_compute. repeat constructor; intros H;
      repeat (destruct H as [H|H]; [discriminate|]); exact H.
  - intros f [<-|[<-|[]]].
    + exists "foo", "1.0". split; reflexivity.
    + exists "foo", "0.8". split; reflexivity.
  - intros nv [<-|[<-|[]]]; vm_compute; reflexivity.
Defined.

Example repair_completeness_run :
  fst (main sample_lib true mixed_pool_world) = 0
  /\ stdout (snd (main sample_lib true mixed_pool_world))
     = [ "Indexing foo"; "[+] Version 1.0";
         "[!] Version 0.8 is invalid (corrupted)"; "Writing index" ].
Proof. split; vm_compute; reflexivity. Qed.

(** ** The sample runs *)

(** Build mode on the fresh checkout writes the two archives and the
    index as CPython does. *)
Example sample_build_run :
  fst (main sample_lib false sample_world) = 0
  /\ pool_dir (snd (main sample_lib false sample_world))
     = [ ("foo.1.0.ccp", str_encode foo_archive_text);
         ("bar.1.0.ccp", str_encode bar_archive_text);
         ("index.json", str_encode index_foo_bar_text) ].
Proof. split; vm_compute; reflexivity. Qed.

(** Repair mode over versions 2.0 then 1.0 of one package: both are
    indexed and [latest_version] is 1.0, the last one read. *)
Example latest_version_not_maximum :
  fst (main sample_lib true two_versions_world) = 0
  /\ assoc INDEX_FILE (pool_dir (snd (main sample_lib true two_versions_world)))
     = Some (str_encode index_foo_two_text)
  /\ (let? entry := py_getitem index_foo_two "foo" in
      py_getitem entry "latest_version") = Ok (VStr "1.0").
Proof. repeat split; vm_compute; reflexivity. Qed.

Lemma repair_latest_is_last_read lib pool name versions packages packages' :
  fst (run_versions lib pool name versions packages) = Ok packages' ->
  match last_read lib pool name versions with
  | Some v =>
    exists entry,
      value_get packages' (KStr name) = Some entry
      /\ value_get entry (KStr "latest_version") = Some (VStr v)
  | None => packages' = packages
  end.
Proof.
  revert packages. induction versions as [|v r IH]; intros packages H;
    cbn [run_versions last_read] in *.
  - inversion H. reflexivity.
  - destruct (read_archive lib pool name v) as [p|e].
    + destruct (repair_upsert packages name v p) as [p1|] eqn:U;
        [|discriminate].
      specialize (IH p1).
      destruct (run_versions lib pool name r p1) as [res lines].
      cbn [fst] in *. specialize (IH H).
      destruct (last_read lib pool name r) as [v'|]; [exact IH|].
      subst packages'.
      apply repair_upsert_steps in U
        as (q1 & q2 & q3 & ds & dp & _ & _ & _ & _ & _ & U).
      apply (set_latest_version _ _ _ _ U).
    + destruct (skip_line v e) as [line|]; [|discriminate].
      specialize (IH packages).
      destruct (run_versions lib pool name r packages) as [res lines].
      cbn [fst] in *. specialize (IH H).
      destruct (last_read lib pool name r) as [v'|]; exact IH.
Qed.

(** ** The decoder on malformed input *)

(** The base64 decoder agrees with CPython on padding and on characters
    outside the alphabet. *)
Example b64decode_samples :
  Base64.b64decode "QQ==" = Ok ["A"%byte]
  /\ Base64.b64decode "QUJD=" = Ok ["A"; "B"; "C"]%byte
  /\ Base64.b64decode "QQ==QUJD" = Ok ["A"%byte]
  /\ Base64.b64decode "Q Q = =" = Ok ["A"%byte]
  /\ Base64.b64decode "QQ=Q=" = Ok ["A"%byte; x04]
  /\ Base64.b64decode "!!!!" = Ok []
  /\ Base64.b64decode "QQ=" = Raise BinasciiError
  /\ Base64.b64decode "QUJDRA" = Raise BinasciiError
  /\ Base64.b64decode "A" = Raise BinasciiError.
Proof. repeat split; vm_compute; reflexivity. Qed.

(** An archive file that is not UTF-8 is not skipped either: reading it
    raises [UnicodeDecodeError], which no clause of [read_package]
    handles, and the repair run exits with status 1. *)
Example repair_aborts_on_undecodable_file :
  let w := {| packages_dir := [];
              pool_dir := [("foo.1.0.ccp", [xff])];
              stdout := [] |} in
  read_package sample_lib "foo" "1.0" w = (Raise UnicodeDecodeError, w)
  /\ fst (main sample_lib true w) = 1
  /\ pool_dir (snd (main sample_lib true w)) = pool_dir w.
Proof. repeat split; vm_compute; reflexivity. Qed.

(** * Further properties of the script *)

(** ** The names of the files of the pool *)

Lemma split_dot_none s : has_char "." s = false -> split_dot s = None.
Proof.
  induction s as [|c s IH]; cbn [has_char split_dot]; [reflexivity|].
  intros H. apply orb_false_iff in H. destruct H as [H1 H2].
  rewrite Ascii.eqb_sym, H1, (IH H2). reflexivity.
Qed.

Lemma group_all_fails entries f :
  In f entries -> parse_entry f = None ->
  forall rtn, group_all entries rtn = None.
Proof.
  induction entries as [|e r IH]; intros Hin H rtn; [contradiction|].
  cbn [group_all]. destruct Hin as [->|Hin].
  - rewrite H. reflexivity.
  - destruct (parse_entry e) as [[n v]|]; [apply IH; assumption | reflexivity].
Qed.

Lemma is_ascii_not_cont b : Base64.is_ascii b = true -> is_cont b = false.
Proof.
  unfold Base64.is_ascii, is_cont. intros H. apply Z.ltb_lt in H.
  apply andb_false_iff. left. apply Z.leb_gt. lia.
Qed.

Lemma str_drop_last_ascii4 stem ext :
  String.length ext = 4%nat ->
  forallb Base64.is_ascii (str_encode ext) = true ->
  str_drop_last 4 (stem ++ ext) = stem.
Proof.
  intros Hl Ha.
  destruct ext as [|a [|b [|c [|d [|x ext]]]]]; try discriminate Hl.
  unfold str_encode in Ha. cbn [list_byte_of_string forallb] in Ha.
  repeat (apply andb_true_iff in Ha; destruct Ha as [?H Ha]).
  unfold str_drop_last. rewrite list_byte_of_string_app, rev_app_distr.
  change (list_byte_of_string (String a (String b (String c (String d "")))))
    with [byte_of_ascii a; byte_of_ascii b; byte_of_ascii c; byte_of_ascii d].
  cbn [rev app Nat.iter nat_rect].
  do 4 (cbn [drop_char_rev app]; rewrite is_ascii_not_cont by assumption).
  rewrite rev_involutive. apply string_of_list_byte_of_string.
Qed.

(** X1.  A pool file name is split at its first dot.  The archive written
    for a package whose name has no dot is read back as that name and
    version, also when the version has dots; the archive of a package
    named [a.b] and of version [v] is read back as version [b.v] of
    package [a]. *)
Theorem archive_name_read_at_first_dot a rest :
  has_char "." a = false ->
  parse_entry (archive_name a rest) = Some (a, rest)
  /\ forall b v,
      parse_entry (archive_name (a ++ "." ++ b) v) = Some (a, b ++ "." ++ v).
Proof.
  intros H. split; [apply parse_entry_archive, H|].
  intros b v.
  replace (archive_name (a ++ "." ++ b) v)
    with (archive_name a (b ++ "." ++ v)).
  - apply parse_entry_archive, H.
  - unfold archive_name. rewrite !PathFacts.append_assoc. reflexivity.
Qed.

Lemma archive_name_read_at_first_dot_witness :
  parse_entry (archive_name "foo" "1.2.3") = Some ("foo", "1.2.3")
  /\ forall b v,
      parse_entry (archive_name ("foo" ++ "." ++ b) v)
      = Some ("foo", b ++ "." ++ v).
Proof.
  apply (archive_name_read_at_first_dot "foo" "1.2.3"). reflexivity.
Defined.

Section PoolNames.

Variable lib : pylib.

(** X2.  The extension of a pool file is never looked at: the last four
    characters are dropped whatever they are.  A file [stem.bak] whose
    stem splits into a name and a version is taken for an archive, and
    when the pool holds no archive of that name and version the repair
    loop reports the version as not found and goes on. *)
Theorem pool_file_extension_ignored w stem ext n v packages :
  String.length ext = 4%nat ->
  forallb Base64.is_ascii (str_encode ext) = true ->
  split_dot stem = Some (n, v) ->
  assoc (archive_name n v) (pool_dir w) = None ->
  parse_entry (stem ++ ext) = Some (n, v)
  /\ repair_version lib n packages v w
     = (Ok packages, say ("[!] Version " ++ v ++ " not found") w).
Proof.
  intros Hl Ha Hs Hn. split.
  - unfold parse_entry. rewrite str_drop_last_ascii4 by assumption. exact Hs.
  - rewrite repair_version_eq. unfold read_archive. rewrite Hn. reflexivity.
Qed.

(** X3.  A pool file, other than the index, whose name without its last
    four characters has no dot stops repair mode before anything is read
    or printed: the run prints the error and the hint, exits with status 1
    and leaves the files as they are. *)
Theorem pool_file_without_dot_aborts_repair w f :
  In f (pool_entries w) ->
  has_char "." (str_drop_last 4 f) = false ->
  main lib true w
  = (1, say REPAIR_HINT (say ("Error: " ++ exn_str lib ValueError) w)).
Proof.
  intros Hin Hd. rewrite main_repair_eq. unfold repair_run.
  rewrite (group_all_fails _ f Hin (split_dot_none _ Hd)). reflexivity.
Qed.

End PoolNames.

Lemma pool_file_extension_ignored_witness :
  parse_entry ("foo.1.0" ++ ".bak") = Some ("foo", "1.0")
  /\ repair_version sample_lib "foo" (VDict []) "1.0" backup_file_world
     = (Ok (VDict []),
        say ("[!] Version " ++ "1.0" ++ " not found") backup_file_world).
Proof.
  apply (pool_file_extension_ignored sample_lib backup_file_world
           "foo.1.0" ".bak" "foo" "1.0" (VDict [])); reflexivity.
Defined.

Lemma pool_file_without_dot_aborts_repair_witness :
  main sample_lib true stray_file_world
  = (1, say REPAIR_HINT
          (say ("Error: " ++ exn_str sample_lib ValueError) stray_file_world)).
Proof.
  apply (pool_file_without_dot_aborts_repair sample_lib stray_file_world
           "README.md").
  - vm_compute. auto.
  - reflexivity.
Defined.

(** *** The grouping of the versions *)

Lemma assoc_group_add name v g n :
  assoc n (group_add name v g)
  = if String.eqb n name
    then Some (match assoc name g with
               | Some vs => app vs [v]
               | None => [v]
               end)
    else assoc n g.
Proof.
  induction g as [|[m vs] g IH]; cbn [group_add assoc].
  - destruct (String.eqb n name); reflexivity.
  - destruct (String.eqb name m) eqn:E; cbn [assoc].
    + apply String.eqb_eq in E. subst m.
      destruct (String.eqb n name); reflexivity.
    + rewrite IH. destruct (String.eqb n name) eqn:E1.
      * apply String.eqb_eq in E1. subst n. rewrite E. reflexivity.
      * reflexivity.
Qed.

Lemma in_keys_group_add name v g x :
  In x (map fst (group_add name v g)) <-> x = name \/ In x (map fst g).
Proof.
  induction g as [|[m vs] g IH]; cbn [group_add map fst In].
  - intuition congruence.
  - destruct (String.eqb name m) eqn:E; cbn [map fst In].
    + apply String.eqb_eq in E. subst m. intuition congruence.
    + rewrite IH. intuition congruence.
Qed.

Lemma nodup_group_add name v g :
  NoDup (map fst g) -> NoDup (map fst (group_add name v g)).
Proof.
  induction g as [|[m vs] g IH]; cbn [group_add map fst]; intros H.
  - constructor; [intros [] | constructor].
  - inversion H as [|? ? Hm Hg]; subst.
    destruct (String.eqb name m) eqn:E; cbn [map fst].
    + constructor; assumption.
    + constructor; [|apply IH, Hg].
      intros Hin. apply in_keys_group_add in Hin. destruct Hin as [->|Hin].
      * rewrite String.eqb_refl in E. discriminate.
      * contradiction.
Qed.

Lemma versions_of_app n ps qs :
  versions_of n (ps ++ qs) = app (versions_of n ps) (versions_of n qs).
Proof. unfold versions_of. rewrite filter_app, map_app. reflexivity. Qed.

Lemma grouped_add name v g ps :
  grouped g ps -> grouped (group_add name v g) (ps ++ [(name, v)]).
Proof.
  intros [Hn Ha]. split; [apply nodup_group_add, Hn|].
  intros n. rewrite assoc_group_add, versions_of_app.
  unfold versions_of at 2. cbn [filter fst map snd].
  rewrite (String.eqb_sym name n).
  destruct (String.eqb n name) eqn:E.
  - apply String.eqb_eq in E. subst n. rewrite Ha. cbn [map snd].
    destruct (versions_of name ps) as [|x xs]; reflexivity.
  - cbn [map]. rewrite app_nil_r. apply Ha.
Qed.

Lemma group_all_grouped entries :
  forall rtn ps g,
    group_all entries rtn = Some g ->
    grouped rtn ps ->
    exists pairs, parse_all entries = Some pairs /\ grouped g (ps ++ pairs).
Proof.
  induction entries as [|e r IH]; intros rtn ps g H G; cbn [group_all] in H.
  - inversion H; subst. exists []. rewrite app_nil_r. split; [reflexivity|exact G].
  - cbn [parse_all].
    destruct (parse_entry e) as [[n v]|]; [|discriminate].
    destruct (IH _ (app ps [(n, v)]) g H (grouped_add n v rtn ps G))
      as (pairs & Hp & Hg).
    exists ((n, v) :: pairs). rewrite Hp. split; [reflexivity|].
    rewrite <- app_assoc in Hg. exact Hg.
Qed.

Lemma assoc_nodup_in {A} k (a : A) l :
  NoDup (map fst l) -> In (k, a) l -> assoc k l = Some a.
Proof.
  induction l as [|[k' a'] l IH]; cbn [map fst assoc]; intros Hn Hin;
    [contradiction|].
  inversion Hn as [|? ? Hk Hl]; subst. destruct Hin as [E|Hin].
  - inversion E; subst. rewrite String.eqb_refl. reflexivity.
  - destruct (String.eqb k k') eqn:E.
    + apply String.eqb_eq in E. subst k'. exfalso. apply Hk.
      change k with (fst (k, a)). apply in_map, Hin.
    + apply IH; assumption.
Qed.

(** X4.  [get_built_packages] reads the pool without changing anything
    and groups the versions by package: every name is listed once, in the
    order of its first file, with its versions in the order of the files
    of the pool, and none is left out. *)
Theorem built_packages_grouped w g w' :
  get_built_packages w = (Ok g, w') ->
  w' = w
  /\ exists pairs,
      parse_all (pool_entries w) = Some pairs
      /\ NoDup (map fst g)
      /\ (forall n vs, In (n, vs) g -> vs <> [] /\ vs = versions_of n pairs)
      /\ (forall n v, In (n, v) pairs -> exists vs, In (n, vs) g /\ In v vs).
Proof.
  rewrite get_built_packages_eq.
  destruct (group_all (pool_entries w) []) as [g0|] eqn:E; [|discriminate].
  intros H. inversion H; subst. split; [reflexivity|].
  destruct (group_all_grouped _ [] [] g E) as (pairs & Hp & Hn & Ha).
  { split; [constructor | reflexivity]. }
  cbn [app] in Ha. exists pairs. split; [exact Hp|]. split; [exact Hn|]. split.
  - intros n vs Hin. pose proof (assoc_nodup_in n vs g Hn Hin) as Hs.
    rewrite Ha in Hs. destruct (versions_of n pairs) as [|x xs] eqn:Ev;
      [discriminate|].
    inversion Hs; subst. split; [discriminate | reflexivity].
  - intros n v Hin.
    assert (Hv : In v (versions_of n pairs)).
    { unfold versions_of. change v with (snd (n, v)). apply in_map.
      apply filter_In. split; [exact Hin|]. cbn [fst]. apply String.eqb_refl. }
    specialize (Ha n). destruct (versions_of n pairs) as [|x xs] eqn:Ev;
      [contradiction|].
    exists (x :: xs). split; [apply assoc_pair, Ha | exact Hv].
Qed.

Lemma built_packages_grouped_witness :
  two_versions_world = two_versions_world
  /\ exists pairs,
      parse_all (pool_entries two_versions_world) = Some pairs
      /\ NoDup (map fst [("foo", ["2.0"; "1.0"])])
      /\ (forall n vs, In (n, vs) [("foo", ["2.0"; "1.0"])] ->
                       vs <> [] /\ vs = versions_of n pairs)
      /\ (forall n v, In (n, v) pairs ->
                      exists vs, In (n, vs) [("foo", ["2.0"; "1.0"])]
                                 /\ In v vs).
Proof.
  apply (built_packages_grouped two_versions_world
           [("foo", ["2.0"; "1.0"])] two_versions_world).
  reflexivity.
Defined.

(** ** The source files of a package *)

Section Listing.

Variable path : string.
Hypothesis path_slash : ends_slash path = true.

Lemma walk_paths_dir root files subdirs :
  walk_paths path root (Dir files subdirs)
  = app (map (fun file => root_path path root ++ file) (map fst files))
        (flat_map (fun sd => walk_paths path (path_join root (fst sd)) (snd sd))
                  subdirs).
Proof.
  unfold walk_paths. cbn [os_walk flat_map fst snd]. f_equal.
  induction subdirs as [|sd r IH]; cbn [flat_map]; [reflexivity|].
  rewrite flat_map_app, IH. reflexivity.
Qed.

(** The paths listed for a tree with proper names are, below [path], the
    paths of its files, in the same order. *)
Lemma walk_paths_files t :
  forall root,
    names_ok t = true ->
    reached path root ->
    map (fun rel => path ++ rel) (walk_paths path root t)
    = map fst (tree_files root t).
Proof.
  induction t as [files subdirs IH] using tree_induction.
  intros root Hok Hr. cbn [names_ok] in Hok.
  apply andb_true_iff in Hok. destruct Hok as [Hfiles Hsubs].
  rewrite forallb_forall in Hfiles.
  rewrite walk_paths_dir. cbn [tree_files]. rewrite !map_app. f_equal.
  - rewrite !map_map. apply map_ext_in. intros f Hf. cbn [fst].
    symmetry. apply (PathFacts.path_join_file path path_slash root _ Hr).
    apply negb_true_iff, Hfiles, Hf.
  - revert IH Hsubs.
    induction subdirs as [|sd r IHr]; intros IH Hsubs; cbn [flat_map];
      [reflexivity|].
    cbn [forallb] in Hsubs. apply andb_true_iff in Hsubs.
    destruct Hsubs as [Hsd Hsubs].
    apply andb_true_iff in Hsd. destruct Hsd as [Hsd Ht].
    apply andb_true_iff in Hsd. destruct Hsd as [Hn Hs].
    apply negb_true_iff in Hn, Hs.
    inversion IH as [|? ? IHsd IHrest]; subst.
    rewrite !map_app, (IHr IHrest Hsubs). f_equal.
    apply IHsd; [exact Ht|].
    apply PathFacts.path_join_sub; assumption.
Qed.

End Listing.

Lemma read_source_file_eq name path w :
  read_source_file name path w = (source_text (packages_dir w) name path, w).
Proof.
  unfold read_source_file, source_text.
  destruct (assoc name (packages_dir w)) as [[c|d]|]; try reflexivity.
  destruct (assoc _ _); reflexivity.
Qed.

Lemma get_package_files_eq name w :
  get_package_files name w = (Ok (package_paths (packages_dir w) name), w).
Proof.
  unfold get_package_files, package_paths. cbv zeta.
  destruct (assoc name (packages_dir w)) as [[c|d]|]; reflexivity.
Qed.

(** X5.  For a package whose source tree has proper file names,
    [get_package_files] lists exactly the files of the tree, in the order
    of the walk and each by its path relative to [source/]; it changes
    nothing, and each path it lists names a file that exists when
    [build_package] opens it. *)
Theorem package_files_are_tree_files name w d :
  assoc name (packages_dir w) = Some (Directory d) ->
  names_ok (source d) = true ->
  exists paths,
    get_package_files name w = (Ok paths, w)
    /\ map (fun rel => source_path name ++ rel) paths
       = map fst (tree_files (source_path name) (source d))
    /\ forall rel, In rel paths ->
         exists content,
           In (source_path name ++ rel, content)
              (tree_files (source_path name) (source d))
           /\ read_source_file name rel w = (read_text content, w).
Proof.
  intros Ha Hn. rewrite get_package_files_eq. unfold package_paths.
  rewrite Ha. eexists. split; [reflexivity|].
  pose proof (walk_paths_files (source_path name)
                (PathFacts.source_path_slash name) (source d)
                (source_path name) Hn
                (PathFacts.reached_top (source_path name))) as E.
  split; [exact E|].
  intros rel Hin.
  assert (Hk : In (source_path name ++ rel)
                  (map fst (tree_files (source_path name) (source d)))).
  { rewrite <- E. apply (in_map (fun rel => source_path name ++ rel)), Hin. }
  destruct (assoc_of_in _ _ Hk) as [content Hc].
  exists content. split; [apply assoc_pair, Hc|].
  unfold read_source_file. rewrite Ha, Hc. reflexivity.
Qed.

Lemma package_files_are_tree_files_witness :
  exists paths,
    get_package_files "foo" sample_world = (Ok paths, sample_world)
    /\ map (fun rel => source_path "foo" ++ rel) paths
       = map fst (tree_files (source_path "foo") (source foo_dir))
    /\ forall rel, In rel paths ->
         exists content,
           In (source_path "foo" ++ rel, content)
              (tree_files (source_path "foo") (source foo_dir))
           /\ read_source_file "foo" rel sample_world
              = (read_text content, sample_world).
Proof.
  apply (package_files_are_tree_files "foo" sample_world foo_dir); reflexivity.
Defined.

Section Files.

Variable lib : pylib.

Lemma build_package_file_eq name s path w :
  build_package_file lib name s path w =
  match source_text (packages_dir w) name path with
  | Ok text =>
    (py_update s "files"
       (fun files => py_setitem files path (source_entry lib text)),
     say ("[+] " ++ path) w)
  | Raise e => (Raise e, say ("[+] " ++ path) w)
  end.
Proof.
  unfold build_package_file. unfold bind at 1, print at 1.
  unfold bind at 1. rewrite read_source_file_eq. cbn [say packages_dir].
  destruct (source_text (packages_dir w) name path); reflexivity.
Qed.

Lemma files_recorded_step pkgs name done s path text s' :
  files_recorded lib pkgs name done s ->
  source_text pkgs name path = Ok text ->
  py_update s "files"
    (fun files => py_setitem files path (source_entry lib text)) = Ok s' ->
  files_recorded lib pkgs name (app done [path]) s'.
Proof.
  intros (files & Hf & Hin & Hout) Ht Hu.
  apply py_update_ok in Hu. destruct Hu as (d & item & item' & -> & Hi & Hs & ->).
  cbn [value_get] in Hf. rewrite Hi in Hf. inversion Hf; subst item.
  cbn [py_setitem] in Hs. inversion Hs; subst item'.
  exists (dict_set (KStr path) (source_entry lib text) files).
  split; [cbn [value_get]; apply dict_get_set_str|]. split.
  - intros p Hp. apply in_app_or in Hp.
    destruct (String.eqb p path) eqn:E.
    + apply String.eqb_eq in E. subst p. exists text.
      split; [exact Ht | apply dict_get_set_str].
    + destruct Hp as [Hp|[Hp|[]]].
      * destruct (Hin p Hp) as (t & H1 & H2). exists t. split; [exact H1|].
        rewrite dict_get_set_other; [exact H2|].
        rewrite key_eqb_str. exact E.
      * subst p. rewrite String.eqb_refl in E. discriminate.
  - intros k e Hk. rewrite dict_get_set_cases in Hk.
    destruct (key_eqb k (KStr path)) eqn:E.
    + apply key_eqb_str_r in E. exists path. split; [exact E|].
      apply in_or_app. right. now left.
    + destruct (Hout k e Hk) as (p & -> & Hp). exists p.
      split; [reflexivity | apply in_or_app; now left].
Qed.

Lemma files_recorded_loop pkgs name paths :
  forall done s w s' w',
    packages_dir w = pkgs ->
    for_each paths (build_package_file lib name) s w = (Ok s', w') ->
    files_recorded lib pkgs name done s ->
    files_recorded lib pkgs name (app done paths) s'.
Proof.
  induction paths as [|p paths IH]; intros done s w s' w' Hw H Hr.
  - cbn [for_each] in H. apply ret_inv in H. destruct H as [H _].
    inversion H; subst. rewrite app_nil_r. exact Hr.
  - cbn [for_each] in H. apply bind_ok in H.
    destruct H as (s1 & w1 & Hb & H).
    rewrite build_package_file_eq, Hw in Hb.
    destruct (source_text pkgs name p) as [text|e] eqn:Et;
      [|discriminate].
    inversion Hb as [[Hu Hw1]].
    replace (app done (p :: paths)) with (app (app done [p]) paths)
      by (rewrite <- app_assoc; reflexivity).
    apply (IH _ s1 w1 s' w'); [subst w1; exact Hw | exact H |].
    apply (files_recorded_step pkgs name done s p text s1 Hr Et Hu).
Qed.

(** X8.  In the record [build_package] returns, [files] holds one entry
    for each path [get_package_files] lists and no other: the text read
    from the file, and the SHA-256 digest of the UTF-8 encoding of that
    text. *)
Theorem built_files_digests name w r w' :
  build_package lib name w = (Ok (Some r), w') ->
  exists files,
    value_get r (KStr "files") = Some (VDict files)
    /\ (forall path, In path (package_paths (packages_dir w) name) ->
          exists text,
            source_text (packages_dir w) name path = Ok text
            /\ dict_get (KStr path) files
               = Some (file_entry text
                         (sha256_hexdigest lib (str_encode text))))
    /\ (forall k e, dict_get k files = Some e ->
          exists path,
            k = KStr path /\ In path (package_paths (packages_dir w) name)).
Proof.
  intros H. unfold build_package in H.
  apply bind_ok in H. destruct H as (mo & w1 & Hm & H).
  pose proof (quiet_get_manifest lib name w _ w1 Hm) as [[Hp1 _] _].
  destruct mo as [m|];
    [|apply ret_inv in H; destruct H as [H _]; discriminate].
  apply bind_ok in H. destruct H as (m1 & w2 & Hs & H).
  apply lift_inv in Hs. destruct Hs as [Hs ->].
  symmetry in Hs. apply py_setitem_ok in Hs. destruct Hs as (d & -> & ->).
  apply bind_ok in H. destruct H as (paths & w3 & Hg & H).
  rewrite get_package_files_eq in Hg. inversion Hg; subst paths w3.
  apply bind_ok in H. destruct H as (mf & w4 & Hl & H).
  apply ret_inv in H. destruct H as [H _]. inversion H; subst mf.
  rewrite Hp1 in Hl.
  apply (files_recorded_loop (packages_dir w) name _ [] _ w1 r w4 Hp1 Hl).
  exists []. split; [cbn [value_get]; apply dict_get_set_str|].
  split; [intros ? [] | intros k e Hk; discriminate].
Qed.

Lemma record_of_files_dict m d :
  record_of m d -> exists files, dict_get (KStr "files") d = Some (VDict files).
Proof. intros [H _]. exact H. Qed.

Lemma source_loop_raises pkgs name d m paths :
  assoc name pkgs = Some (Directory d) ->
  forall r w,
    packages_dir w = pkgs ->
    record_of m r ->
    (forall p, In p paths ->
               source_text pkgs name p <> Raise FileNotFoundError) ->
    (exists p, In p paths /\ source_text pkgs name p = Raise UnicodeDecodeError) ->
    exists w',
      for_each paths (build_package_file lib name) (VDict r) w
      = (Raise UnicodeDecodeError, w')
      /\ prints_only w w'.
Proof.
  intros Hd.
  induction paths as [|x paths IH]; intros r w Hw Hr Hall (p & Hp & Hbad);
    [contradiction|].
  cbn [for_each]. unfold bind at 1. rewrite build_package_file_eq, Hw.
  destruct (source_text pkgs name x) as [text|e] eqn:Ex.
  - destruct (record_of_step_ok m r x (source_entry lib text) Hr) as [s Hs].
    rewrite Hs.
    destruct (record_of_step m r x _ s Hr Hs) as (r' & -> & Hr').
    destruct (IH r' (say ("[+] " ++ x) w)) as (w' & Hl & Hq).
    + exact Hw.
    + exact Hr'.
    + intros q Hq. apply Hall. now right.
    + destruct Hp as [->|Hp]; [congruence|]. exists p. auto.
    + exists w'. split; [exact Hl|].
      apply (prints_only_trans _ (say ("[+] " ++ x) w));
        [split; [split; reflexivity | apply extends_say] | exact Hq].
  - exists (say ("[+] " ++ x) w).
    assert (E : e = UnicodeDecodeError).
    { pose proof (Hall x (or_introl eq_refl)) as Hnf. rewrite Ex in Hnf.
      unfold source_text in Ex. rewrite Hd in Ex.
      destruct (assoc (source_path name ++ x) _) as [c|].
      - unfold read_text in Ex. destruct (utf8_valid c); congruence.
      - congruence. }
    subst e. split; [reflexivity|].
    split; [split; reflexivity | apply extends_say].
Qed.

(** X9.  One source file that is not UTF-8 text stops the build of its
    package: for a package whose manifest is an object and whose tree has
    proper names, [build_package] raises [UnicodeDecodeError] (which no
    handler of the script catches before the main program), having only
    printed. *)
Theorem undecodable_source_aborts name w d m path content :
  manifest_object lib (packages_dir w) name d m ->
  names_ok (source d) = true ->
  assoc (source_path name ++ path)
        (tree_files (source_path name) (source d)) = Some content ->
  In path (package_paths (packages_dir w) name) ->
  utf8_valid content = false ->
  exists w',
    build_package lib name w = (Raise UnicodeDecodeError, w')
    /\ prints_only w w'.
Proof.
  intros Hm Hn Hc Hin Hv. pose proof Hm as (Ha & _).
  unfold build_package. unfold bind at 1.
  rewrite (get_manifest_object lib name w d m Hm).
  set (w1 := say_all _ _).
  assert (P1 : prints_only w w1).
  { subst w1. split.
    - apply (same_files_trans _ (say "[i] Reading manifest" w));
        [split; reflexivity | apply say_all_files].
    - exists ("[i] Reading manifest"
              :: map field_warning (missing_fields (VDict m))).
      rewrite say_all_stdout. cbn [say stdout].
      rewrite <- app_assoc. reflexivity. }
  pose proof P1 as [[Hp1 _] _].
  unfold bind at 1, lift at 1. cbn [py_setitem].
  unfold bind at 1. rewrite get_package_files_eq.
  destruct (source_loop_raises (packages_dir w) name d m
              (package_paths (packages_dir w1) name) Ha
              (dict_set (KStr "files") (VDict []) m) w1 Hp1
              (record_of_start m))
    as (w' & Hl & Hq).
  - rewrite Hp1. intros p Hp E.
    unfold package_paths in Hp. rewrite Ha in Hp.
    pose proof (walk_paths_files (source_path name)
                  (PathFacts.source_path_slash name) (source d)
                  (source_path name) Hn
                  (PathFacts.reached_top (source_path name))) as Ew.
    assert (Hk : In (source_path name ++ p)
                    (map fst (tree_files (source_path name) (source d)))).
    { rewrite <- Ew. apply (in_map (fun rel => source_path name ++ rel)), Hp. }
    destruct (assoc_of_in _ _ Hk) as [c Hcc].
    unfold source_text in E. rewrite Ha, Hcc in E.
    unfold read_text in E. destruct (utf8_valid c); discriminate.
  - exists path. rewrite Hp1. split; [exact Hin|].
    unfold source_text. rewrite Ha, Hc. unfold read_text. rewrite Hv.
    reflexivity.
  - exists w'. unfold bind at 1. rewrite Hl. split; [reflexivity|].
    apply (prints_only_trans _ w1); assumption.
Qed.

End Files.

Lemma built_files_digests_witness :
  exists files,
    value_get foo_record (KStr "files") = Some (VDict files)
    /\ (forall path, In path (package_paths (packages_dir sample_world) "foo") ->
          exists text,
            source_text (packages_dir sample_world) "foo" path = Ok text
            /\ dict_get (KStr path) files
               = Some (file_entry text
                         (sha256_hexdigest sample_lib (str_encode text))))
    /\ (forall k e, dict_get k files = Some e ->
          exists path,
            k = KStr path
            /\ In path (package_paths (packages_dir sample_world) "foo")).
Proof.
  apply (built_files_digests sample_lib "foo" sample_world foo_record
           (snd (build_package sample_lib "foo" sample_world))).
  vm_compute. reflexivity.
Defined.

Lemma undecodable_source_aborts_witness :
  exists w',
    build_package sample_lib "foo" binary_source_world
    = (Raise UnicodeDecodeError, w')
    /\ prints_only binary_source_world w'.
Proof.
  apply (undecodable_source_aborts sample_lib "foo" binary_source_world
           {| manifest_file := Some (str_encode foo_manifest_text);
              source := Dir [ ("a.txt", str_encode "hello");
                              ("logo.png", [x89; xff]) ] [] |}
           [ (KStr "version", VStr "1.0");
             (KStr "dependencies", VList []);
             (KStr "description", VStr "d") ]
           "logo.png" [x89; xff]).
  - split; [reflexivity|].
    exists (str_encode foo_manifest_text), foo_manifest_text.
    repeat split; vm_compute; reflexivity.
  - reflexivity.
  - reflexivity.
  - vm_compute. auto.
  - reflexivity.
Defined.

(** ** Manifests *)

Section Manifests.

Variable lib : pylib.

(** X6.  The exceptions [get_manifest] does not catch.  It lets these
    through to its caller, each time having printed only the line that
    announces the reading: [NotADirectoryError] when the entry of
    [./packages] is a regular file, [UnicodeDecodeError] for a manifest
    file that is not UTF-8, [TypeError] for a manifest that is the JSON
    value null, a boolean or a number (the membership test of the field
    check fails on it), and whatever the JSON parser raises that is not
    [JSONDecodeError] (a [ValueError] for an integer of too many digits,
    a [RecursionError]). *)
Theorem manifest_errors_propagate name w :
  (regular_file (packages_dir w) name = true ->
   get_manifest lib name w
   = (Raise NotADirectoryError, say "[i] Reading manifest" w))
  /\ (forall content,
        manifest_source name w = Some content ->
        utf8_valid content = false ->
        get_manifest lib name w
        = (Raise UnicodeDecodeError, say "[i] Reading manifest" w))
  /\ (forall content text m,
        manifest_source name w = Some content ->
        read_text content = Ok text ->
        json_loads lib text = Ok m ->
        is_container m = false ->
        get_manifest lib name w
        = (Raise TypeError, say "[i] Reading manifest" w))
  /\ (forall content text e,
        manifest_source name w = Some content ->
        read_text content = Ok text ->
        json_loads lib text = Raise e ->
        e <> JSONDecodeError ->
        e <> FileNotFoundError ->
        get_manifest lib name w = (Raise e, say "[i] Reading manifest" w)).
Proof.
  rewrite get_manifest_eq. cbv zeta. split; [|split; [|split]].
  - intros R. rewrite R.
    unfold manifest_source. unfold regular_file in R.
    destruct (assoc name (packages_dir w)) as [[c|d]|];
      [reflexivity | discriminate | discriminate].
  - intros content Hs Hv. rewrite Hs. unfold read_text. rewrite Hv.
    reflexivity.
  - intros content text m Hs Ht Hj Hc. rewrite Hs, Ht, Hj, Hc. reflexivity.
  - intros content text e Hs Ht Hj N1 N2. rewrite Hs, Ht, Hj.
    destruct e; try reflexivity; contradiction.
Qed.

(** X7.  A manifest that parses to a JSON value other than an object
    stops the build of its package with [TypeError]: on null, a boolean
    or a number the field check fails; a string or an array passes the
    field check and fails at the assignment of [files]. *)
Theorem manifest_not_object_aborts name w content text m :
  manifest_source name w = Some content ->
  read_text content = Ok text ->
  json_loads lib text = Ok m ->
  (forall d, m <> VDict d) ->
  exists w',
    build_package lib name w = (Raise TypeError, w')
    /\ prints_only w w'.
Proof.
  intros Hs Ht Hj Hm.
  destruct (build_package lib name w) as [r w'] eqn:E.
  exists w'. split; [|apply (quiet_build_package lib name w r w' E)].
  f_equal. unfold build_package in E. unfold bind at 1 in E.
  rewrite get_manifest_eq in E. cbv zeta in E. rewrite Hs, Ht, Hj in E.
  destruct m as [| b | z | s | l | d];
    try (exfalso; apply (Hm d); reflexivity);
    cbn [is_container] in E; try (inversion E; reflexivity);
    unfold bind at 1, lift at 1 in E; cbn [py_setitem] in E;
    inversion E; reflexivity.
Qed.

End Manifests.

Lemma manifest_errors_propagate_witness :
  get_manifest shapes_sample_lib "README.md" stray_entry_world
  = (Raise NotADirectoryError, say "[i] Reading manifest" stray_entry_world)
  /\ get_manifest shapes_sample_lib "foo" binary_manifest_world
     = (Raise UnicodeDecodeError,
        say "[i] Reading manifest" binary_manifest_world)
  /\ get_manifest shapes_sample_lib "foo" null_manifest_world
     = (Raise TypeError, say "[i] Reading manifest" null_manifest_world).
Proof.
  split; [|split].
  - apply (manifest_errors_propagate shapes_sample_lib "README.md"
             stray_entry_world).
    reflexivity.
  - apply (proj1 (proj2 (manifest_errors_propagate shapes_sample_lib "foo"
                           binary_manifest_world))
             [xff; xfe]); reflexivity.
  - apply (proj1 (proj2 (proj2 (manifest_errors_propagate shapes_sample_lib
                                  "foo" null_manifest_world)))
             (str_encode "null") "null" VNone); reflexivity.
Defined.

(** A regular file among the entries of [./packages] stops a build-mode
    run: the first package is built and its archive written, then the
    run exits with status 1 and no index is written. *)
Example stray_entry_run :
  fst (main shapes_sample_lib false stray_entry_world) = 1
  /\ map fst (pool_dir (snd (main shapes_sample_lib false stray_entry_world)))
     = ["foo.1.0.ccp"].
Proof. split; vm_compute; reflexivity. Qed.

Lemma manifest_not_object_aborts_witness :
  exists w',
    build_package shapes_sample_lib "foo" list_manifest_world
    = (Raise TypeError, w')
    /\ prints_only list_manifest_world w'.
Proof.
  apply (manifest_not_object_aborts shapes_sample_lib "foo" list_manifest_world
           (str_encode "[]") "[]" (VList [])); try reflexivity.
  intros d. discriminate.
Defined.

(** ** Archives *)

Lemma assoc_set_set {A} k (a b : A) l :
  assoc_set k a (assoc_set k b l) = assoc_set k a l.
Proof.
  induction l as [|[k' x] l IH]; cbn [assoc_set].
  - rewrite String.eqb_refl. reflexivity.
  - destruct (String.eqb k k') eqn:E; cbn [assoc_set]; rewrite E.
    + reflexivity.
    + rewrite IH. reflexivity.
Qed.

Lemma table_b2a_in v : In (Base64.table_b2a v) (Base64.pad :: Base64.alphabet).
Proof.
  unfold Base64.table_b2a.
  destruct (nth_in_or_default (Z.to_nat v) Base64.alphabet Base64.pad) as [H|H].
  - right. exact H.
  - left. symmetry. exact H.
Qed.

Lemma b2a_length data :
  List.length (Base64.b2a data) = (4 * ((List.length data + 2) / 3))%nat.
Proof.
  induction data as [| a | a b | a b c r IH] using Base64Facts.list_ind3;
    try reflexivity.
  cbn [Base64.b2a List.length]. rewrite IH.
  replace (S (S (S (List.length r))) + 2)%nat
    with (List.length r + 2 + 1 * 3)%nat by lia.
  rewrite Nat.div_add by discriminate. lia.
Qed.

Lemma b2a_alphabet data :
  Forall (fun c => In c (Base64.pad :: Base64.alphabet)) (Base64.b2a data).
Proof.
  induction data as [| a | a b | a b c r IH] using Base64Facts.list_ind3;
    cbn [Base64.b2a];
    repeat (first [ apply Forall_nil | exact IH | apply Forall_cons ]);
    first [ apply table_b2a_in | now left ].
Qed.

Section Archives.

Variable lib : pylib.

(** X11.  The archive [compress] makes of a record is base64 text: four
    characters for every three bytes of the compressed JSON (the last
    group padded), all of them letters, digits, [+], [/] or [=]. *)
Theorem compress_is_base64 r :
  List.length (compress lib r)
  = (4 * ((List.length (zlib_compress lib (str_encode (json_dumps lib r))) + 2)
          / 3))%nat
  /\ Forall (fun c => In c (Base64.pad :: Base64.alphabet)) (compress lib r).
Proof.
  unfold compress, Base64.b64encode. split;
    [apply b2a_length | apply b2a_alphabet].
Qed.

(** X12.  [build_and_write_package] never touches the source tree, and it
    changes the pool only when it returns a package: then exactly one
    file, the archive named after the package and the version of its
    record, is created or replaced, and it holds the encoded record whose
    digest is returned.  When it returns nothing or raises, the pool is
    as before. *)
Theorem archive_write_frame name w r w' :
  build_and_write_package lib name w = (r, w') ->
  packages_dir w' = packages_dir w
  /\ extends w w'
  /\ match r with
     | Ok (Some p) =>
       digest p = sha256_hexdigest lib (compress lib (manifest p))
       /\ exists v,
           py_getitem (manifest p) "version" = Ok v
           /\ pool_dir w'
              = assoc_set (archive_name name (fmt lib v))
                  (compress lib (manifest p)) (pool_dir w)
     | _ => pool_dir w' = pool_dir w
     end.
Proof.
  intros H. rewrite build_and_write_eq in H.
  destruct (build_package lib name (say ("Packaging " ++ name) w))
    as [r1 w1] eqn:B.
  assert (K : prints_only w w1).
  { apply (prints_only_trans _ (say ("Packaging " ++ name) w)).
    - split; [split; reflexivity | apply extends_say].
    - apply (quiet_build_package lib name _ r1 w1 B). }
  destruct K as [[K1 K2] K3].
  destruct r1 as [[pkg|]|e]; try (inversion H; subst; auto).
  destruct (py_getitem pkg "version") as [v|e] eqn:V;
    [|inversion H; subst; auto].
  cbv zeta in H.
  destruct (has_char NUL (archive_name name (fmt lib v)));
    [inversion H; subst; auto|].
  destruct (has_char "/" (archive_name name (fmt lib v)));
    [inversion H; subst; auto|].
  inversion H; subst. cbn [pool_store packages_dir pool_dir stdout manifest digest].
  split; [exact K1|]. split; [exact K3|]. split; [reflexivity|].
  exists v. split; [exact V|]. rewrite assoc_set_set, K2. reflexivity.
Qed.

(** X13.  A manifest without [version] stops the build of its package
    before the archive file is opened: [build_and_write_package] raises
    [KeyError] for [version] and has only printed. *)
Theorem missing_version_writes_nothing name w d m :
  manifest_object lib (packages_dir w) name d m ->
  sources_readable d ->
  dict_get (KStr "version") m = None ->
  exists w',
    build_and_write_package lib name w
    = (Raise (KeyError (KStr "version")), w')
    /\ prints_only w w'.
Proof.
  intros Hm Hs Hv. rewrite build_and_write_eq.
  destruct (build_package_ok lib name (say ("Packaging " ++ name) w) d m
              Hm Hs) as (r & w1 & Hb & [_ Hr] & Hq).
  rewrite Hb. cbn [py_getitem].
  rewrite (Hr (KStr "version") eq_refl), Hv.
  exists w1. split; [reflexivity|].
  apply (prints_only_trans _ (say ("Packaging " ++ name) w)).
  - split; [split; reflexivity | apply extends_say].
  - exact Hq.
Qed.

(** X14.  A manifest with a version and without [description] or
    [dependencies] has its archive written before the run stops: the
    iteration of the build loop raises [KeyError] for the missing key
    once the archive file is in the pool, so that the pool is left with
    an archive the index file does not list. *)
Theorem missing_description_leaves_archive name w d m v packages :
  manifest_object lib (packages_dir w) name d m ->
  sources_readable d ->
  dict_get (KStr "version") m = Some (VStr v) ->
  has_char NUL (archive_name name v) = false ->
  has_char "/" (archive_name name v) = false ->
  index_ok packages ->
  dict_get (KStr "description") m = None
  \/ dict_get (KStr "dependencies") m = None ->
  exists k w' data,
    (k = "description" \/ k = "dependencies")
    /\ build_step lib packages name w = (Raise (KeyError (KStr k)), w')
    /\ assoc (archive_name name v) (pool_dir w') = Some data
    /\ assoc INDEX_FILE (pool_dir w') = assoc INDEX_FILE (pool_dir w).
Proof.
  intros Hm Hs Hv Hn Hsl Hi Hk.
  assert (K : forall r w', build_step lib packages name w = (r, w') ->
                           index_kept w w')
    by (intros r w'; apply index_kept_build_step).
  unfold build_step in *. unfold bind at 1. unfold bind at 1 in K.
  rewrite build_and_write_eq in *.
  destruct (build_package_ok lib name (say ("Packaging " ++ name) w) d m
              Hm Hs) as (r & w1 & Hb & [_ Hr] & _).
  rewrite Hb in *. cbn [py_getitem] in *.
  rewrite (Hr (KStr "version") eq_refl), Hv in *. cbv zeta in *.
  cbn [fmt] in *. rewrite Hn, Hsl in *.
  set (p := {| manifest := VDict r;
               digest := sha256_hexdigest lib (compress lib (VDict r)) |}) in *.
  assert (Pv : py_getitem (manifest p) "version" = Ok (VStr v)).
  { cbn. rewrite (Hr (KStr "version") eq_refl), Hv. reflexivity. }
  assert (L : lacks_key p).
  { exists r. split; [reflexivity|].
    rewrite (Hr (KStr "description") eq_refl),
            (Hr (KStr "dependencies") eq_refl). exact Hk. }
  unfold lift in *.
  rewrite (build_upsert_str packages name p v Pv) in *.
  set (w2 := pool_store _ _ _) in *.
  assert (F : assoc (archive_name name v) (pool_dir w2)
              = Some (compress lib (VDict r)))
    by (subst w2; cbn [pool_store pool_dir]; apply assoc_set_same).
  destruct (repair_upsert_key_error packages name v p Hi L) as [E|E];
    rewrite E in *.
  - exists "description", w2, (compress lib (VDict r)).
    split; [now left|]. split; [reflexivity|]. split; [exact F|].
    apply (K _ _ eq_refl).
  - exists "dependencies", w2, (compress lib (VDict r)).
    split; [now right|]. split; [reflexivity|]. split; [exact F|].
    apply (K _ _ eq_refl).
Qed.

End Archives.

Lemma archive_write_frame_witness :
  packages_dir (snd (build_and_write_package sample_lib "foo" sample_world))
  = packages_dir sample_world
  /\ extends sample_world
       (snd (build_and_write_package sample_lib "foo" sample_world))
  /\ digest {| manifest := foo_record; digest := foo_archive_sha256 |}
     = sha256_hexdigest sample_lib (compress sample_lib foo_record)
  /\ exists v,
      py_getitem foo_record "version" = Ok v
      /\ pool_dir (snd (build_and_write_package sample_lib "foo" sample_world))
         = assoc_set (archive_name "foo" (fmt sample_lib v))
             (compress sample_lib foo_record) (pool_dir sample_world).
Proof.
  apply (archive_write_frame sample_lib "foo" sample_world
           (Ok (Some {| manifest := foo_record;
                        digest := foo_archive_sha256 |}))
           (snd (build_and_write_package sample_lib "foo" sample_world))).
  vm_compute. reflexivity.
Defined.

Lemma missing_version_writes_nothing_witness :
  exists w',
    build_and_write_package sample_lib "qux" incomplete_world
    = (Raise (KeyError (KStr "version")), w')
    /\ prints_only incomplete_world w'.
Proof.
  apply (missing_version_writes_nothing sample_lib "qux" incomplete_world
           {| manifest_file := Some (str_encode "{}"); source := Dir [] [] |}
           []).
  - split; [reflexivity|].
    exists (str_encode "{}"), "{}". repeat split; vm_compute; reflexivity.
  - reflexivity.
  - reflexivity.
Defined.

Lemma missing_description_leaves_archive_witness :
  exists k w' data,
    (k = "description" \/ k = "dependencies")
    /\ build_step nameless_lib (VDict []) "foo" nameless_world
       = (Raise (KeyError (KStr k)), w')
    /\ assoc (archive_name "foo" "1.0") (pool_dir w') = Some data
    /\ assoc INDEX_FILE (pool_dir w') = assoc INDEX_FILE (pool_dir nameless_world).
Proof.
  apply (missing_description_leaves_archive nameless_lib "foo" nameless_world
           nameless_dir nameless_manifest "1.0" (VDict [])).
  - split; [reflexivity|].
    exists (str_encode nameless_manifest_text), nameless_manifest_text.
    repeat split; vm_compute; reflexivity.
  - reflexivity.
  - reflexivity.
  - reflexivity.
  - reflexivity.
  - apply index_ok_empty.
  - left. reflexivity.
Defined.

Example nameless_run :
  fst (main nameless_lib false nameless_world) = 1
  /\ pool_dir (snd (main nameless_lib false nameless_world))
     = [ ("foo.1.0.ccp", str_encode nameless_archive_text) ]
  /\ stdout (snd (main nameless_lib false nameless_world))
     = [ "Packaging foo"; "[i] Reading manifest";
         field_warning "description"; field_warning "license";
         field_warning "authors"; field_warning "maintainers";
         "Error: 'description'"; REPAIR_HINT ].
Proof. repeat split; vm_compute; reflexivity. Qed.

(** ** Reading archives that are damaged *)

Lemma in_alphabet_plain b :
  in_alphabet b = true -> Byte.eqb b Base64.pad = false /\ plain b = true.
Proof.
  revert b.
  assert (H : forall b, implb (in_alphabet b)
                          (negb (Byte.eqb b Base64.pad) && plain b) = true)
    by (apply forall_bytes; vm_compute; reflexivity).
  intros b Hb. specialize (H b). rewrite Hb in H. cbn [implb] in H.
  apply andb_true_iff in H. destruct H as [H1 H2].
  apply negb_true_iff in H1. split; assumption.
Qed.

Lemma forallb_in_alphabet_plain l :
  forallb in_alphabet l = true -> forallb plain l = true.
Proof.
  induction l as [|b l IH]; cbn [forallb]; [reflexivity|].
  intros H. apply andb_true_iff in H. destruct H as [Hb Hl].
  rewrite (proj2 (in_alphabet_plain b Hb)), (IH Hl). reflexivity.
Qed.

(** Data characters alone, in a number that leaves a group of four
    unfinished, do not decode. *)
Lemma a2b_unfinished l :
  forall q lc,
    (q < 4)%nat ->
    forallb in_alphabet l = true ->
    ((q + List.length l) mod 4 <> 0)%nat ->
    Base64.a2b q lc 0 l = Raise BinasciiError.
Proof.
  induction l as [|ch r IH]; intros q lc Hq Ha Hm; cbn [Base64.a2b].
  - cbn [List.length] in Hm. rewrite Nat.add_0_r in Hm.
    rewrite Nat.mod_small in Hm by exact Hq.
    destruct q; [contradiction | reflexivity].
  - cbn [forallb] in Ha. apply andb_true_iff in Ha. destruct Ha as [Hc Ha].
    rewrite (proj1 (in_alphabet_plain ch Hc)).
    unfold in_alphabet in Hc.
    destruct (Base64.table_a2b ch) as [v|]; [|discriminate].
    cbn [List.length] in Hm.
    destruct q as [|[|[|q]]].
    + apply IH; [lia | exact Ha |].
      replace (1 + List.length r)%nat with (0 + S (List.length r))%nat by lia.
      exact Hm.
    + rewrite IH; [reflexivity | lia | exact Ha |].
      replace (2 + List.length r)%nat with (1 + S (List.length r))%nat by lia.
      exact Hm.
    + rewrite IH; [reflexivity | lia | exact Ha |].
      replace (3 + List.length r)%nat with (2 + S (List.length r))%nat by lia.
      exact Hm.
    + assert (q = 0%nat) by lia. subst q.
      rewrite IH; [reflexivity | lia | exact Ha |].
      replace (3 + S (List.length r))%nat
        with (List.length r + 1 * 4)%nat in Hm by lia.
      rewrite Nat.Div0.mod_add in Hm. exact Hm.
Qed.

Section Damaged.

Variable lib : pylib.

(** X15.  An archive file that is not text escapes the handlers of
    [read_package]: bytes that are not UTF-8 raise [UnicodeDecodeError]
    when the file is read, and a text with a character outside ASCII
    raises [ValueError] when it is decoded as base64.  Neither is caught,
    so the iteration of the repair loop raises too, and nothing is
    printed for the version. *)
Theorem archive_not_text_raises name version packages w content :
  assoc (archive_name name version) (pool_dir w) = Some content ->
  (utf8_valid content = false ->
   read_package lib name version w = (Raise UnicodeDecodeError, w)
   /\ repair_version lib name packages version w
      = (Raise UnicodeDecodeError, w))
  /\ (utf8_valid content = true ->
      forallb Base64.is_ascii (universal_newlines content) = false ->
      read_package lib name version w = (Raise ValueError, w)
      /\ repair_version lib name packages version w = (Raise ValueError, w)).
Proof.
  intros Ha. rewrite read_package_eq, repair_version_eq.
  unfold read_archive. rewrite Ha. unfold read_text. split.
  - intros Hv. rewrite Hv. cbn [obind skip_line]. split; reflexivity.
  - intros Hv Hn. rewrite Hv. cbn [obind].
    unfold decode_archive, Base64.b64decode.
    rewrite TextFacts.str_encode_of_bytes, Hn. cbn [obind skip_line].
    split; reflexivity.
Qed.

(** X16.  An archive file cut short inside a group of four characters is
    skipped: when the file holds only characters of the base64 alphabet
    and their number is not a multiple of four, [read_package] prints
    that the version is corrupted and returns nothing, whatever the
    compression and JSON libraries would do. *)
Theorem truncated_archive_skipped name version w content :
  assoc (archive_name name version) (pool_dir w) = Some content ->
  forallb in_alphabet content = true ->
  (List.length content mod 4 <> 0)%nat ->
  read_package lib name version w
  = (Ok None,
     say ("[!] Version " ++ version ++ " is invalid (corrupted)") w).
Proof.
  intros Ha Hc Hl. rewrite read_package_eq. unfold read_archive. rewrite Ha.
  pose proof (forallb_in_alphabet_plain content Hc) as Hp.
  unfold read_text.
  rewrite (TextFacts.utf8_valid_plain content Hp),
          (TextFacts.universal_newlines_plain content Hp).
  cbn [obind]. unfold decode_archive, Base64.b64decode.
  rewrite TextFacts.str_encode_of_bytes, (TextFacts.is_ascii_plain content Hp).
  rewrite (a2b_unfinished content 0 0); [reflexivity | lia | exact Hc | exact Hl].
Qed.

End Damaged.

Lemma archive_not_text_raises_witness :
  (utf8_valid [xff; xfe] = false ->
   read_package sample_lib "foo" "1.0" damaged_pool_world
   = (Raise UnicodeDecodeError, damaged_pool_world)
   /\ repair_version sample_lib "foo" (VDict []) "1.0" damaged_pool_world
      = (Raise UnicodeDecodeError, damaged_pool_world))
  /\ (utf8_valid [xff; xfe] = true ->
      forallb Base64.is_ascii (universal_newlines [xff; xfe]) = false ->
      read_package sample_lib "foo" "1.0" damaged_pool_world
      = (Raise ValueError, damaged_pool_world)
      /\ repair_version sample_lib "foo" (VDict []) "1.0" damaged_pool_world
         = (Raise ValueError, damaged_pool_world)).
Proof.
  apply (archive_not_text_raises sample_lib "foo" "1.0" (VDict [])
           damaged_pool_world [xff; xfe]).
  reflexivity.
Defined.

Lemma truncated_archive_skipped_witness :
  read_package sample_lib "foo" "1.2" damaged_pool_world
  = (Ok None,
     say ("[!] Version " ++ "1.2" ++ " is invalid (corrupted)")
         damaged_pool_world).
Proof.
  apply (truncated_archive_skipped sample_lib "foo" "1.2" damaged_pool_world
           (str_encode "eNotjE0Kgz")).
  - reflexivity.
  - reflexivity.
  - vm_compute. discriminate.
Defined.

Example damaged_pool_reads :
  read_package sample_lib "foo" "1.1" damaged_pool_world
  = (Raise ValueError, damaged_pool_world)
  /\ fst (main sample_lib true damaged_pool_world) = 1.
Proof. split; vm_compute; reflexivity. Qed.

(** ** Updating the index *)

Lemma upserted_latest e description version ventry :
  entry_ok e = true ->
  value_get (upserted e description version ventry) (KStr "latest_version")
  = Some (VStr version)
  /\ value_get (upserted e description version ventry) (KStr "description")
     = Some description.
Proof.
  unfold entry_ok, entry_versions, upserted.
  destruct e as [| | | | |ed]; try discriminate.
  destruct (dict_get (KStr "versions") ed) as [[| | | | |vs]|]; try discriminate.
  intros _. cbn [value_get]. split.
  - apply dict_get_set_str.
  - rewrite !dict_get_set_other by reflexivity. apply dict_get_set_str.
Qed.

Lemma upserted_consistent e description version ventry :
  entry_ok e = true ->
  entry_consistent (upserted e description version ventry).
Proof.
  intros He. pose proof He as Hv. unfold entry_ok in Hv.
  destruct (entry_versions e) as [vs|] eqn:Ev; [|discriminate].
  exists (dict_set (KStr version) ventry vs), version.
  split; [apply upserted_versions, Ev|].
  split; [apply (upserted_latest e description version ventry He)|].
  unfold dict_mem. rewrite dict_get_set_str. reflexivity.
Qed.

Lemma index_version_set d name e n u :
  index_version (VDict (dict_set (KStr name) e d)) n u
  = if String.eqb n name
    then match entry_versions e with
         | Some vs => dict_get (KStr u) vs
         | None => None
         end
    else index_version (VDict d) n u.
Proof.
  unfold index_version. cbn [value_get].
  rewrite dict_get_set_cases, key_eqb_str.
  destruct (String.eqb n name); reflexivity.
Qed.

Lemma index_version_entry d name u vs :
  entry_versions (entry_or_empty d name) = Some vs ->
  index_version (VDict d) name u = dict_get (KStr u) vs.
Proof.
  unfold index_version, entry_or_empty. cbn [value_get].
  destruct (dict_get (KStr name) d) as [e|].
  - intros ->. reflexivity.
  - cbn. intros H. inversion H. reflexivity.
Qed.

Section Upserts.

Variable lib : pylib.

(** X17.  An update of a well-formed index for version [v] of a package,
    by the build loop or by the repair loop, records the digest of the
    archive and the dependencies of its manifest under that version, and
    keeps every other version of that package and every version of every
    other package as it was. *)
Theorem upsert_keeps_other_versions d name p v packages' :
  index_ok (VDict d) ->
  (build_upsert (VDict d) name p = Ok packages'
   /\ py_getitem (manifest p) "version" = Ok (VStr v))
  \/ repair_upsert (VDict d) name v p = Ok packages' ->
  (exists dependencies,
      py_getitem (manifest p) "dependencies" = Ok dependencies
      /\ index_version packages' name v
         = Some (version_entry (digest p) dependencies))
  /\ (forall n u, n <> name \/ u <> v ->
                  index_version packages' n u = index_version (VDict d) n u).
Proof.
  intros Hi H.
  assert (R : repair_upsert (VDict d) name v p = Ok packages').
  { destruct H as [[H Hv]|H]; [|exact H].
    rewrite <- (build_upsert_str (VDict d) name p v Hv). exact H. }
  clear H.
  destruct (repair_upsert_steps _ _ _ _ _ R)
    as (p1 & p2 & p3 & ds & dp & _ & Pd & _ & Pp & _).
  rewrite (repair_upsert_eq d name v p ds dp Hi Pd Pp) in R.
  inversion R; subst packages'; clear R.
  pose proof (entry_or_empty_ok d name Hi) as He. unfold entry_ok in He.
  destruct (entry_versions (entry_or_empty d name)) as [vs|] eqn:Ev;
    [|discriminate].
  split.
  - exists dp. split; [exact Pp|].
    rewrite index_version_set, String.eqb_refl.
    rewrite (upserted_versions _ ds v _ vs Ev). apply dict_get_set_str.
  - intros n u Hnu. rewrite index_version_set.
    destruct (String.eqb n name) eqn:E; [|reflexivity].
    apply String.eqb_eq in E. subst n.
    rewrite (upserted_versions _ ds v _ vs Ev).
    rewrite (index_version_entry d name u vs Ev).
    apply dict_get_set_other. rewrite key_eqb_str.
    apply String.eqb_neq. destruct Hnu as [Hn|Hu]; congruence.
Qed.

(** X18.  An index that is not a JSON object cannot be updated: on null,
    a boolean, a number, a string or an array, the update of the build
    loop and that of the repair loop raise [TypeError] for every package
    whose record has a description. *)
Theorem upsert_on_non_object_index packages name p description :
  (forall d, packages <> VDict d) ->
  py_getitem (manifest p) "description" = Ok description ->
  build_upsert packages name p = Raise TypeError
  /\ forall v, repair_upsert packages name v p = Raise TypeError.
Proof.
  intros Hn Hd. unfold build_upsert, repair_upsert, ensure_entry.
  destruct packages as [| b | z | s | l | d];
    try (exfalso; apply (Hn d); reflexivity);
    cbn [py_contains obind]; try (split; reflexivity).
  - destruct (str_contains name s); cbn [py_setitem obind];
      [rewrite Hd; cbn [obind]|]; split; reflexivity.
  - destruct (existsb (is_str name) l); cbn [py_setitem obind];
      [rewrite Hd; cbn [obind]|]; split; reflexivity.
Qed.

(** X19.  An index entry that is not an object, or that is an object
    without [versions], stops the update of its package in build mode:
    with [TypeError] in the first case, with [KeyError] for [versions] in
    the second. *)
Theorem upsert_on_malformed_entry d name entry p description dependencies :
  dict_get (KStr name) d = Some entry ->
  py_getitem (manifest p) "description" = Ok description ->
  py_getitem (manifest p) "dependencies" = Ok dependencies ->
  ((forall e, entry <> VDict e) ->
   build_upsert (VDict d) name p = Raise TypeError)
  /\ (forall e, entry = VDict e -> dict_get (KStr "versions") e = None ->
      build_upsert (VDict d) name p = Raise (KeyError (KStr "versions"))).
Proof.
  intros He Hd Hp.
  assert (E1 : ensure_entry (VDict d) name = Ok (VDict d)).
  { unfold ensure_entry. cbn [py_contains obind]. unfold dict_mem.
    rewrite He. reflexivity. }
  unfold build_upsert. rewrite E1, Hd. cbn [obind].
  split.
  - intros Hn. unfold py_update at 1. cbn [py_getitem]. rewrite He.
    cbn [obind].
    destruct entry as [| b | z | s | l | e];
      try (exfalso; apply (Hn e); reflexivity); reflexivity.
  - intros e -> Hv. unfold py_update at 1. cbn [py_getitem]. rewrite He.
    cbn [py_setitem obind]. rewrite Hp. cbn [obind].
    unfold py_update at 1. cbn [py_getitem].
    rewrite dict_get_set_str. cbn [obind].
    unfold py_update at 1. cbn [py_getitem].
    rewrite dict_get_set_other by reflexivity. rewrite Hv. reflexivity.
Qed.

End Upserts.

Lemma upsert_keeps_other_versions_witness :
  (exists dependencies,
      py_getitem (manifest foo_package) "dependencies" = Ok dependencies
      /\ index_version index_foo "foo" "1.0"
         = Some (version_entry (digest foo_package) dependencies))
  /\ (forall n u, n <> "foo" \/ u <> "1.0" ->
                  index_version index_foo n u = index_version (VDict []) n u).
Proof.
  apply (upsert_keeps_other_versions [] "foo" foo_package "1.0" index_foo).
  - apply index_ok_empty.
  - left. split; reflexivity.
Defined.

Lemma upsert_on_non_object_index_witness :
  build_upsert (VList []) "foo" foo_package = Raise TypeError
  /\ forall v, repair_upsert (VList []) "foo" v foo_package = Raise TypeError.
Proof.
  apply (upsert_on_non_object_index (VList []) "foo" foo_package (VStr "d")).
  - intros d. discriminate.
  - reflexivity.
Defined.

Lemma upsert_on_malformed_entry_witness :
  ((forall e, VDict [] <> VDict e) ->
   build_upsert (VDict [(KStr "foo", VDict [])]) "foo" foo_package
   = Raise TypeError)
  /\ (forall e, VDict [] = VDict e -> dict_get (KStr "versions") e = None ->
      build_upsert (VDict [(KStr "foo", VDict [])]) "foo" foo_package
      = Raise (KeyError (KStr "versions"))).
Proof.
  apply (upsert_on_malformed_entry [(KStr "foo", VDict [])] "foo" (VDict [])
           foo_package (VStr "d") (VList [])); reflexivity.
Defined.

(** An index that is an array stops the build at its first package, whose
    archive is written all the same. *)
Example list_index_run :
  fst (main shapes_sample_lib false list_index_world) = 1
  /\ pool_dir (snd (main shapes_sample_lib false list_index_world))
     = [ ("index.json", str_encode "[]");
         ("foo.1.0.ccp", str_encode foo_archive_text) ].
Proof. split; vm_compute; reflexivity. Qed.

(** ** The index repair mode writes *)

Section Repaired.

Variable lib : pylib.
Variable pool : list (string * bytes).
Variable all : list (string * string).

Lemma index_pairs_consistent pairs :
  (forall nv, In nv pairs -> In nv all) ->
  forall d packages',
    index_ok (VDict d) ->
    (forall k e, dict_get k d = Some e ->
                 entry_consistent e
                 /\ exists n v, k = KStr n /\ In (n, v) all) ->
    index_pairs lib pool pairs (VDict d) = Ok packages' ->
    exists d',
      packages' = VDict d'
      /\ index_ok (VDict d')
      /\ forall k e, dict_get k d' = Some e ->
                     entry_consistent e
                     /\ exists n v, k = KStr n /\ In (n, v) all.
Proof.
  induction pairs as [|[n v] pairs IH]; intros Hall d packages' Hi Hc H;
    cbn [index_pairs] in H.
  - inversion H; subst. exists d. auto.
  - assert (Hall' : forall nv, In nv pairs -> In nv all)
      by (intros nv I; apply Hall; now right).
    destruct (read_archive lib pool n v) as [p|e].
    + apply obind_ok in H. destruct H as (p1 & R & H).
      destruct (repair_upsert_steps _ _ _ _ _ R)
        as (q1 & q2 & q3 & ds & dp & _ & Pd & _ & Pp & _).
      rewrite (repair_upsert_eq d n v p ds dp Hi Pd Pp) in R.
      inversion R; subst p1; clear R.
      pose proof (entry_or_empty_ok d n Hi) as He.
      apply (IH Hall'
               (dict_set (KStr n)
                  (upserted (entry_or_empty d n) ds v
                     (version_entry (digest p) dp)) d)
               packages'); [| |exact H].
      * apply index_ok_set; [exact Hi | apply upserted_ok, He].
      * intros k e G. rewrite dict_get_set_cases in G.
        destruct (key_eqb k (KStr n)) eqn:K.
        -- inversion G; subst e. split; [apply upserted_consistent, He|].
           exists n, v. split; [apply key_eqb_str_r, K|].
           apply Hall. now left.
        -- apply (Hc k e G).
    + destruct (skip_line v e); [|discriminate].
      apply (IH Hall' d packages' Hi Hc H).
Qed.

End Repaired.

Section RepairedIndex.

Variable lib : pylib.

(** X20.  The index a repair run writes is an object whose keys are
    names read off the files of the pool, and in each of its entries
    [versions] is an object and [latest_version] is the name of one of
    the versions it holds. *)
Theorem repaired_index_consistent w w' :
  main lib true w = (0, w') ->
  exists d,
    assoc INDEX_FILE (pool_dir w')
    = Some (write_text (json_dumps lib (VDict d)))
    /\ forall k e, dict_get k d = Some e ->
         entry_consistent e
         /\ exists n v, k = KStr n /\ In (n, v) (pool_archives w).
Proof.
  rewrite main_repair_eq. cbv zeta.
  destruct (fst (repair_run lib w)) as [packages|e] eqn:R; [|discriminate].
  intros H. inversion H; subst w'; clear H.
  unfold repair_run in R.
  destruct (group_all (pool_entries w) []) as [g|] eqn:G; [|discriminate].
  rewrite run_groups_pairs in R.
  destruct (group_all_perm _ _ _ G) as (pairs & Hp & Hperm).
  cbn [pairs_of flat_map app] in Hperm.
  destruct (index_pairs_consistent lib (pool_dir w) (pool_archives w)
              (pairs_of g)) with (d := @nil (key * value)) (packages' := packages)
    as (d' & -> & _ & Hc).
  - intros nv I. unfold pool_archives. rewrite Hp.
    apply (Permutation_in _ Hperm I).
  - apply index_ok_empty.
  - intros k e Hk. discriminate.
  - exact R.
  - exists d'. split; [|exact Hc].
    cbn [pool_store pool_dir]. apply assoc_set_same.
Qed.

End RepairedIndex.

Lemma repaired_index_consistent_witness :
  exists d,
    assoc INDEX_FILE (pool_dir (snd (main sample_lib true two_versions_world)))
    = Some (write_text (json_dumps sample_lib (VDict d)))
    /\ forall k e, dict_get k d = Some e ->
         entry_consistent e
         /\ exists n v, k = KStr n /\ In (n, v) (pool_archives two_versions_world).
Proof.
  apply (repaired_index_consistent sample_lib two_versions_world
           (snd (main sample_lib true two_versions_world))).
  vm_compute. reflexivity.
Defined.

(** ** Whole runs *)

Lemma in_keys_assoc_set {A} k (a : A) l f :
  In f (map fst l) -> In f (map fst (assoc_set k a l)).
Proof.
  induction l as [|[k' x] l IH]; cbn [assoc_set map fst In]; [contradiction|].
  destruct (String.eqb k k'); cbn [map fst In]; intuition.
Qed.

Lemma pool_grows_refl w : pool_grows w w.
Proof.
  split; [reflexivity|]. split; [auto|]. split; [auto | apply extends_refl].
Qed.

Lemma pool_grows_trans a b c : pool_grows a b -> pool_grows b c -> pool_grows a c.
Proof.
  intros (A1 & A2 & A3 & A4) (B1 & B2 & B3 & B4).
  split; [congruence|]. split; [auto|]. split.
  - intros f N1 N2. rewrite B3, A3; auto.
  - apply (extends_trans _ b); assumption.
Qed.

Lemma prints_only_pool_grows w w' : prints_only w w' -> pool_grows w w'.
Proof.
  intros [[P1 P2] P3]. split; [exact P1|]. rewrite P2.
  split; [auto|]. split; [auto | exact P3].
Qed.

Lemma pool_grows_store_index content w :
  pool_grows w (pool_store INDEX_FILE content w).
Proof.
  split; [reflexivity|]. cbn [pool_store pool_dir]. split.
  - intros f. apply in_keys_assoc_set.
  - split; [|apply same_files_extends_store].
    intros f N _. apply assoc_set_other. congruence.
Qed.

Lemma pool_grows_store_archive name version content w :
  pool_grows w (pool_store (archive_name name version) content w).
Proof.
  split; [reflexivity|]. cbn [pool_store pool_dir]. split.
  - intros f. apply in_keys_assoc_set.
  - split; [|apply same_files_extends_store].
    intros f _ N. apply assoc_set_other. intros E. apply (N name version).
    symmetry. exact E.
Qed.

Lemma filter_keys_assoc_set {A} (p : string -> bool) k (a : A) l :
  p k = false ->
  filter p (map fst (assoc_set k a l)) = filter p (map fst l).
Proof.
  intros Hk. induction l as [|[k' x] l IH]; cbn [assoc_set map fst filter].
  - rewrite Hk. reflexivity.
  - destruct (String.eqb k k') eqn:E; cbn [map fst filter].
    + reflexivity.
    + rewrite IH. reflexivity.
Qed.

Section Runs.

Variable lib : pylib.

Lemma pool_grows_build_and_write name :
  preserves pool_grows (build_and_write_package lib name).
Proof.
  intros w r w' H. rewrite build_and_write_eq in H.
  destruct (build_package lib name (say ("Packaging " ++ name) w))
    as [r1 w1] eqn:B.
  assert (K : pool_grows w w1).
  { apply prints_only_pool_grows.
    apply (prints_only_trans _ (say ("Packaging " ++ name) w)).
    - split; [split; reflexivity | apply extends_say].
    - apply (quiet_build_package lib name _ r1 w1 B). }
  destruct r1 as [[pkg|]|e]; try (inversion H; subst; exact K).
  destruct (py_getitem pkg "version") as [v|e];
    [|inversion H; subst; exact K].
  cbv zeta in H.
  destruct (has_char NUL (archive_name name (fmt lib v)));
    [inversion H; subst; exact K|].
  destruct (has_char "/" (archive_name name (fmt lib v)));
    [inversion H; subst; exact K|].
  inversion H; subst.
  eapply pool_grows_trans; [exact K|].
  eapply pool_grows_trans; apply pool_grows_store_archive.
Qed.

Lemma pool_grows_main_try repair : preserves pool_grows (main_try lib repair).
Proof.
  destruct repair.
  - intros w r w' H. unfold main_try in H.
    rewrite repair_package_index_eq in H. inversion H; subst.
    apply prints_only_pool_grows. split; [apply say_all_files|].
    eexists. apply say_all_stdout.
  - unfold main_try.
    apply (preserves_bind pool_grows pool_grows_trans).
    + intros w r w' H.
      destruct (assoc INDEX_FILE (pool_dir w)) as [content|];
        [destruct (read_text content) as [text|];
         [destruct (json_loads lib text)|]|];
        inversion H; subst; apply pool_grows_refl.
    + intros packages.
      apply (preserves_bind pool_grows pool_grows_trans).
      * intros w r w' H. inversion H; subst. apply pool_grows_refl.
      * intros names.
        apply (preserves_for_each pool_grows pool_grows_refl pool_grows_trans).
        intros s x. unfold build_step.
        apply (preserves_bind pool_grows pool_grows_trans).
        -- apply pool_grows_build_and_write.
        -- intros [p|].
           ++ apply preserves_lift, pool_grows_refl.
           ++ apply preserves_ret, pool_grows_refl.
Qed.

(** X21.  When the prior index cannot be loaded in build mode (the file
    is not UTF-8 or is not JSON), the run stops before any package is
    looked at: it prints the error and the hint, exits with status 1, and
    the files are all as they were. *)
Theorem unreadable_index_stops_build w e :
  prior_index lib w = Raise e ->
  main lib false w
  = (1, say REPAIR_HINT (say ("Error: " ++ exn_str lib e) w)).
Proof.
  intros H. unfold main, main_try. unfold bind at 1. unfold prior_index in H.
  destruct (assoc INDEX_FILE (pool_dir w)) as [content|]; [|discriminate].
  destruct (read_text content) as [text|e1]; cbn [obind] in H.
  - destruct (json_loads lib text); [discriminate|].
    inversion H; subst. reflexivity.
  - inversion H; subst. reflexivity.
Qed.

(** X24.  Neither mode ever changes the source tree or removes a file of
    the pool, and a file of the pool that is neither the index nor named
    as an archive keeps its content; standard output only grows. *)
Theorem run_keeps_sources_and_files repair w :
  pool_grows w (snd (main lib repair w)).
Proof.
  unfold main.
  destruct (main_try lib repair w) as [[packages|e] w1] eqn:T;
    pose proof (pool_grows_main_try repair w _ w1 T) as K.
  - cbn [print bind pool_open_w pool_write has_char snd].
    apply (pool_grows_trans _ w1); [exact K|].
    apply (pool_grows_trans _ (say "Writing index" w1)).
    + apply prints_only_pool_grows.
      split; [split; reflexivity | apply extends_say].
    + eapply pool_grows_trans; apply pool_grows_store_index.
  - cbn [print bind snd].
    apply (pool_grows_trans _ w1); [exact K|].
    apply prints_only_pool_grows.
    apply (prints_only_trans _ (say ("Error: " ++ exn_str lib e) w1));
      split; try (split; reflexivity); apply extends_say.
Qed.

Lemma read_archive_index_set pool content n v :
  read_archive lib (assoc_set INDEX_FILE content pool) n v
  = read_archive lib pool n v.
Proof.
  unfold read_archive. rewrite assoc_set_other; [reflexivity|].
  intros E. apply (archive_name_not_index n v). symmetry. exact E.
Qed.

Lemma run_versions_ext pool pool' name versions :
  (forall n v, read_archive lib pool' n v = read_archive lib pool n v) ->
  forall packages,
    run_versions lib pool' name versions packages
    = run_versions lib pool name versions packages.
Proof.
  intros He. induction versions as [|v r IH]; intros packages;
    cbn [run_versions]; [reflexivity|].
  rewrite He. destruct (read_archive lib pool name v) as [p|e].
  - destruct (repair_upsert packages name v p); [rewrite IH|]; reflexivity.
  - destruct (skip_line v e); [rewrite IH|]; reflexivity.
Qed.

Lemma run_groups_ext pool pool' groups :
  (forall n v, read_archive lib pool' n v = read_archive lib pool n v) ->
  forall packages,
    run_groups lib pool' groups packages = run_groups lib pool groups packages.
Proof.
  intros He. induction groups as [|[name versions] r IH]; intros packages;
    cbn [run_groups]; [reflexivity|].
  rewrite (run_versions_ext pool pool' name versions He).
  destruct (run_versions lib pool name versions packages) as [[p|e] lines];
    [rewrite IH|]; reflexivity.
Qed.

(** X22.  Repair mode reads neither the source tree nor the index file:
    with another source tree and another content of the index file (or
    an index file where there was none), the run exits with the same
    status and prints the same lines, and when it succeeds it leaves the
    same pool. *)
Theorem repair_ignores_index_and_sources w content pkgs :
  let w2 := {| packages_dir := pkgs;
               pool_dir := assoc_set INDEX_FILE content (pool_dir w);
               stdout := stdout w |} in
  fst (main lib true w2) = fst (main lib true w)
  /\ stdout (snd (main lib true w2)) = stdout (snd (main lib true w))
  /\ packages_dir (snd (main lib true w2)) = pkgs
  /\ (fst (main lib true w) = 0 ->
      pool_dir (snd (main lib true w2)) = pool_dir (snd (main lib true w))).
Proof.
  intros w2. rewrite !main_repair_eq. cbv zeta.
  assert (R : repair_run lib w2 = repair_run lib w).
  { unfold repair_run, pool_entries. subst w2. cbn [pool_dir].
    rewrite filter_keys_assoc_set by reflexivity.
    destruct (group_all _ []) as [g|]; [|reflexivity].
    apply run_groups_ext. intros n v. apply read_archive_index_set. }
  rewrite R.
  destruct (repair_run lib w) as [[packages|e] lines]; cbn [fst snd].
  - split; [reflexivity|]. cbn [pool_store stdout packages_dir pool_dir say].
    rewrite !say_all_stdout.
    split; [reflexivity|].
    split; [rewrite (proj1 (say_all_files _ _)); reflexivity|].
    intros _. rewrite !say_all_pool. subst w2. cbn [pool_dir].
    rewrite !assoc_set_set. reflexivity.
  - split; [reflexivity|]. cbn [stdout packages_dir say].
    rewrite !say_all_stdout.
    split; [reflexivity|].
    split; [rewrite (proj1 (say_all_files _ _)); reflexivity|].
    intros H. discriminate.
Qed.

(** X23.  Runs on empty input still write the index.  Repair mode over a
    pool without archives replaces whatever index there was by the empty
    object; build mode over an empty source tree writes the prior index
    back, as [json.dumps] prints it.  Both print only the line
    announcing the writing and exit with status 0. *)
Theorem runs_without_input w :
  (pool_entries w = [] ->
   main lib true w
   = (0, pool_store INDEX_FILE (write_text (json_dumps lib (VDict [])))
           (pool_store INDEX_FILE [] (say "Writing index" w))))
  /\ (packages_dir w = [] ->
      forall prior,
        prior_index lib w = Ok prior ->
        main lib false w
        = (0, pool_store INDEX_FILE (write_text (json_dumps lib prior))
                (pool_store INDEX_FILE [] (say "Writing index" w)))).
Proof.
  split.
  - intros H. rewrite main_repair_eq. unfold repair_run. rewrite H.
    reflexivity.
  - intros H prior Hp. unfold main, main_try. unfold bind at 1.
    unfold prior_index in Hp.
    destruct (assoc INDEX_FILE (pool_dir w)) as [content|].
    + destruct (read_text content) as [text|e1]; cbn [obind] in Hp;
        [|discriminate].
      destruct (json_loads lib text); [|discriminate].
      inversion Hp; subst. unfold bind at 1, get_source_packages at 1.
      rewrite H. reflexivity.
    + inversion Hp; subst. unfold bind at 1, get_source_packages at 1.
      rewrite H. reflexivity.
Qed.

End Runs.

Lemma unreadable_index_stops_build_witness :
  main sample_lib false broken_index_world
  = (1, say REPAIR_HINT
          (say ("Error: " ++ exn_str sample_lib JSONDecodeError)
               broken_index_world)).
Proof.
  apply (unreadable_index_stops_build sample_lib broken_index_world
           JSONDecodeError).
  reflexivity.
Defined.

(** A file of the pool that is no archive is kept by a build. *)
Example noted_pool_run :
  fst (main sample_lib false noted_pool_world) = 0
  /\ map fst (pool_dir (snd (main sample_lib false noted_pool_world)))
     = ["NOTES"; "index.json"; "foo.1.0.ccp"]
  /\ assoc "NOTES" (pool_dir (snd (main sample_lib false noted_pool_world)))
     = Some (str_encode "keep").
Proof. repeat split; vm_compute; reflexivity. Qed.

(** ** Build mode as a function of the source tree *)

Section BuildView.

Variable lib : pylib.

Lemma files_loop_result name paths :
  forall s w,
    fst (for_each paths (build_package_file lib name) s w)
    = files_fold lib (packages_dir w) name paths s.
Proof.
  induction paths as [|p paths IH]; intros s w; cbn [for_each files_fold];
    [reflexivity|].
  unfold bind at 1. rewrite build_package_file_eq.
  destruct (source_text (packages_dir w) name p) as [text|e]; cbn [obind];
    [|reflexivity].
  destruct (py_update s "files" _) as [s'|e]; cbn [obind]; [|reflexivity].
  rewrite IH. reflexivity.
Qed.

Lemma build_package_result name w :
  fst (build_package lib name w) = built_record lib (packages_dir w) name.
Proof.
  unfold build_package, built_record. unfold bind at 1.
  rewrite get_manifest_eq. cbv zeta. unfold manifest_source, regular_file.
  destruct (assoc name (packages_dir w)) as [[c|d]|]; try reflexivity.
  destruct (manifest_file d) as [content|]; [|reflexivity].
  destruct (read_text content) as [text|e]; [|reflexivity].
  destruct (json_loads lib text) as [m|e];
    [|destruct (manifest_handler e); reflexivity].
  destruct (is_container m); [|reflexivity].
  unfold bind at 1, lift at 1.
  destruct (py_setitem m "files" (VDict [])) as [m1|e]; cbn [obind];
    [|reflexivity].
  unfold bind at 1. rewrite get_package_files_eq.
  set (w1 := say_all _ _).
  assert (P1 : packages_dir w1 = packages_dir w)
    by (subst w1; rewrite (proj1 (say_all_files _ _)); reflexivity).
  rewrite P1. unfold bind at 1.
  pose proof (files_loop_result name (package_paths (packages_dir w) name)
                m1 w1) as F.
  rewrite P1 in F.
  destruct (for_each _ _ m1 w1) as [[r|e] w2]; cbn [fst] in F; rewrite <- F;
    reflexivity.
Qed.

(** [build_and_write_package], its result and its effect on the files,
    from the source tree. *)
Lemma build_and_write_view name w :
  exists w1,
    build_and_write_package lib name w
    = (let? o := built_package lib (packages_dir w) name in
       Ok (option_map fst o),
       w1)
    /\ packages_dir w1 = packages_dir w
    /\ pool_dir w1
       = match built_package lib (packages_dir w) name with
         | Ok (Some (p, fname)) =>
           assoc_set fname (compress lib (manifest p)) (pool_dir w)
         | _ => pool_dir w
         end.
Proof.
  rewrite build_and_write_eq. unfold built_package.
  pose proof (build_package_result name (say ("Packaging " ++ name) w)) as R.
  cbn [say packages_dir] in R. rewrite <- R.
  destruct (build_package lib name (say ("Packaging " ++ name) w))
    as [r1 w1] eqn:B.
  pose proof (quiet_build_package lib name _ r1 w1 B) as [[Q1 Q2] _].
  cbn [say packages_dir pool_dir] in Q1, Q2. cbn [fst].
  destruct r1 as [[pkg|]|e]; cbn [obind option_map];
    try solve [exists w1; auto].
  destruct (py_getitem pkg "version") as [v|e]; cbn [obind];
    [|solve [exists w1; auto]].
  cbv zeta.
  destruct (has_char NUL (archive_name name (fmt lib v)));
    [solve [exists w1; auto]|].
  destruct (has_char "/" (archive_name name (fmt lib v)));
    [solve [exists w1; auto]|].
  cbn [obind option_map fst]. eexists. split; [reflexivity|].
  cbn [pool_store packages_dir pool_dir manifest].
  split; [exact Q1|]. rewrite assoc_set_set, Q2. reflexivity.
Qed.

Lemma build_step_view packages name w :
  exists w1,
    build_step lib packages name w
    = (match built_package lib (packages_dir w) name with
       | Ok None => Ok packages
       | Ok (Some (p, _)) => build_upsert packages name p
       | Raise e => Raise e
       end, w1)
    /\ packages_dir w1 = packages_dir w
    /\ pool_dir w1
       = match built_package lib (packages_dir w) name with
         | Ok (Some (p, fname)) =>
           assoc_set fname (compress lib (manifest p)) (pool_dir w)
         | _ => pool_dir w
         end.
Proof.
  destruct (build_and_write_view name w) as (w1 & E & P1 & P2).
  exists w1. unfold build_step. unfold bind at 1. rewrite E.
  destruct (built_package lib (packages_dir w) name) as [[[p fname]|]|e];
    cbn [obind option_map fst]; auto.
Qed.

(** A loop of the build that completes: its index is the fold of the
    updates, its pool the pool with the archives written. *)
Lemma build_loop_success pkgs names :
  forall packages w packages' w',
    packages_dir w = pkgs ->
    for_each names (build_step lib) packages w = (Ok packages', w') ->
    index_fold (upserts_of (built_all lib pkgs names)) packages = Ok packages'
    /\ pool_dir w'
       = store_all (archives_of lib (built_all lib pkgs names)) (pool_dir w)
    /\ packages_dir w' = pkgs
    /\ forall n, In n names -> exists o, built_package lib pkgs n = Ok o.
Proof.
  induction names as [|x names IH]; intros packages w packages' w' Hw H.
  - cbn [for_each] in H. apply ret_inv in H. destruct H as [H ->].
    inversion H; subst. cbn. repeat split; auto. intros n [].
  - cbn [for_each] in H. apply bind_ok in H. destruct H as (p1 & w1 & Hs & H).
    destruct (build_step_view packages x w) as (w1' & E & P1 & P2).
    rewrite E in Hs. rewrite Hw in *. inversion Hs as [[Hr Hw1]].
    subst w1'. clear Hs E.
    destruct (IH p1 w1 packages' w' P1 H) as (I1 & I2 & I3 & I4).
    unfold built_all in *. cbn [flat_map].
    destruct (built_package lib pkgs x) as [[[p fname]|]|e] eqn:B;
      [| |discriminate].
    + cbn [app upserts_of archives_of map fst snd index_fold store_all].
      rewrite Hr. cbn [obind]. rewrite <- P2.
      repeat split; auto.
      intros n [<-|I]; [eauto | auto].
    + inversion Hr; subst p1. cbn [app]. rewrite <- P2.
      repeat split; auto.
      intros n [<-|I]; [eauto | auto].
Qed.

(** Conversely, the loop completes when every package gives a result and
    the fold of the updates succeeds. *)
Lemma build_loop_replay pkgs names :
  forall packages w packages',
    packages_dir w = pkgs ->
    (forall n, In n names -> exists o, built_package lib pkgs n = Ok o) ->
    index_fold (upserts_of (built_all lib pkgs names)) packages = Ok packages' ->
    exists w',
      for_each names (build_step lib) packages w = (Ok packages', w')
      /\ pool_dir w'
         = store_all (archives_of lib (built_all lib pkgs names)) (pool_dir w)
      /\ packages_dir w' = pkgs.
Proof.
  induction names as [|x names IH]; intros packages w packages' Hw Hall H.
  - cbn in H. inversion H; subst. exists w. cbn. auto.
  - cbn [for_each].
    destruct (build_step_view packages x w) as (w1 & E & P1 & P2).
    rewrite Hw in *. unfold bind at 1. rewrite E.
    destruct (Hall x (or_introl eq_refl)) as [o Ho].
    unfold built_all in *. cbn [flat_map] in *. rewrite Ho in *.
    assert (Hall' : forall n, In n names ->
                              exists o, built_package lib pkgs n = Ok o)
      by (intros n I; apply Hall; now right).
    destruct o as [[p fname]|].
    + cbn [app upserts_of archives_of map fst snd index_fold store_all] in *.
      apply obind_ok in H. destruct H as (p1 & U & H). rewrite U.
      destruct (IH p1 w1 packages' P1 Hall' H) as (w' & L & Q1 & Q2).
      exists w'. rewrite P2 in Q1. auto.
    + cbn [app] in *.
      destruct (IH packages w1 packages' P1 Hall' H) as (w' & L & Q1 & Q2).
      exists w'. rewrite P2 in Q1. auto.
Qed.

End BuildView.

(** ** Building twice *)

Lemma dict_set_same s x d :
  dict_get (KStr s) d = Some x -> dict_set (KStr s) x d = d.
Proof.
  induction d as [|[k v] d IH]; cbn [dict_get dict_set]; [discriminate|].
  destruct (key_eqb (KStr s) k).
  - intros H. inversion H; subst. reflexivity.
  - intros H. rewrite (IH H). reflexivity.
Qed.

Lemma upserted_idem e ds v ve :
  entry_ok e = true ->
  upserted (upserted e ds v ve) ds v ve = upserted e ds v ve.
Proof.
  unfold entry_ok, entry_versions.
  destruct e as [| | | | |ed]; try discriminate.
  destruct (dict_get (KStr "versions") ed) as [[| | | | |vs]|] eqn:Ev;
    try discriminate.
  intros _. unfold upserted at 2 3. rewrite Ev.
  set (ed1 := dict_set (KStr "description") ds ed).
  set (vs' := dict_set (KStr v) ve vs).
  set (ed2 := dict_set (KStr "versions") (VDict vs') ed1).
  set (ed3 := dict_set (KStr "latest_version") (VStr v) ed2).
  assert (G1 : dict_get (KStr "versions") ed3 = Some (VDict vs')).
  { subst ed3. rewrite dict_get_set_other by reflexivity.
    subst ed2. apply dict_get_set_str. }
  assert (G2 : dict_get (KStr "description") ed3 = Some ds).
  { subst ed3 ed2. rewrite !dict_get_set_other by reflexivity.
    subst ed1. apply dict_get_set_str. }
  assert (G3 : dict_get (KStr "latest_version") ed3 = Some (VStr v))
    by (subst ed3; apply dict_get_set_str).
  unfold upserted. rewrite G1. unfold vs' at 1. rewrite dict_set_set.
  fold vs'. rewrite (dict_set_same "description" ds ed3 G2).
  rewrite (dict_set_same "versions" (VDict vs') ed3 G1).
  rewrite (dict_set_same "latest_version" (VStr v) ed3 G3). reflexivity.
Qed.

Lemma entry_or_empty_some d n e :
  dict_get (KStr n) d = Some e -> entry_or_empty d n = e.
Proof. unfold entry_or_empty. intros ->. reflexivity. Qed.

(** The update of the build loop on a well-formed index, for a version
    that is a string. *)
Lemma build_upsert_eq d n p v packages' :
  index_ok (VDict d) ->
  py_getitem (manifest p) "version" = Ok (VStr v) ->
  build_upsert (VDict d) n p = Ok packages' ->
  exists ds dp,
    py_getitem (manifest p) "description" = Ok ds
    /\ py_getitem (manifest p) "dependencies" = Ok dp
    /\ packages'
       = VDict (dict_set (KStr n)
                  (upserted (entry_or_empty d n) ds v
                     (version_entry (digest p) dp)) d).
Proof.
  intros Hi Hv H. rewrite (build_upsert_str (VDict d) n p v Hv) in H.
  destruct (repair_upsert_steps _ _ _ _ _ H)
    as (q1 & q2 & q3 & ds & dp & _ & Pd & _ & Pp & _).
  rewrite (repair_upsert_eq d n v p ds dp Hi Pd Pp) in H.
  inversion H; subst. exists ds, dp. auto.
Qed.

Lemma settled_after d n p v packages' :
  index_ok (VDict d) ->
  py_getitem (manifest p) "version" = Ok (VStr v) ->
  build_upsert (VDict d) n p = Ok packages' ->
  exists d', packages' = VDict d' /\ index_ok (VDict d') /\ settled d' n p.
Proof.
  intros Hi Hv H.
  destruct (build_upsert_eq d n p v packages' Hi Hv H) as (ds & dp & Pd & Pp & ->).
  pose proof (entry_or_empty_ok d n Hi) as He.
  eexists. split; [reflexivity|]. split.
  - apply index_ok_set; [exact Hi | apply upserted_ok, He].
  - exists (upserted (entry_or_empty d n) ds v (version_entry (digest p) dp)),
      ds, dp, v.
    repeat split; auto.
    + apply dict_get_set_str.
    + apply upserted_ok, He.
    + apply upserted_idem, He.
Qed.

Lemma settled_kept d n p n' p' v' packages' :
  index_ok (VDict d) ->
  settled d n p ->
  (n' = n -> p' = p) ->
  py_getitem (manifest p') "version" = Ok (VStr v') ->
  build_upsert (VDict d) n' p' = Ok packages' ->
  exists d', packages' = VDict d' /\ index_ok (VDict d') /\ settled d' n p.
Proof.
  intros Hi (e & ds & dp & v & Pd & Pp & Pv & Ge & Oe & Ue) Hf Hv' H.
  destruct (build_upsert_eq d n' p' v' packages' Hi Hv' H)
    as (ds' & dp' & Pd' & Pp' & ->).
  pose proof (entry_or_empty_ok d n' Hi) as He.
  eexists. split; [reflexivity|]. split.
  - apply index_ok_set; [exact Hi | apply upserted_ok, He].
  - exists e, ds, dp, v. repeat split; auto.
    destruct (String.eqb n n') eqn:E.
    + apply String.eqb_eq in E. subst n'. specialize (Hf eq_refl). subst p'.
      rewrite dict_get_set_str. f_equal.
      rewrite (entry_or_empty_some d n e Ge).
      assert (ds' = ds) by congruence. assert (dp' = dp) by congruence.
      assert (v' = v) by congruence. subst. exact Ue.
    + rewrite dict_get_set_other; [exact Ge|].
      rewrite key_eqb_str. exact E.
Qed.

Lemma settled_replay d n p :
  index_ok (VDict d) -> settled d n p ->
  build_upsert (VDict d) n p = Ok (VDict d).
Proof.
  intros Hi (e & ds & dp & v & Pd & Pp & Pv & Ge & Oe & Ue).
  rewrite (build_upsert_str (VDict d) n p v Pv).
  rewrite (repair_upsert_eq d n v p ds dp Hi Pd Pp).
  rewrite (entry_or_empty_some d n e Ge), Ue.
  rewrite (dict_set_same n e d Ge). reflexivity.
Qed.

Lemma index_fold_keeps l :
  forall d n p packages',
    index_ok (VDict d) ->
    settled d n p ->
    (forall p', In (n, p') l -> p' = p) ->
    (forall n' p', In (n', p') l ->
                   exists v, py_getitem (manifest p') "version" = Ok (VStr v)) ->
    index_fold l (VDict d) = Ok packages' ->
    exists d', packages' = VDict d' /\ index_ok (VDict d') /\ settled d' n p.
Proof.
  induction l as [|[n1 p1] l IH]; intros d n p packages' Hi Hs Hf Hv H;
    cbn [index_fold] in H.
  - inversion H; subst. exists d. auto.
  - apply obind_ok in H. destruct H as (q & U & H).
    destruct (Hv n1 p1 (or_introl eq_refl)) as [v1 Hv1].
    destruct (settled_kept d n p n1 p1 v1 q Hi Hs) as (d1 & -> & Hi1 & Hs1);
      [|exact Hv1|exact U|].
    + intros ->. apply Hf. now left.
    + apply (IH d1 n p packages' Hi1 Hs1); [| |exact H].
      * intros p' I. apply Hf. now right.
      * intros n' p' I. apply (Hv n' p'). now right.
Qed.

Lemma index_fold_settles l :
  forall d packages',
    index_ok (VDict d) ->
    (forall n p p', In (n, p) l -> In (n, p') l -> p' = p) ->
    (forall n p, In (n, p) l ->
                 exists v, py_getitem (manifest p) "version" = Ok (VStr v)) ->
    index_fold l (VDict d) = Ok packages' ->
    exists d',
      packages' = VDict d' /\ index_ok (VDict d')
      /\ forall n p, In (n, p) l -> settled d' n p.
Proof.
  induction l as [|[n1 p1] l IH]; intros d packages' Hi Hf Hv H;
    cbn [index_fold] in H.
  - inversion H; subst. exists d. split; [reflexivity|]. split; [exact Hi|].
    intros n p [].
  - apply obind_ok in H. destruct H as (q & U & H).
    destruct (Hv n1 p1 (or_introl eq_refl)) as [v1 Hv1].
    destruct (settled_after d n1 p1 v1 q Hi Hv1 U) as (d1 & -> & Hi1 & Hs1).
    assert (Hf' : forall n p p', In (n, p) l -> In (n, p') l -> p' = p)
      by (intros n p p' I I'; apply (Hf n); now right).
    assert (Hv' : forall n p, In (n, p) l ->
                    exists v, py_getitem (manifest p) "version" = Ok (VStr v))
      by (intros n p I; apply (Hv n p); now right).
    destruct (IH d1 packages' Hi1 Hf' Hv' H) as (d' & -> & Hi' & Hall).
    exists d'. split; [reflexivity|]. split; [exact Hi'|].
    intros n p [E|I]; [|apply Hall, I].
    inversion E; subst n1 p1.
    destruct (index_fold_keeps l d1 n p (VDict d') Hi1 Hs1) as (d2 & E2 & _ & S2);
      [|exact Hv'|exact H|].
    + intros p' I. apply (Hf n p p'); [now left | now right].
    + inversion E2; subst. exact S2.
Qed.

Lemma index_fold_replay l :
  forall d,
    index_ok (VDict d) ->
    (forall n p, In (n, p) l -> settled d n p) ->
    index_fold l (VDict d) = Ok (VDict d).
Proof.
  induction l as [|[n p] l IH]; intros d Hi Hs; cbn [index_fold];
    [reflexivity|].
  rewrite (settled_replay d n p Hi (Hs n p (or_introl eq_refl))).
  cbn [obind]. apply IH; [exact Hi|]. intros n' p' I. apply Hs. now right.
Qed.

(** *** Writing the same files again *)

Lemma assoc_assoc_set {A} k f (c : A) l :
  assoc k (assoc_set f c l) = if String.eqb k f then Some c else assoc k l.
Proof.
  destruct (String.eqb k f) eqn:E.
  - apply String.eqb_eq in E. subst. apply assoc_set_same.
  - apply assoc_set_other. intros ->. rewrite String.eqb_refl in E.
    discriminate.
Qed.

Lemma assoc_app {A} k (l1 l2 : list (string * A)) :
  assoc k (l1 ++ l2) = match assoc k l1 with
                       | Some a => Some a
                       | None => assoc k l2
                       end.
Proof.
  induction l1 as [|[k' a] l1 IH]; cbn [app assoc]; [reflexivity|].
  destruct (String.eqb k k'); [reflexivity | exact IH].
Qed.

Lemma assoc_store_all writes :
  forall k pool,
    assoc k (store_all writes pool)
    = match assoc k (rev writes) with
      | Some c => Some c
      | None => assoc k pool
      end.
Proof.
  induction writes as [|[f c] r IH]; intros k pool; cbn [store_all rev];
    [reflexivity|].
  rewrite IH, assoc_app, assoc_assoc_set. cbn [assoc].
  destruct (assoc k (rev r)); [reflexivity|].
  destruct (String.eqb k f); reflexivity.
Qed.

Lemma keys_assoc_set_present {A} k (a : A) l :
  In k (map fst l) -> map fst (assoc_set k a l) = map fst l.
Proof.
  induction l as [|[k' x] l IH]; cbn [assoc_set map fst In]; [contradiction|].
  destruct (String.eqb k k') eqn:E; cbn [map fst]; [reflexivity|].
  intros [H|H].
  - subst k'. rewrite String.eqb_refl in E. discriminate.
  - rewrite (IH H). reflexivity.
Qed.

Lemma keys_assoc_set_absent {A} k (a : A) l :
  ~ In k (map fst l) -> map fst (assoc_set k a l) = app (map fst l) [k].
Proof.
  induction l as [|[k' x] l IH]; cbn [assoc_set map fst In app]; [reflexivity|].
  intros H. destruct (String.eqb k k') eqn:E.
  - apply String.eqb_eq in E. subst k'. exfalso. apply H. now left.
  - cbn [map fst]. rewrite IH; [reflexivity|]. intros I. apply H. now right.
Qed.

Lemma nodup_assoc_set {A} k (a : A) l :
  NoDup (map fst l) -> NoDup (map fst (assoc_set k a l)).
Proof.
  intros H. destruct (in_dec string_dec k (map fst l)) as [I|N].
  - rewrite keys_assoc_set_present by exact I. exact H.
  - rewrite keys_assoc_set_absent by exact N.
    apply NoDup_app; [exact H | constructor; [intros [] | constructor] |].
    intros x Hx [<-|[]]. contradiction.
Qed.

Lemma nodup_store_all writes :
  forall pool, NoDup (map fst pool) -> NoDup (map fst (store_all writes pool)).
Proof.
  induction writes as [|[f c] r IH]; intros pool H; cbn [store_all];
    [exact H|].
  apply IH, nodup_assoc_set, H.
Qed.

Lemma keys_store_all_present writes :
  forall pool,
    (forall f, In f (map fst writes) -> In f (map fst pool)) ->
    map fst (store_all writes pool) = map fst pool.
Proof.
  induction writes as [|[f c] r IH]; intros pool H; cbn [store_all];
    [reflexivity|].
  assert (If : In f (map fst pool)) by (apply H; now left).
  rewrite IH.
  - apply keys_assoc_set_present, If.
  - intros g I. rewrite keys_assoc_set_present by exact If.
    apply H. now right.
Qed.

Lemma in_keys_store_all writes :
  forall pool f,
    In f (map fst writes) \/ In f (map fst pool) ->
    In f (map fst (store_all writes pool)).
Proof.
  induction writes as [|[g c] r IH]; intros pool f H; cbn [store_all].
  - destruct H as [[]|H]. exact H.
  - apply IH. cbn [map fst In] in H. destruct H as [[<-|H]|H].
    + right. destruct (in_dec string_dec g (map fst pool)) as [I|N].
      * rewrite keys_assoc_set_present by exact I. exact I.
      * rewrite keys_assoc_set_absent by exact N. apply in_or_app.
        right. now left.
    + now left.
    + right. apply in_keys_assoc_set, H.
Qed.

Lemma assoc_none_keys {A} k (l : list (string * A)) :
  ~ In k (map fst l) -> assoc k l = None.
Proof.
  induction l as [|[k' a] l IH]; cbn [map fst In assoc]; [reflexivity|].
  intros H. destruct (String.eqb k k') eqn:E.
  - apply String.eqb_eq in E. subst. exfalso. apply H. now left.
  - apply IH. intros I. apply H. now right.
Qed.

(** Two listings with the same names in the same order, none repeated,
    and the same content under each name are the same listing. *)
Lemma listing_ext {A} (l : list (string * A)) :
  forall l',
    NoDup (map fst l) ->
    map fst l = map fst l' ->
    (forall k, assoc k l = assoc k l') ->
    l = l'.
Proof.
  induction l as [|[k a] l IH]; intros [|[k' a'] l'] Hn Hk Ha;
    cbn [map fst] in Hk; try discriminate; [reflexivity|].
  inversion Hk as [[E Hk']]. subst k'.
  inversion Hn as [|? ? Hnot Hn']; subst.
  pose proof (Ha k) as Hak. cbn [assoc] in Hak. rewrite String.eqb_refl in Hak.
  inversion Hak; subst a'. f_equal.
  apply IH; [exact Hn' | exact Hk' |].
  intros x. destruct (String.eqb x k) eqn:E.
  - apply String.eqb_eq in E. subst x.
    rewrite (assoc_none_keys k l Hnot).
    rewrite Hk' in Hnot. rewrite (assoc_none_keys k l' Hnot). reflexivity.
  - specialize (Ha x). cbn [assoc] in Ha. rewrite E in Ha. exact Ha.
Qed.

Lemma store_all_idem writes pool :
  NoDup (map fst pool) ->
  store_all writes (store_all writes pool) = store_all writes pool.
Proof.
  intros Hn. apply listing_ext.
  - apply nodup_store_all, nodup_store_all, Hn.
  - apply keys_store_all_present. intros f I.
    apply in_keys_store_all. now left.
  - intros k. rewrite !assoc_store_all.
    destruct (assoc k (rev writes)); reflexivity.
Qed.

Lemma store_all_app l1 l2 pool :
  store_all (l1 ++ l2) pool = store_all l2 (store_all l1 pool).
Proof.
  revert pool. induction l1 as [|[f c] l1 IH]; intros pool; cbn [app store_all];
    [reflexivity|]. apply IH.
Qed.

Section Twice.

Variable lib : pylib.

Lemma main_try_build_eq w :
  main_try lib false w =
  match prior_index lib w with
  | Ok prior => for_each (map fst (packages_dir w)) (build_step lib) prior w
  | Raise e => (Raise e, w)
  end.
Proof.
  unfold main_try, prior_index. unfold bind at 1.
  destruct (assoc INDEX_FILE (pool_dir w)) as [content|].
  - destruct (read_text content) as [text|e]; cbn [obind]; [|reflexivity].
    destruct (json_loads lib text); reflexivity.
  - reflexivity.
Qed.

Lemma main_build_done w packages w0 :
  main_try lib false w = (Ok packages, w0) ->
  exists w1,
    main lib false w = (0, w1)
    /\ packages_dir w1 = packages_dir w0
    /\ pool_dir w1
       = assoc_set INDEX_FILE (write_text (json_dumps lib packages))
           (pool_dir w0).
Proof.
  intros T. unfold main. rewrite T.
  cbn [print bind pool_open_w pool_write has_char].
  eexists. split; [reflexivity|].
  cbn [pool_store packages_dir pool_dir say]. split; [reflexivity|].
  apply assoc_set_set.
Qed.

Lemma built_all_functional pkgs names n pf pf' :
  In (n, pf) (built_all lib pkgs names) ->
  In (n, pf') (built_all lib pkgs names) ->
  pf' = pf.
Proof.
  unfold built_all. intros H H'.
  apply in_flat_map in H. destruct H as (x & _ & H).
  apply in_flat_map in H'. destruct H' as (x' & _ & H').
  destruct (built_package lib pkgs x) as [[qf|]|] eqn:B; try contradiction.
  destruct (built_package lib pkgs x') as [[qf'|]|] eqn:B'; try contradiction.
  destruct H as [H|[]]. destruct H' as [H'|[]].
  inversion H; subst. inversion H'; subst. congruence.
Qed.

Lemma built_all_package pkgs names n pf :
  In (n, pf) (built_all lib pkgs names) ->
  built_package lib pkgs n = Ok (Some pf).
Proof.
  unfold built_all. intros H.
  apply in_flat_map in H. destruct H as (x & _ & H).
  destruct (built_package lib pkgs x) as [[qf|]|] eqn:B; try contradiction.
  destruct H as [H|[]]. inversion H; subst. exact B.
Qed.

Lemma built_package_returned w n p fname :
  built_package lib (packages_dir w) n = Ok (Some (p, fname)) ->
  exists w', build_and_write_package lib n w = (Ok (Some p), w').
Proof.
  intros B. destruct (build_and_write_view lib n w) as (w1 & E & _).
  rewrite B in E. exists w1. exact E.
Qed.

(** X25.  Building twice changes nothing the second time.  When a build
    over a well-formed prior index completes, the versions of the
    manifests being strings, and the index it writes reads back as it
    was written, a second build of the same source tree completes too
    and leaves every file of the pool, the index included, exactly as
    the first build left it. *)
Theorem build_twice_same_pool w prior packages w0 :
  NoDup (map fst (pool_dir w)) ->
  prior_index lib w = Ok prior ->
  index_ok prior ->
  versions_are_strings lib w ->
  main_try lib false w = (Ok packages, w0) ->
  index_round_trips lib packages ->
  exists w1 w2,
    main lib false w = (0, w1)
    /\ main lib false w1 = (0, w2)
    /\ pool_dir w2 = pool_dir w1
    /\ packages_dir w2 = packages_dir w1.
Proof.
  intros Hn Hp (d & -> & Hd) Hv T Hr.
  assert (Hi : index_ok (VDict d)) by (exists d; auto).
  set (pkgs := packages_dir w).
  set (names := map fst pkgs).
  set (built := built_all lib pkgs names).
  pose proof T as L. rewrite main_try_build_eq, Hp in L.
  destruct (build_loop_success lib pkgs names (VDict d) w packages w0
              eq_refl L) as (F & P0 & S0 & Hall).
  fold built in F, P0.
  destruct (main_build_done w packages w0 T) as (w1 & M1 & S1 & P1).
  set (idx := write_text (json_dumps lib packages)) in *.
  assert (Hstr : forall n p, In (n, p) (upserts_of built) ->
             exists v, py_getitem (manifest p) "version" = Ok (VStr v)).
  { intros n p I. unfold upserts_of in I. apply in_map_iff in I.
    destruct I as ([n' [p' f']] & E & I). cbn [fst snd] in E.
    inversion E; subst n' p'.
    apply built_all_package in I.
    destruct (built_package_returned w n p f' I) as [w' B].
    apply (Hv n p w' B). }
  assert (Hfun : forall n p p', In (n, p) (upserts_of built) ->
                                In (n, p') (upserts_of built) -> p' = p).
  { intros n p p' I I'. unfold upserts_of in I, I'.
    apply in_map_iff in I. destruct I as ([n1 [p1 f1]] & E & I).
    apply in_map_iff in I'. destruct I' as ([n2 [p2 f2]] & E' & I').
    cbn [fst snd] in E, E'. inversion E; subst. inversion E'; subst.
    pose proof (built_all_functional pkgs names n _ _ I I') as X.
    congruence. }
  destruct (index_fold_settles (upserts_of built) d packages Hi Hfun Hstr F)
    as (d1 & -> & Hi1 & Hs).
  pose proof (index_fold_replay (upserts_of built) d1 Hi1 Hs) as F2.
  assert (Hp1 : prior_index lib w1 = Ok (VDict d1)).
  { unfold prior_index. rewrite P1, assoc_set_same. exact Hr. }
  assert (Sw1 : packages_dir w1 = pkgs) by congruence.
  destruct (build_loop_replay lib pkgs names (VDict d1) w1 (VDict d1)
              Sw1 Hall F2) as (w0' & L2 & P2 & S2).
  fold built in P2.
  assert (T2 : main_try lib false w1 = (Ok (VDict d1), w0')).
  { rewrite main_try_build_eq, Hp1, Sw1. exact L2. }
  destruct (main_build_done w1 (VDict d1) w0' T2) as (w2 & M2 & S3 & P3).
  exists w1, w2. split; [exact M1|]. split; [exact M2|].
  split; [|congruence].
  fold idx in P3. rewrite P3, P2, P1, P0.
  assert (E : forall l,
             assoc_set INDEX_FILE idx (store_all (archives_of lib built) l)
             = store_all (app (archives_of lib built) [(INDEX_FILE, idx)]) l)
    by (intros l; rewrite store_all_app; reflexivity).
  rewrite !E. apply store_all_idem, Hn.
Qed.

End Twice.

Lemma build_twice_same_pool_witness :
  exists w1 w2,
    main sample_lib false sample_world = (0, w1)
    /\ main sample_lib false w1 = (0, w2)
    /\ pool_dir w2 = pool_dir w1
    /\ packages_dir w2 = packages_dir w1.
Proof.
  apply (build_twice_same_pool sample_lib sample_world (VDict [])
           index_foo_bar (snd (main_try sample_lib false sample_world))).
  - constructor.
  - reflexivity.
  - apply index_ok_empty.
  - intros name p w' H.
    assert (E : fst (build_and_write_package sample_lib name sample_world)
                = Ok (Some p)) by (rewrite H; reflexivity).
    destruct (build_and_write_view sample_lib name sample_world)
      as (w1 & V & _).
    rewrite V in E. cbn [fst] in E.
    unfold built_package, built_record, regular_file in E.
    cbn [packages_dir sample_world assoc] in E.
    destruct (String.eqb name "foo") eqn:E1.
    + apply String.eqb_eq in E1. subst name. vm_compute in E.
      inversion E; subst p. exists "1.0". reflexivity.
    + destruct (String.eqb name "bar") eqn:E2; [|discriminate].
      apply String.eqb_eq in E2. subst name. vm_compute in E.
      inversion E; subst p. exists "1.0". reflexivity.
  - vm_compute. reflexivity.
  - vm_compute. reflexivity.
Defined.

(** ** Repairing the index of a fresh build *)

Lemma assoc_set_absent {A} k (a : A) l :
  ~ In k (map fst l) -> assoc_set k a l = app l [(k, a)].
Proof.
  induction l as [|[k' x] l IH]; cbn [assoc_set map fst In app]; [reflexivity|].
  intros H. destruct (String.eqb k k') eqn:E.
  - apply String.eqb_eq in E. subst k'. exfalso. apply H. now left.
  - rewrite IH; [reflexivity|]. intros I. apply H. now right.
Qed.

Lemma store_all_fresh writes :
  forall pool,
    NoDup (app (map fst pool) (map fst writes)) ->
    store_all writes pool = app pool writes.
Proof.
  induction writes as [|[f c] r IH]; intros pool H; cbn [store_all].
  - rewrite app_nil_r. reflexivity.
  - cbn [map fst] in H.
    assert (Nf : ~ In f (map fst pool)).
    { intros I. apply NoDup_remove_2 in H. apply H.
      apply in_or_app. now left. }
    rewrite (assoc_set_absent f c pool Nf), IH.
    + rewrite <- app_assoc. reflexivity.
    + rewrite map_app, <- app_assoc. exact H.
Qed.

Lemma nodup_map_via {A B C} (f : A -> B) (g : A -> C) l :
  NoDup (map f l) ->
  (forall x y, In x l -> In y l -> g x = g y -> f x = f y) ->
  NoDup (map g l).
Proof.
  induction l as [|x l IH]; cbn [map]; intros Hn Hg; [constructor|].
  inversion Hn as [|? ? Hx Hl]; subst. constructor.
  - intros I. apply in_map_iff in I. destruct I as (y & E & Iy).
    apply Hx. rewrite (Hg x y (or_introl eq_refl) (or_intror Iy) (eq_sym E)).
    apply in_map, Iy.
  - apply IH; [exact Hl|]. intros a b Ia Ib. apply Hg; now right.
Qed.

Lemma group_add_absent name v rtn :
  ~ In name (map fst rtn) -> group_add name v rtn = app rtn [(name, [v])].
Proof.
  induction rtn as [|[n vs] rtn IH]; cbn [group_add map fst In app];
    [reflexivity|].
  intros H. destruct (String.eqb name n) eqn:E.
  - apply String.eqb_eq in E. subst n. exfalso. apply H. now left.
  - rewrite IH; [reflexivity|]. intros I. apply H. now right.
Qed.

Lemma group_all_fresh entries :
  forall pairs rtn,
    parse_all entries = Some pairs ->
    NoDup (app (map fst rtn) (map fst pairs)) ->
    group_all entries rtn
    = Some (app rtn (map (fun nv => (fst nv, [snd nv])) pairs)).
Proof.
  induction entries as [|e r IH]; intros pairs rtn Hp Hn;
    cbn [parse_all group_all] in *.
  - inversion Hp; subst. cbn [map]. rewrite app_nil_r. reflexivity.
  - destruct (parse_entry e) as [[n v]|]; [|discriminate].
    destruct (parse_all r) as [l|]; [|discriminate].
    inversion Hp; subst pairs. cbn [map fst snd] in *.
    assert (Nn : ~ In n (map fst rtn)).
    { intros I. apply NoDup_remove_2 in Hn. apply Hn.
      apply in_or_app. now left. }
    rewrite (group_add_absent n v rtn Nn).
    rewrite (IH l (app rtn [(n, [v])]) eq_refl).
    + rewrite <- app_assoc. reflexivity.
    + rewrite map_app, <- app_assoc. exact Hn.
Qed.

Lemma pairs_of_singletons pairs :
  pairs_of (map (fun nv => (fst nv, [snd nv])) pairs) = pairs.
Proof.
  unfold pairs_of. induction pairs as [|[n v] l IH]; cbn [map flat_map fst snd app];
    [reflexivity|]. rewrite IH. reflexivity.
Qed.

Lemma parse_built l :
  (forall n p f, In (n, (p, f)) l ->
                 f = archive_name n (version_string p)
                 /\ has_char "." n = false) ->
  parse_all (map (fun x => snd (snd x)) l) = Some (built_pairs l).
Proof.
  induction l as [|[n [p f]] l IH]; intros H; cbn [map parse_all built_pairs];
    [reflexivity|].
  destruct (H n p f (or_introl eq_refl)) as [-> Hd]. cbn [fst snd].
  rewrite (parse_entry_archive n _ Hd).
  unfold built_pairs in IH. rewrite IH; [reflexivity|].
  intros n' p' f' I. apply H. now right.
Qed.

(** *** The order in which the pool is listed *)

Lemma filter_permutation {A} (f : A -> bool) l l' :
  Permutation l l' -> Permutation (filter f l) (filter f l').
Proof.
  induction 1 as [|x l l' H IH|x y l|l l' l'' H1 IH1 H2 IH2]; cbn [filter].
  - constructor.
  - destruct (f x); [constructor|]; exact IH.
  - destruct (f x), (f y); try apply Permutation_refl. apply perm_swap.
  - apply (Permutation_trans IH1 IH2).
Qed.

Lemma assoc_permutation {A} (l l' : list (string * A)) k :
  NoDup (map fst l) -> Permutation l' l -> assoc k l' = assoc k l.
Proof.
  intros Hn Hp.
  assert (Hn' : NoDup (map fst l')).
  { apply (Permutation_NoDup (l := map fst l)); [|exact Hn].
    apply Permutation_map, Permutation_sym, Hp. }
  destruct (assoc k l) as [a|] eqn:E.
  - apply assoc_nodup_in; [exact Hn'|].
    apply (Permutation_in _ (Permutation_sym Hp)), assoc_pair, E.
  - destruct (assoc k l') as [a|] eqn:E'; [|reflexivity].
    apply assoc_pair in E'. apply (Permutation_in _ Hp) in E'.
    rewrite (assoc_nodup_in k a l Hn E') in E. discriminate.
Qed.

(** Every package of a sequence of upserts that succeeds has the three
    fields an upsert reads. *)
Lemma index_fold_items l :
  forall s s',
    index_fold l s = Ok s' ->
    forall n p, In (n, p) l ->
      exists ds dp v,
        py_getitem (manifest p) "description" = Ok ds
        /\ py_getitem (manifest p) "dependencies" = Ok dp
        /\ py_getitem (manifest p) "version" = Ok v.
Proof.
  induction l as [|[n0 p0] l IH]; intros s s' H n p I; [contradiction|].
  cbn [index_fold] in H. apply obind_ok in H as (s1 & H1 & H).
  destruct I as [E|I].
  - inversion E; subst n0 p0.
    apply build_upsert_steps in H1
      as (p1 & p2 & p3 & ds & dp & v & _ & Hd & _ & Hp & _ & Hv & _).
    exists ds, dp, v. auto.
  - apply (IH s1 s' H n p I).
Qed.

(** The index after upserts of packages with distinct names and versions
    that are strings: the entry of each package is its entry before with
    the upsert applied, and the other entries are as before. *)
Lemma index_fold_entries l :
  NoDup (map fst l) ->
  (forall n p, In (n, p) l ->
     exists ds dp v,
       py_getitem (manifest p) "description" = Ok ds
       /\ py_getitem (manifest p) "dependencies" = Ok dp
       /\ py_getitem (manifest p) "version" = Ok (VStr v)) ->
  forall d,
    index_ok (VDict d) ->
    exists d',
      index_fold l (VDict d) = Ok (VDict d')
      /\ (forall n p ds dp v,
            In (n, p) l ->
            py_getitem (manifest p) "description" = Ok ds ->
            py_getitem (manifest p) "dependencies" = Ok dp ->
            py_getitem (manifest p) "version" = Ok (VStr v) ->
            dict_get (KStr n) d'
            = Some (upserted (entry_or_empty d n) ds v
                      (version_entry (digest p) dp)))
      /\ (forall key,
            (forall n p, In (n, p) l -> key_eqb key (KStr n) = false) ->
            dict_get key d' = dict_get key d).
Proof.
  induction l as [|[n0 p0] l IH]; intros Hn Hl d Hi.
  - exists d. split; [reflexivity|]. split; [intros ? ? ? ? ? []|auto].
  - inversion Hn as [|? ? Hx Hn']; subst.
    destruct (Hl n0 p0 (or_introl eq_refl)) as (ds0 & dp0 & v0 & Hd0 & Hp0 & Hv0).
    set (e0 := upserted (entry_or_empty d n0) ds0 v0
                 (version_entry (digest p0) dp0)).
    assert (Hi1 : index_ok (VDict (dict_set (KStr n0) e0 d))).
    { apply index_ok_set; [exact Hi|].
      apply upserted_ok, entry_or_empty_ok, Hi. }
    destruct (IH Hn' (fun n p I => Hl n p (or_intror I)) _ Hi1)
      as (d' & F & He & Hf).
    exists d'. cbn [index_fold].
    rewrite (build_upsert_str (VDict d) n0 p0 v0 Hv0),
      (repair_upsert_eq d n0 v0 p0 ds0 dp0 Hi Hd0 Hp0).
    cbn [obind]. fold e0. split; [exact F|]. split.
    + intros n p ds dp v [E|I] Hd Hp Hv.
      * inversion E; subst n p.
        assert (ds = ds0) by congruence. assert (dp = dp0) by congruence.
        assert (v = v0) by congruence. subst ds dp v. fold e0.
        rewrite Hf; [apply dict_get_set_str|].
        intros n p I. apply str_key_neq. intros ->.
        apply Hx. apply (in_map fst _ _ I).
      * rewrite (He n p ds dp v I Hd Hp Hv). rewrite entry_or_empty_set.
        destruct (String.eqb n n0) eqn:E; [|reflexivity].
        apply String.eqb_eq in E. subst n0. exfalso.
        apply Hx. apply (in_map fst _ _ I).
    + intros key Hk.
      rewrite Hf by (intros n p I; apply (Hk n p); now right).
      apply dict_get_set_other. apply (Hk n0 p0). now left.
Qed.

(** Upserts of packages with distinct names into the empty index give
    the same entries in whatever order they are made. *)
Lemma index_fold_permutation l l' packages :
  NoDup (map fst l) ->
  Permutation l l' ->
  (forall n p, In (n, p) l ->
     exists v, py_getitem (manifest p) "version" = Ok (VStr v)) ->
  index_fold l (VDict []) = Ok packages ->
  exists packages',
    index_fold l' (VDict []) = Ok packages'
    /\ forall key, value_get packages' key = value_get packages key.
Proof.
  intros Hn Hp Hv F.
  assert (Hl : forall n p, In (n, p) l ->
             exists ds dp v,
               py_getitem (manifest p) "description" = Ok ds
               /\ py_getitem (manifest p) "dependencies" = Ok dp
               /\ py_getitem (manifest p) "version" = Ok (VStr v)).
  { intros n p I.
    destruct (index_fold_items l _ _ F n p I) as (ds & dp & v & Hd & Hq & Hw).
    destruct (Hv n p I) as [s Hs].
    exists ds, dp, s. auto. }
  assert (Hn' : NoDup (map fst l'))
    by (apply (Permutation_NoDup (Permutation_map fst Hp)), Hn).
  assert (Hl' : forall n p, In (n, p) l' ->
             exists ds dp v,
               py_getitem (manifest p) "description" = Ok ds
               /\ py_getitem (manifest p) "dependencies" = Ok dp
               /\ py_getitem (manifest p) "version" = Ok (VStr v)).
  { intros n p I. apply (Hl n).
    apply (Permutation_in _ (Permutation_sym Hp) I). }
  destruct (index_fold_entries l Hn Hl [] index_ok_empty) as (d1 & F1 & E1 & K1).
  destruct (index_fold_entries l' Hn' Hl' [] index_ok_empty)
    as (d2 & F2 & E2 & K2).
  rewrite F1 in F. inversion F; subst packages.
  exists (VDict d2). split; [exact F2|]. intros key. cbn [value_get].
  assert (N : (exists n p, In (n, p) l /\ key = KStr n)
              \/ forall n p, In (n, p) l -> key_eqb key (KStr n) = false).
  { destruct key as [s| | |]; try (right; reflexivity).
    destruct (in_dec string_dec s (map fst l)) as [I|I].
    - left. apply in_map_iff in I. destruct I as ([n p] & E & I).
      cbn [fst] in E. subst n. eauto.
    - right. intros n p I'. apply str_key_neq. intros ->.
      apply I. apply (in_map fst _ _ I'). }
  destruct N as [(n & p & I & ->) | N].
  - destruct (Hl n p I) as (ds & dp & v & Hd & Hq & Hw).
    rewrite (E1 n p ds dp v I Hd Hq Hw).
    apply (E2 n p ds dp v (Permutation_in _ Hp I) Hd Hq Hw).
  - rewrite (K1 key N). apply K2. intros n p I.
    apply (N n p). apply (Permutation_in _ (Permutation_sym Hp) I).
Qed.

Section FreshBuild.

Variable lib : pylib.

Lemma index_pairs_built pool l :
  (forall n p f, In (n, (p, f)) l ->
                 read_archive lib pool n (version_string p) = Ok p
                 /\ py_getitem (manifest p) "version"
                    = Ok (VStr (version_string p))) ->
  forall packages,
    index_pairs lib pool (built_pairs l) packages
    = index_fold (upserts_of l) packages.
Proof.
  induction l as [|[n [p f]] l IH]; intros H packages;
    cbn [built_pairs upserts_of map index_pairs index_fold fst snd];
    [reflexivity|].
  destruct (H n p f (or_introl eq_refl)) as [Hr Hv].
  rewrite Hr, (build_upsert_str packages n p _ Hv).
  destruct (repair_upsert packages n (version_string p) p) as [q|e];
    cbn [obind]; [|reflexivity].
  apply IH. intros n' p' f' I. apply (H n' p' f'). now right.
Qed.

Lemma built_package_shape pkgs n p fname :
  built_package lib pkgs n = Ok (Some (p, fname)) ->
  digest p = sha256_hexdigest lib (compress lib (manifest p))
  /\ exists v,
      py_getitem (manifest p) "version" = Ok v
      /\ fname = archive_name n (fmt lib v).
Proof.
  unfold built_package.
  destruct (built_record lib pkgs n) as [[pkg|]|e]; cbn [obind];
    try discriminate.
  destruct (py_getitem pkg "version") as [v|e] eqn:V; cbn [obind];
    [|discriminate].
  cbv zeta.
  destruct (has_char NUL (archive_name n (fmt lib v))); [discriminate|].
  destruct (has_char "/" (archive_name n (fmt lib v))); [discriminate|].
  intros H. inversion H; subst. cbn [manifest digest].
  split; [reflexivity|]. exists v. auto.
Qed.

Lemma built_all_names pkgs names n pf :
  In (n, pf) (built_all lib pkgs names) -> In n names.
Proof.
  unfold built_all. intros H. apply in_flat_map in H.
  destruct H as (x & Ix & H).
  destruct (built_package lib pkgs x) as [[qf|]|]; try contradiction.
  destruct H as [H|[]]. inversion H; subst. exact Ix.
Qed.

Lemma built_all_nodup pkgs names :
  NoDup names -> NoDup (map fst (built_all lib pkgs names)).
Proof.
  induction names as [|x names IH]; intros H; [constructor|].
  inversion H as [|? ? Hx Hn]; subst.
  unfold built_all. cbn [flat_map]. fold (built_all lib pkgs names).
  destruct (built_package lib pkgs x) as [[qf|]|]; cbn [app map fst];
    try (apply IH, Hn).
  constructor; [|apply IH, Hn].
  intros I. apply in_map_iff in I. destruct I as ([n pf] & E & I).
  cbn [fst] in E. subst n. apply Hx. apply (built_all_names pkgs names x pf I).
Qed.

Lemma read_archive_written pool n v r :
  assoc (archive_name n v) pool = Some (compress lib r) ->
  zlib_round_trips lib (str_encode (json_dumps lib r)) ->
  json_round_trips lib r ->
  read_archive lib pool n v
  = Ok {| manifest := r;
          digest := sha256_hexdigest lib (compress lib r) |}.
Proof.
  intros Ha Hz Hj.
  rewrite (read_archive_file lib pool n v (compress lib r)
             (archive_text lib r) r Ha).
  - rewrite archive_text_encode. reflexivity.
  - rewrite <- (archive_text_encode lib r) at 1. apply archive_text_reread.
  - apply decode_archive_text; assumption.
Qed.

(** X26.  Repair mode rebuilds the index of a fresh build, in whatever
    order the pool is listed.  When build mode completes over an empty
    pool, for a source tree whose package names are distinct and without
    dots and whose manifest versions are strings, and the record of
    every package comes back from its archive through the compression
    and JSON libraries, then repair mode run on the files the build
    left, listed in any order, completes too; the index it writes has
    for every key the entry the index of the build has, and it leaves
    the archives as they are. *)
Theorem repair_after_fresh_build w packages w0 :
  pool_dir w = [] ->
  NoDup (map fst (packages_dir w)) ->
  (forall n, In n (map fst (packages_dir w)) -> has_char "." n = false) ->
  versions_are_strings lib w ->
  records_round_trip lib w ->
  main_try lib false w = (Ok packages, w0) ->
  exists w1,
    main lib false w = (0, w1)
    /\ assoc INDEX_FILE (pool_dir w1)
       = Some (write_text (json_dumps lib packages))
    /\ forall w1',
        Permutation (pool_dir w1) (pool_dir w1') ->
        exists packages' w2,
          main lib true w1' = (0, w2)
          /\ assoc INDEX_FILE (pool_dir w2)
             = Some (write_text (json_dumps lib packages'))
          /\ (forall key, value_get packages' key = value_get packages key)
          /\ (forall f, f <> INDEX_FILE ->
                        assoc f (pool_dir w2) = assoc f (pool_dir w1')).
Proof.
  intros He Hn Hd Hv Hr T.
  set (pkgs := packages_dir w).
  set (names := map fst pkgs).
  set (built := built_all lib pkgs names).
  pose proof T as L. rewrite main_try_build_eq in L.
  unfold prior_index in L. rewrite He in L. cbn [assoc] in L.
  destruct (build_loop_success lib pkgs names (VDict []) w packages w0
              eq_refl L) as (F & P0 & S0 & _).
  fold built in F, P0. rewrite He in P0.
  destruct (main_build_done lib w packages w0 T) as (w1 & M1 & S1 & P1).
  set (idx := write_text (json_dumps lib packages)) in *.
  (* what each built package is *)
  assert (B : forall n p f, In (n, (p, f)) built ->
            f = archive_name n (version_string p)
            /\ has_char "." n = false
            /\ py_getitem (manifest p) "version" = Ok (VStr (version_string p))
            /\ digest p = sha256_hexdigest lib (compress lib (manifest p))
            /\ zlib_round_trips lib (str_encode (json_dumps lib (manifest p)))
            /\ json_round_trips lib (manifest p)).
  { intros n p f I.
    pose proof (built_all_names pkgs names n _ I) as In_n.
    apply built_all_package in I.
    destruct (built_package_returned lib w n p f I) as [w' Bw].
    destruct (Hv n p w' Bw) as [v Pv].
    destruct (Hr n p w' Bw) as [Hz Hj].
    destruct (built_package_shape pkgs n p f I) as (Dg & v' & Pv' & ->).
    assert (v' = VStr v) by congruence. subst v'.
    unfold version_string. rewrite Pv. cbn [fmt].
    repeat split; auto. }
  (* the pool after the build *)
  assert (Kb : NoDup (map fst built))
    by (apply built_all_nodup, Hn).
  assert (Ka : NoDup (map fst (archives_of lib built))).
  { unfold archives_of. rewrite map_map. cbn [fst].
    apply (nodup_map_via fst (fun x => snd (snd x)) built Kb).
    intros [n [p f]] [n' [p' f']] I I' E. cbn [fst snd] in *.
    destruct (B n p f I) as (-> & Dn & _).
    destruct (B n' p' f' I') as (-> & Dn' & _).
    pose proof (parse_entry_archive n (version_string p) Dn) as X.
    rewrite E, (parse_entry_archive n' (version_string p') Dn') in X.
    congruence. }
  assert (Pw0 : pool_dir w0 = archives_of lib built).
  { rewrite P0. apply (store_all_fresh (archives_of lib built) []).
    exact Ka. }
  assert (Ni : ~ In INDEX_FILE (map fst (archives_of lib built))).
  { intros I. unfold archives_of in I. rewrite map_map in I.
    apply in_map_iff in I. destruct I as ([n [p f]] & E & I).
    cbn [fst snd] in E. destruct (B n p f I) as (-> & _).
    apply (archive_name_not_index n _ E). }
  assert (Pw1 : pool_dir w1 = app (archives_of lib built) [(INDEX_FILE, idx)]).
  { rewrite P1, Pw0. apply assoc_set_absent, Ni. }
  assert (K1 : NoDup (map fst (pool_dir w1))).
  { rewrite Pw1, map_app. cbn [map fst].
    apply (Permutation_NoDup (Permutation_cons_append _ _)).
    constructor; assumption. }
  assert (Pe : pool_entries w1 = map (fun x => snd (snd x)) built).
  { unfold pool_entries. rewrite Pw1, map_app, filter_app.
    cbn [map fst filter]. rewrite String.eqb_refl. cbn [negb].
    rewrite app_nil_r. unfold archives_of. rewrite map_map. cbn [fst].
    rewrite forallb_filter_id; [reflexivity|].
    apply forallb_forall. intros f I. apply in_map_iff in I.
    destruct I as ([n [p f']] & E & I). cbn [snd] in E. subst f'.
    destruct (B n p f I) as (-> & _).
    apply negb_true_iff, String.eqb_neq, archive_name_not_index. }
  exists w1. split; [exact M1|].
  split; [rewrite P1; apply assoc_set_same|].
  (* the same files, listed in another order *)
  intros w1' Hperm.
  assert (Pe' : Permutation (pool_entries w1') (pool_entries w1)).
  { unfold pool_entries. apply filter_permutation, Permutation_map.
    apply Permutation_sym, Hperm. }
  rewrite Pe in Pe'.
  apply Permutation_map_inv in Pe' as (built' & Pe' & Hb).
  assert (B' : forall n p f, In (n, (p, f)) built' -> In (n, (p, f)) built)
    by (intros n p f; apply Permutation_in, Permutation_sym, Hb).
  assert (Kb' : NoDup (map fst built'))
    by (apply (Permutation_NoDup (Permutation_map fst Hb)), Kb).
  assert (Pp : parse_all (pool_entries w1') = Some (built_pairs built')).
  { rewrite Pe'. apply parse_built. intros n p f I.
    destruct (B n p f (B' n p f I)) as (E & Dn & _). auto. }
  assert (Kp : map fst (built_pairs built') = map fst built')
    by (unfold built_pairs; rewrite map_map; reflexivity).
  assert (G : group_all (pool_entries w1') []
              = Some (map (fun nv => (fst nv, [snd nv])) (built_pairs built'))).
  { apply (group_all_fresh _ _ [] Pp). cbn [map app]. rewrite Kp. exact Kb'. }
  assert (R : fst (repair_run lib w1')
              = index_fold (upserts_of built') (VDict [])).
  { unfold repair_run. rewrite G, run_groups_pairs, pairs_of_singletons.
    apply index_pairs_built.
    intros n p f I. apply B' in I.
    destruct (B n p f I) as (E & _ & Pv & Dg & Hz & Hj).
    split; [|exact Pv].
    rewrite (read_archive_written (pool_dir w1') n (version_string p)
               (manifest p)); [| |exact Hz|exact Hj].
    - rewrite <- Dg. destruct p; reflexivity.
    - rewrite (assoc_permutation (pool_dir w1) (pool_dir w1') _ K1
                 (Permutation_sym Hperm)).
      rewrite Pw1, assoc_app.
      rewrite (assoc_nodup_in (archive_name n (version_string p))
                 (compress lib (manifest p)) (archives_of lib built) Ka);
        [reflexivity|].
      unfold archives_of. apply in_map_iff. exists (n, (p, f)).
      cbn [fst snd]. rewrite <- E. auto. }
  destruct (index_fold_permutation (upserts_of built) (upserts_of built')
              packages) as (packages' & F' & Hk).
  { unfold upserts_of. rewrite map_map. exact Kb. }
  { apply Permutation_map, Hb. }
  { intros n p I. unfold upserts_of in I. apply in_map_iff in I.
    destruct I as ([n' [p' f]] & E & I). cbn [fst snd] in E.
    inversion E; subst n' p'.
    destruct (B n p f I) as (_ & _ & Pv & _). eauto. }
  { exact F. }
  rewrite F' in R.
  exists packages'. eexists. rewrite main_repair_eq. cbv zeta. rewrite R.
  split; [reflexivity|].
  cbn [pool_store pool_dir say]. rewrite say_all_pool.
  split; [apply assoc_set_same|]. split; [exact Hk|].
  intros f Nf. rewrite !assoc_assoc_set.
  destruct (String.eqb f INDEX_FILE) eqn:E; [|reflexivity].
  apply String.eqb_eq in E. contradiction.
Qed.

End FreshBuild.

Lemma repair_after_fresh_build_witness :
  exists w1,
    main sample_lib false sample_world = (0, w1)
    /\ assoc INDEX_FILE (pool_dir w1)
       = Some (write_text (json_dumps sample_lib index_foo_bar))
    /\ forall w1',
        Permutation (pool_dir w1) (pool_dir w1') ->
        exists packages' w2,
          main sample_lib true w1' = (0, w2)
          /\ assoc INDEX_FILE (pool_dir w2)
             = Some (write_text (json_dumps sample_lib packages'))
          /\ (forall key,
                value_get packages' key = value_get index_foo_bar key)
          /\ (forall f, f <> INDEX_FILE ->
                        assoc f (pool_dir w2) = assoc f (pool_dir w1')).
Proof.
  assert (P : forall name p w',
             build_and_write_package sample_lib name sample_world
             = (Ok (Some p), w') ->
             p = {| manifest := foo_record; digest := foo_archive_sha256 |}
             \/ p = {| manifest := VDict bar_record_dict;
                       digest := bar_archive_sha256 |}).
  { intros name p w' H.
    assert (E : fst (build_and_write_package sample_lib name sample_world)
                = Ok (Some p)) by (rewrite H; reflexivity).
    destruct (build_and_write_view sample_lib name sample_world)
      as (w1 & V & _).
    rewrite V in E. cbn [fst] in E.
    unfold built_package, built_record, regular_file in E.
    cbn [packages_dir sample_world assoc] in E.
    destruct (String.eqb name "foo") eqn:E1.
    - apply String.eqb_eq in E1. subst name. vm_compute in E.
      inversion E; subst p. left. reflexivity.
    - destruct (String.eqb name "bar") eqn:E2; [|discriminate].
      apply String.eqb_eq in E2. subst name. vm_compute in E.
      inversion E; subst p. right. reflexivity. }
  apply (repair_after_fresh_build sample_lib sample_world index_foo_bar
           (snd (main_try sample_lib false sample_world))).
  - reflexivity.
  - repeat constructor; cbn; intuition discriminate.
  - intros n [<-|[<-|[]]]; reflexivity.
  - intros name p w' H.
    destruct (P name p w' H) as [-> | ->]; exists "1.0"; reflexivity.
  - intros name p w' H.
    destruct (P name p w' H) as [-> | ->]; split; vm_compute; reflexivity.
  - vm_compute. reflexivity.
Defined.

(** The files of the sample build listed with the index first and the
    archives in the other order: repair mode indexes [bar] before [foo],
    and the index file it writes is another text with the same
    entries. *)
Example repair_other_listing :
  let w1 := snd (main sample_lib false sample_world) in
  let w1' := {| packages_dir := packages_dir w1;
                pool_dir := rev (pool_dir w1);
                stdout := [] |} in
  map fst (pool_dir w1) = ["foo.1.0.ccp"; "bar.1.0.ccp"; "index.json"]
  /\ fst (repair_run sample_lib w1')
     = Ok (VDict [ (KStr "bar",
                    index_entry "d" [("1.0", bar_archive_sha256)] "1.0");
                   (KStr "foo",
                    index_entry "d" [("1.0", foo_archive_sha256)] "1.0") ]).
Proof. split; vm_compute; reflexivity. Qed.

(** ** Line endings of source files *)

Lemma universal_newlines_no_cr_upto n :
  forall l, (List.length l <= n)%nat -> ~ In x0d (universal_newlines l).
Proof.
  induction n as [|n IH]; intros l Hl.
  - destruct l; [intros [] | cbn [List.length] in Hl; lia].
  - destruct l as [|b r]; [intros []|].
    cbn [List.length] in Hl. cbn [universal_newlines].
    destruct (Byte.eqb b x0d) eqn:E.
    + intros [H|H]; [discriminate|].
      destruct r as [|c r']; [contradiction|].
      cbn [List.length] in Hl.
      destruct (Byte.eqb c x0a); revert H; apply IH; cbn [List.length]; lia.
    + intros [H|H].
      * subst b. discriminate E.
      * revert H. apply IH. lia.
Qed.

Lemma universal_newlines_no_cr l : ~ In x0d (universal_newlines l).
Proof. apply (universal_newlines_no_cr_upto (List.length l)). lia. Qed.

Lemma has_char_of_bytes c l :
  has_char (ascii_of_byte c) (string_of_list_byte l) = true -> In c l.
Proof.
  induction l as [|b l IH]; [discriminate|].
  change (string_of_list_byte (b :: l))
    with (String (ascii_of_byte b) (string_of_list_byte l)).
  cbn [has_char]. intros H. apply orb_true_iff in H. destruct H as [H|H].
  - left. apply Ascii.eqb_eq in H.
    rewrite <- (byte_of_ascii_of_byte b), <- (byte_of_ascii_of_byte c), H.
    reflexivity.
  - right. apply IH, H.
Qed.

(** X10.  What [build_package] stores for a source file is its text with
    universal newlines: the content never holds a carriage return, so for
    a file that has one the bytes that are stored and hashed are not the
    bytes of the file. *)
Theorem source_text_has_no_cr pkgs name path text :
  source_text pkgs name path = Ok text ->
  has_char CR text = false
  /\ forall d content,
      assoc name pkgs = Some (Directory d) ->
      assoc (source_path name ++ path)
            (tree_files (source_path name) (source d)) = Some content ->
      str_encode text = universal_newlines content
      /\ (In x0d content -> str_encode text <> content).
Proof.
  unfold source_text. intros H. split.
  - destruct (assoc name pkgs) as [[c|d]|]; try discriminate.
    destruct (assoc (source_path name ++ path) _) as [content|];
      [|discriminate].
    unfold read_text in H. destruct (utf8_valid content); [|discriminate].
    inversion H; subst text.
    destruct (has_char CR _) eqn:E; [|reflexivity].
    exfalso. apply (universal_newlines_no_cr content).
    apply has_char_of_bytes, E.
  - intros d content Hd Hc. rewrite Hd, Hc in H.
    unfold read_text in H. destruct (utf8_valid content); [|discriminate].
    inversion H; subst text.
    rewrite TextFacts.str_encode_of_bytes. split; [reflexivity|].
    intros I E. apply (universal_newlines_no_cr content). rewrite E. exact I.
Qed.

Lemma source_text_has_no_cr_witness :
  has_char CR (String "a" (String (ascii_of_byte x0a) "b")) = false
  /\ forall d content,
      assoc "foo" (packages_dir crlf_world) = Some (Directory d) ->
      assoc (source_path "foo" ++ "a.txt")
            (tree_files (source_path "foo") (source d)) = Some content ->
      str_encode (String "a" (String (ascii_of_byte x0a) "b"))
      = universal_newlines content
      /\ (In x0d content ->
          str_encode (String "a" (String (ascii_of_byte x0a) "b")) <> content).
Proof.
  apply (source_text_has_no_cr (packages_dir crlf_world) "foo" "a.txt").
  reflexivity.
Defined.

(** ** More on whole runs *)

Section MoreRuns.

Variable lib : pylib.

(** X27.  A manifest file that is not JSON is skipped like a missing
    one: the iteration of the build loop prints the three lines of the
    package, keeps the index as it is, and writes no file. *)
Theorem unreadable_manifest_skipped packages name w content text :
  manifest_source name w = Some content ->
  read_text content = Ok text ->
  json_loads lib text = Raise JSONDecodeError ->
  build_step lib packages name w
  = (Ok packages, say_all (unreadable_manifest_lines name) w).
Proof.
  intros Hs Ht Hj. unfold build_step. unfold bind at 1.
  rewrite build_and_write_eq. unfold build_package. unfold bind at 1.
  rewrite get_manifest_eq. cbv zeta.
  change (manifest_source name (say ("Packaging " ++ name) w))
    with (manifest_source name w).
  rewrite Hs, Ht, Hj. reflexivity.
Qed.

(** X28.  Repair mode writes nothing but the index file: the source tree
    and every other file of the pool are as before, and when the run
    fails the pool is unchanged altogether. *)
Theorem repair_writes_only_index w :
  packages_dir (snd (main lib true w)) = packages_dir w
  /\ (fst (main lib true w) = 1 -> pool_dir (snd (main lib true w)) = pool_dir w)
  /\ forall f, f <> INDEX_FILE ->
               assoc f (pool_dir (snd (main lib true w))) = assoc f (pool_dir w).
Proof.
  rewrite main_repair_eq. cbv zeta.
  destruct (fst (repair_run lib w)) as [packages|e]; cbn [fst snd].
  - cbn [pool_store packages_dir pool_dir say].
    rewrite say_all_pool, (proj1 (say_all_files _ _)).
    split; [reflexivity|]. split; [discriminate|].
    intros f N. rewrite !assoc_set_other by congruence. reflexivity.
  - cbn [packages_dir pool_dir say].
    rewrite say_all_pool, (proj1 (say_all_files _ _)). auto.
Qed.

Lemma build_loop_result_frame names :
  forall packages w w2,
    packages_dir w2 = packages_dir w ->
    fst (for_each names (build_step lib) packages w2)
    = fst (for_each names (build_step lib) packages w).
Proof.
  induction names as [|x names IH]; intros packages w w2 Hw;
    cbn [for_each]; [reflexivity|].
  destruct (build_step_view lib packages x w) as (w1 & E & P1 & _).
  destruct (build_step_view lib packages x w2) as (w1' & E' & P1' & _).
  rewrite Hw in E'. unfold bind. rewrite E, E'.
  destruct (match built_package lib (packages_dir w) x with
            | Ok (Some (p, _)) => build_upsert packages x p
            | Ok None => Ok packages
            | Raise e => Raise e
            end) as [p1|e]; [|reflexivity].
  apply IH. congruence.
Qed.

(** X29.  Build mode reads nothing of the pool but the index file: over
    another pool with the same index file (or equally without one), with
    whatever archives, the run exits with the same status and gives the
    index file the same content. *)
Theorem build_ignores_archives w pool' :
  assoc INDEX_FILE pool' = assoc INDEX_FILE (pool_dir w) ->
  let w2 := {| packages_dir := packages_dir w;
               pool_dir := pool';
               stdout := stdout w |} in
  fst (main lib false w2) = fst (main lib false w)
  /\ assoc INDEX_FILE (pool_dir (snd (main lib false w2)))
     = assoc INDEX_FILE (pool_dir (snd (main lib false w))).
Proof.
  intros Hi w2.
  assert (Hp : prior_index lib w2 = prior_index lib w)
    by (unfold prior_index; subst w2; cbn [pool_dir]; rewrite Hi; reflexivity).
  destruct (main_try lib false w) as [r w0] eqn:T.
  destruct (main_try lib false w2) as [r2 w02] eqn:T2.
  pose proof (index_kept_main_try lib w r w0 T) as (_ & K & _).
  pose proof (index_kept_main_try lib w2 r2 w02 T2) as (_ & K2 & _).
  assert (R : r2 = r).
  { rewrite main_try_build_eq in T, T2. rewrite Hp in T2.
    destruct (prior_index lib w) as [prior|e]; [|congruence].
    pose proof (build_loop_result_frame (map fst (packages_dir w)) prior w w2
                  eq_refl) as F.
    change (packages_dir w2) with (packages_dir w) in T2.
    rewrite T, T2 in F. exact F. }
  subst r2. destruct r as [packages|e].
  - destruct (main_build_done lib w packages w0 T) as (w1 & M1 & _ & P1).
    destruct (main_build_done lib w2 packages w02 T2) as (w1' & M2 & _ & P2).
    rewrite M1, M2. cbn [fst snd]. split; [reflexivity|].
    rewrite P1, P2, !assoc_set_same. reflexivity.
  - unfold main. rewrite T, T2.
    cbn [print bind fst snd say pool_dir]. split; [reflexivity|].
    rewrite K, K2. exact Hi.
Qed.

End MoreRuns.

Lemma unreadable_manifest_skipped_witness :
  build_step sample_lib (VDict []) "foo" crlf_world
  = (Ok (VDict []), say_all (unreadable_manifest_lines "foo") crlf_world).
Proof.
  apply (unreadable_manifest_skipped sample_lib (VDict []) "foo" crlf_world
           (str_encode "oops") "oops"); reflexivity.
Defined.

Lemma build_ignores_archives_witness :
  fst (main sample_lib false
         {| packages_dir := packages_dir sample_world;
            pool_dir := [("old.0.1.ccp", [xff])];
            stdout := stdout sample_world |})
  = fst (main sample_lib false sample_world)
  /\ assoc INDEX_FILE
       (pool_dir (snd (main sample_lib false
                         {| packages_dir := packages_dir sample_world;
                            pool_dir := [("old.0.1.ccp", [xff])];
                            stdout := stdout sample_world |})))
     = assoc INDEX_FILE (pool_dir (snd (main sample_lib false sample_world))).
Proof.
  apply (build_ignores_archives sample_lib sample_world
           [("old.0.1.ccp", [xff])]).
  reflexivity.
Defined.

(** * The build loop, package by package *)

(** ** The upsert of build mode on any version *)




(** A version that cannot be a dictionary key (an array or an object)
    stops the upsert: the description is set, and the assignment under
    the version raises [TypeError]. *)
Lemma unhashable_version_aborts d name p description dependencies version :
  entry_ready d name ->
  py_getitem (manifest p) "description" = Ok description ->
  py_getitem (manifest p) "dependencies" = Ok dependencies ->
  py_getitem (manifest p) "version" = Ok version ->
  to_key version = Raise TypeError ->
  build_upsert (VDict d) name p = Raise TypeError.
Proof.
  unfold entry_ready. intros He Hd Hp Hv Hk.
  destruct (ensure_entry_eq d name) as (d1 & E1 & G1 & S1).
  unfold build_upsert. rewrite E1. cbn [obind]. rewrite Hd. cbn [obind].
  unfold entry_ok, entry_versions in He.
  destruct (entry_or_empty d name) as [| | | | |ed]; try discriminate.
  destruct (dict_get (KStr "versions") ed) as [[| | | | |vs]|] eqn:V;
    try discriminate.
  unfold py_update at 1. cbn [py_getitem]. rewrite G1. cbn [obind py_setitem].
  rewrite Hp. cbn [obind].
  unfold py_update at 1. cbn [py_getitem]. rewrite dict_get_set_str.
  cbn [obind]. unfold py_update at 1. cbn [py_getitem].
  rewrite dict_get_set_other by reflexivity. rewrite V.
  cbn [obind]. rewrite Hv. cbn [obind py_setitem_obj]. rewrite Hk.
  reflexivity.
Qed.



Lemma index_ok_ready d name : index_ok (VDict d) -> entry_ready d name.
Proof. apply entry_or_empty_ok. Qed.

Section BuildStep.

Variable lib : pylib.




End BuildStep.

(** ** A missing manifest does not stop the run *)

Section Isolation.

Variable lib : pylib.




End Isolation.


(** The run of the sample above: [foo] is rebuilt, the warning for [bar]
    is printed, and the index written holds the entry of [foo] and, for
    [bar], the entry the prior index had. *)
Example partial_rebuild_run :
  fst (main sample_lib false partial_rebuild_world) = 0
  /\ assoc INDEX_FILE
       (pool_dir (snd (main sample_lib false partial_rebuild_world)))
     = Some (str_encode index_foo_bar_text)
  /\ stdout (snd (main sample_lib false partial_rebuild_world))
     = [ "Packaging foo"; "[i] Reading manifest";
         field_warning "license"; field_warning "authors";
         field_warning "maintainers"; "[+] a.txt";
         "Packaging bar"; "[i] Reading manifest";
         "[!] Package is invalid (no manifest)";
         "Writing index" ].
Proof. repeat split; vm_compute; reflexivity. Qed.


Example stale_index_run :
  fst (main stale_index_lib false stale_index_world) = 1
  /\ assoc INDEX_FILE (pool_dir (snd (main stale_index_lib false
                                        stale_index_world)))
     = Some (str_encode stale_index_text)
  /\ stdout (snd (main stale_index_lib false stale_index_world))
     = [ "Packaging foo"; "[i] Reading manifest";
         field_warning "license"; field_warning "authors";
         field_warning "maintainers"; "[+] a.txt";
         "Error: 'versions'"; REPAIR_HINT ].
Proof. repeat split; vm_compute; reflexivity. Qed.

(** ** Manifests that lack recognized fields *)


Example incomplete_manifest_run :
  fst (main sample_lib false incomplete_world) = 1
  /\ pool_dir (snd (main sample_lib false incomplete_world)) = []
  /\ stdout (snd (main sample_lib false incomplete_world))
     = [ "Packaging qux"; "[i] Reading manifest";
         field_warning "description"; field_warning "license";
         field_warning "authors"; field_warning "maintainers";
         field_warning "version"; field_warning "dependencies";
         "Error: 'version'"; REPAIR_HINT ].
Proof. repeat split; vm_compute; reflexivity. Qed.

Section Tolerated.

Variable lib : pylib.


End Tolerated.


(** A manifest whose version is the number 2 builds as well: the archive
    is named after the formatted number, and the index entry holds the
    number as the key of the version and as the latest version. *)
Example numbered_version_builds :
  exists w',
    build_step numbered_lib (VDict []) "num" numbered_world
    = (Ok (VDict
             [ (KStr "num",
                VDict [ (KStr "description", VStr "d");
                        (KStr "versions",
                         VDict [ (KInt 2,
                                  version_entry numbered_archive_sha256
                                    (VList [])) ]);
                        (KStr "latest_version", VInt 2) ]) ]),
       w')
    /\ pool_dir w' = [("num.2.ccp", str_encode numbered_archive_text)].
Proof. eexists. split; vm_compute; reflexivity. Qed.
